(** * finance_tracker: classification, normalization and analytics

    A shallow embedding of the algorithmic core of the repository:

    - [categorizer.py]  (class [ExpenseCategorizer]): keyword rules, the
      remote classifier, the trained text classifier, dispatch and batch
      classification;
    - [insights.py]     (class [InsightGenerator] and the module-level
      [detect_recurring_transactions]): summary, anomalies, recurring groups;
    - [utils.py]        (class [DataProcessor]): reading, renaming, cleaning
      and validating a table;
    - [app.py]          (the training button).

    Conventions of the embedding.

    - Python [str] values are [string]s; the text operations used by the
      code ([lower], [strip], [in], [join]) are written out on them.  The
      characters of [ascii] stand for the first 256 code points, on which
      [lower] and [isspace] are those of Python.
    - Python exceptions are values of [exn]; a call that may raise returns
      a [result]; [try ... except Exception] is [try_except].
    - In the analytics an amount is a cell of a float64 column: a
      binary64 number, an infinity or NaN, with the arithmetic and the
      comparisons of binary64 (the primitive floats).  The sums, means
      and deviations that pandas computes are an interface
      ([Reductions]), with the way pandas computes them on numpy as its
      instance.
    - The cleaning of the amounts takes signs and absolute values only;
      there an amount is an exact rational ([Q]) or missing, and infinite
      amounts are left out.
    - The attributes of an object that the code assigns are the fields of
      a state record which the methods take and return. *)

From Stdlib Require Import List String Ascii Bool Arith ZArith QArith Lia.
From Stdlib Require Import Qabs Sorted Permutation.
From Stdlib Require Floats Uint63.
Import ListNotations.

Local Open Scope list_scope.
Local Open Scope string_scope.

Set Warnings "-inexact-float".

(* ===================================================================== *)
(** * Python text operations                                              *)
(* ===================================================================== *)

Module PyStr.

(** [c.lower()] for one character of the first 256 code points: the
    letters 'A'..'Z' and the capital letters 0xc0..0xde (0xd7, the
    multiplication sign, is no letter) have their small letter 32 places
    further. *)
Definition lower_char (c : ascii) : ascii :=
  let n := nat_of_ascii c in
  if ((65 <=? n)%nat && (n <=? 90)%nat)
     || ((192 <=? n)%nat && (n <=? 222)%nat && negb (n =? 215)%nat)
  then ascii_of_nat (n + 32) else c.

(** [s.lower()]. *)
Fixpoint lower (s : string) : string :=
  match s with
  | EmptyString => EmptyString
  | String c s' => String (lower_char c) (lower s')
  end.

(** [pattern in s]: [pattern] occurs in [s] as a contiguous substring. *)
Fixpoint contains (pattern s : string) : bool :=
  String.prefix pattern s ||
  match s with
  | EmptyString => false
  | String _ s' => contains pattern s'
  end.

(** [c.isspace()] on the characters of the model, which are the first
    256 code points: tab, line feed, vertical tab, form feed, carriage
    return (0x09..0x0d), the four separators 0x1c..0x1f, the space, the
    next-line control 0x85 and the no-break space 0xa0. *)
Definition isspace (c : ascii) : bool :=
  let n := nat_of_ascii c in
  ((9 <=? n)%nat && (n <=? 13)%nat) ||
  ((28 <=? n)%nat && (n <=? 32)%nat) ||
  (n =? 133)%nat || (n =? 160)%nat.

(** [s.lstrip()]. *)
Fixpoint lstrip (s : string) : string :=
  match s with
  | EmptyString => EmptyString
  | String c s' => if isspace c then lstrip s' else s
  end.

(** [s.rstrip()]. *)
Fixpoint rstrip (s : string) : string :=
  match s with
  | EmptyString => EmptyString
  | String c s' =>
      match rstrip s' with
      | EmptyString => if isspace c then EmptyString else String c EmptyString
      | r => String c r
      end
  end.

(** [s.strip()]. *)
Definition strip (s : string) : string := rstrip (lstrip s).

(** [sep.join(items)]. *)
Fixpoint join (sep : string) (items : list string) : string :=
  match items with
  | [] => ""
  | [x] => x
  | x :: rest => x ++ sep ++ join sep rest
  end.

(** [x in items] for a list of strings. *)
Definition mem (x : string) (items : list string) : bool :=
  existsb (String.eqb x) items.

(** [repr(items)] for a list of strings that hold neither a quote nor a
    backslash nor a control character, as the column names below:
    ['date', 'amount']. *)
Definition repr_list (items : list string) : string :=
  "[" ++ join ", " (map (fun s => "'" ++ s ++ "'") items) ++ "]".

(** Every character of [s] is white space. *)
Fixpoint blank (s : string) : bool :=
  match s with
  | EmptyString => true
  | String c s' => isspace c && blank s'
  end.

End PyStr.

(* ===================================================================== *)
(** * Exceptions                                                          *)
(* ===================================================================== *)

Module Py.

(** The exception classes that occur in the modelled code; all of them
    derive from [Exception]. *)
Inductive exn : Type :=
| KeyError (key : string)
| IndexError
| AttributeError
| ValueError (message : string)
| NotFittedError
| APIError (message : string).

Inductive result (A : Type) : Type :=
| Ok (a : A)
| Raise (e : exn).
Arguments Ok {A} a.
Arguments Raise {A} e.

Definition bind {A B} (r : result A) (k : A -> result B) : result B :=
  match r with
  | Ok a => k a
  | Raise e => Raise e
  end.

(** [try: body  except Exception as e: handler]. *)
Definition try_except {A} (body : result A) (handler : exn -> result A)
  : result A :=
  match body with
  | Ok a => Ok a
  | Raise e => handler e
  end.

Definition raises {A} (r : result A) : Prop := exists e, r = Raise e.

End Py.

Declare Scope py_scope.
Delimit Scope py_scope with py.
Notation "x <- c ;; k" := (Py.bind c (fun x => k))
  (at level 61, c at next level, right associativity) : py_scope.
Local Open Scope py_scope.

(* ===================================================================== *)
(** * pandas tables                                                       *)
(* ===================================================================== *)

Module Pandas.
Import Py.

(** The value of one cell. *)
Inductive cell : Type :=
| Str (s : string)        (* a Python str *)
| Num (q : Q)             (* an int or a float *)
| Time (t : Z)            (* a Timestamp, in nanoseconds *)
| Missing.                (* NaN / NaT *)

(** What indexing a row by a label gives: the cell, or a Series of
    cells when several columns carry the label. *)
Inductive value : Type :=
| Scalar (c : cell)
| Series (cs : list cell).

(** A DataFrame: the column labels (duplicates allowed, as pandas allows
    them) and the rows in index order, each with one cell per column. *)
Record DataFrame : Type := mkDataFrame
  { columns : list string;
    rows : list (list cell) }.

Definition well_formed (df : DataFrame) : bool :=
  forallb (fun r => (List.length r =? List.length (columns df))%nat)
          (rows df).

(** [len(df)]. *)
Definition len (df : DataFrame) : nat := List.length (rows df).

(** The cells of [row] under the columns labelled [key]. *)
Fixpoint cells_at (cols : list string) (row : list cell) (key : string)
  : list cell :=
  match cols, row with
  | c :: cols', x :: row' =>
      if String.eqb c key then x :: cells_at cols' row' key
      else cells_at cols' row' key
  | _, _ => []
  end.

(** [row[key]]. *)
Definition row_getitem (cols : list string) (row : list cell)
                       (key : string) : result value :=
  match cells_at cols row key with
  | [] => Raise (KeyError key)
  | [c] => Ok (Scalar c)
  | cs => Ok (Series cs)
  end.

(** [row.get(key)]: [None] where [row[key]] raises KeyError. *)
Definition row_get (cols : list string) (row : list cell) (key : string)
  : option value :=
  match row_getitem cols row key with
  | Ok v => Some v
  | Raise _ => None
  end.

(** [bool(v)] for an optional value ([None] is Python's None). *)
Definition truthy (v : option value) : result bool :=
  match v with
  | None => Ok false
  | Some (Scalar (Str s)) => Ok (negb (String.eqb s ""))
  | Some (Scalar (Num q)) => Ok (negb (Qeq_bool q 0))
  | Some (Scalar (Time _)) => Ok true
  | Some (Scalar Missing) => Ok true
  | Some (Series _) =>
      Raise (ValueError "The truth value of a Series is ambiguous.")
  end.

(** One row of [df[key] = values]: every cell under a column labelled
    [key] is overwritten. *)
Fixpoint set_cells (cols : list string) (row : list cell) (key : string)
                   (v : cell) : list cell :=
  match cols, row with
  | c :: cols', x :: row' =>
      (if String.eqb c key then v else x) :: set_cells cols' row' key v
  | _, _ => row
  end.

(** [df[key] = values], [values] holding one cell per row: an existing
    column is overwritten in place, a new one is appended as the last
    column. *)
Definition setitem (df : DataFrame) (key : string) (values : list cell)
  : DataFrame :=
  if PyStr.mem key (columns df) then
    {| columns := columns df;
       rows := map (fun rv => set_cells (columns df) (fst rv) key (snd rv))
                   (combine (rows df) values) |}
  else
    {| columns := (columns df ++ [key])%list;
       rows := map (fun rv => (fst rv ++ [snd rv])%list)
                   (combine (rows df) values) |}.

(** [df[keys]] for a list of labels: for each label in turn, every
    column that carries it; KeyError when a label is carried by none. *)
Fixpoint select_labels (cols : list string) (keys : list string)
  : list string :=
  match keys with
  | [] => []
  | k :: keys' =>
      (filter (String.eqb k) cols ++ select_labels cols keys')%list
  end.

Fixpoint select_cells (cols : list string) (row : list cell)
                      (keys : list string) : list cell :=
  match keys with
  | [] => []
  | k :: keys' => (cells_at cols row k ++ select_cells cols row keys')%list
  end.

Definition getitem_list (df : DataFrame) (keys : list string)
  : result DataFrame :=
  match filter (fun k => negb (PyStr.mem k (columns df))) keys with
  | [] => Ok {| columns := select_labels (columns df) keys;
                rows := map (fun r => select_cells (columns df) r keys)
                            (rows df) |}
  | k :: _ => Raise (KeyError k)
  end.

End Pandas.

(* ===================================================================== *)
(** * categorizer.py                                                      *)
(* ===================================================================== *)

Module Categorizer.
Import PyStr Py Pandas.

(** [self.categories]. *)
Definition categories : list string :=
  [ "Food"; "Transport"; "Entertainment"; "Shopping";
    "Utilities"; "Healthcare"; "Education"; "Others" ].

(** [self.category_patterns]; a dict iterates in insertion order. *)
Definition category_patterns : list (string * list string) :=
  [ ("Food", ["restaurant"; "food"; "cafe"; "starbucks"; "mcdonald";
              "pizza"; "grocery"; "supermarket"]);
    ("Transport", ["uber"; "taxi"; "gas"; "fuel"; "parking"; "metro";
                   "bus"; "train"]);
    ("Entertainment", ["netflix"; "spotify"; "movie"; "cinema"; "game";
                       "concert"; "theater"]);
    ("Shopping", ["amazon"; "mall"; "store"; "shop"; "purchase"; "buy";
                  "clothes"]);
    ("Utilities", ["electric"; "water"; "internet"; "phone"; "rent";
                   "bill"]);
    ("Healthcare", ["hospital"; "doctor"; "pharmacy"; "medical"; "dental";
                    "health"]);
    ("Education", ["school"; "college"; "course"; "book"; "education";
                   "tuition"]) ].

(** The inner loop of [rule_based_categorization]:
    [for pattern in patterns: if pattern in description_lower: return]. *)
Fixpoint any_pattern (patterns : list string) (description_lower : string)
  : bool :=
  match patterns with
  | [] => false
  | pattern :: rest =>
      if contains pattern description_lower then true
      else any_pattern rest description_lower
  end.

(** The outer loop: the first category, in table order, one of whose
    patterns occurs; [None] when the loop runs to its end. *)
Fixpoint first_match (items : list (string * list string))
                     (description_lower : string) : option string :=
  match items with
  | [] => None
  | (category, patterns) :: rest =>
      if any_pattern patterns description_lower then Some category
      else first_match rest description_lower
  end.

(** [ExpenseCategorizer.rule_based_categorization]. *)
Definition rule_based_categorization (description : string) : string :=
  let description_lower := lower description in
  match first_match category_patterns description_lower with
  | Some category => category
  | None => "Others"
  end.

(** ** The remote chat-completion service *)

(** The user prompt.  Its text is fixed but for three interpolated
    values, kept here as fields: the joined category list, the
    description, and the amount, which the prompt shows only when
    [amount] is truthy. *)
Record prompt : Type :=
  { prompt_categories : string;
    prompt_description : value;
    prompt_amount : option value }.

(** The arguments of [chat.completions.create]. *)
Record request : Type :=
  { model : string;
    system_content : string;
    user_content : prompt;
    max_tokens : nat;
    temperature : Q }.

(** A response: for each choice its [message.content], [None] when the
    message carries no text. *)
Record completion : Type :=
  { choices : list (option string) }.

(** A client answers a request or raises (network failure, timeout,
    authentication, rate limit, protocol error). *)
Definition client : Type := request -> result completion.

Definition build_request (description : value) (amount : option value)
                         (show_amount : bool) : request :=
  {| model := "gpt-3.5-turbo";
     system_content :=
       "You are a financial assistant that categorizes expenses.";
     user_content :=
       {| prompt_categories := join ", " categories;
          prompt_description := description;
          prompt_amount := if show_amount then amount else None |};
     max_tokens := 10;
     temperature := 0 |}.

(** The statements of [openai_categorization] from the prompt to
    [response.choices[0].message.content]: building the prompt tests
    the truth value of [amount], the call may raise, the list of choices
    may be empty (IndexError), the content may be None (no [strip],
    AttributeError).  The f-string formats whatever value it is given as
    the description. *)
Definition remote_answer (create : client) (description : value)
                         (amount : option value) : result string :=
  show_amount <- truthy amount ;;
  response <- create (build_request description amount show_amount) ;;
  choice <- match choices response with
            | [] => Raise IndexError
            | c :: _ => Ok c
            end ;;
  match choice with
  | None => Raise AttributeError
  | Some text => Ok text
  end.

(** The same for a description that is text. *)
Definition remote_content (create : client) (description : string)
                          (amount : option value) : result string :=
  remote_answer create (Scalar (Str description)) amount.

(** ** scikit-learn, as far as the categorizer uses it

    The two estimator classes are kept abstract: the code only
    constructs them, fits them and asks them for a transform or a
    prediction.  A fit mutates the estimator in place, so it returns the
    estimator as the call leaves it together with the outcome. *)
Class Sklearn : Type :=
  { matrix : Type;
    tfidf : Type;
    nb : Type;
    (** [TfidfVectorizer(max_features=.., stop_words=..)] *)
    TfidfVectorizer : nat -> string -> tfidf;
    fit_transform : tfidf -> list string -> tfidf * result matrix;
    transform : tfidf -> list string -> result matrix;
    (** [train_test_split(X, y, test_size=.., random_state=..)] *)
    train_test_split :
      matrix -> list string -> Q -> nat ->
      result (matrix * matrix * list string * list string);
    (** [MultinomialNB()] *)
    MultinomialNB : nb;
    fit : nb -> matrix -> list string -> nb * result unit;
    predict : nb -> matrix -> result (list string);
    accuracy_score : list string -> list string -> result Q }.

(** A row of the training table: the two columns [train_ml_model]
    reads, [description] after [astype(str)]. *)
Record labeled : Type :=
  { description : string;
    category : string }.

Section WithSklearn.
Context {sk : Sklearn}.

(** The attributes of an [ExpenseCategorizer] that are assigned after
    construction or depend on the environment. *)
Record ExpenseCategorizer : Type :=
  { openai_client : option client;
    ml_model : option nb;
    vectorizer : option tfidf }.

Definition set_vectorizer (self : ExpenseCategorizer) (v : tfidf)
  : ExpenseCategorizer :=
  {| openai_client := openai_client self;
     ml_model := ml_model self;
     vectorizer := Some v |}.

Definition set_ml_model (self : ExpenseCategorizer) (m : nb)
  : ExpenseCategorizer :=
  {| openai_client := openai_client self;
     ml_model := Some m;
     vectorizer := vectorizer self |}.

(** [ExpenseCategorizer.openai_categorization]. *)
Definition openai_categorization (self : ExpenseCategorizer)
    (description : string) (amount : option value) : result string :=
  match openai_client self with
  | None => Ok (rule_based_categorization description)
  | Some create =>
      try_except
        (content <- remote_content create description amount ;;
         let category := strip content in
         Ok (if mem category categories then category else "Others"))
        (fun e => Ok (rule_based_categorization description))
  end.

(** [ExpenseCategorizer.train_ml_model]: the object as the call leaves
    it, and what the call returns or raises. *)
Definition train_ml_model (self : ExpenseCategorizer)
    (df : list labeled) : ExpenseCategorizer * result bool :=
  if (List.length df <? 20)%nat then (self, Ok false)
  else
    let X := map description df in
    let y := map category df in
    let self1 := set_vectorizer self (TfidfVectorizer 1000 "english") in
    let '(v, r) := fit_transform (TfidfVectorizer 1000 "english") X in
    let self2 := set_vectorizer self1 v in
    match r with
    | Raise e => (self2, Raise e)
    | Ok X_vectorized =>
        match train_test_split X_vectorized y (1 # 5) 42 with
        | Raise e => (self2, Raise e)
        | Ok (X_train, X_test, y_train, y_test) =>
            let self3 := set_ml_model self2 MultinomialNB in
            let '(m, r') := fit MultinomialNB X_train y_train in
            let self4 := set_ml_model self3 m in
            match r' with
            | Raise e => (self4, Raise e)
            | Ok _ =>
                match predict m X_test with
                | Raise e => (self4, Raise e)
                | Ok y_pred =>
                    match accuracy_score y_test y_pred with
                    | Raise e => (self4, Raise e)
                    | Ok accuracy => (self4, Ok true)
                    end
                end
            end
        end
    end.

(** [ExpenseCategorizer.ml_categorization]. *)
Definition ml_categorization (self : ExpenseCategorizer)
    (description : string) : result string :=
  match ml_model self, vectorizer self with
  | Some m, Some v =>
      try_except
        (desc_vectorized <- transform v [description] ;;
         predictions <- predict m desc_vectorized ;;
         match predictions with
         | [] => Raise IndexError
         | prediction :: _ => Ok prediction
         end)
        (fun e => Ok (rule_based_categorization description))
  | _, _ => Ok (rule_based_categorization description)
  end.

(** The labels the fitted classifier of [self] may predict are
    categories. *)
Definition predicts_categories (self : ExpenseCategorizer) : Prop :=
  forall m X labels,
    ml_model self = Some m -> predict m X = Ok labels ->
    Forall (fun label => In label categories) labels.

(** A training table of transactions: the category of every row is one
    of [self.categories], as the category of a stored transaction is. *)
Definition labelled_with_categories (df : list labeled) : Prop :=
  Forall (fun row => In (category row) categories) df.

(** The categorizers that the code builds.  [__init__] leaves the two
    trained slots empty, with or without a remote client; afterwards
    nothing but [train_ml_model] assigns a slot, and it is called with
    tables of transactions.  The call may return True or False or
    raise: the object it leaves is a categorizer of this kind in every
    case. *)
Inductive built : ExpenseCategorizer -> Prop :=
| built_init (create : option client) :
    built {| openai_client := create;
             ml_model := None;
             vectorizer := None |}
| built_train (self : ExpenseCategorizer) (df : list labeled) :
    built self -> labelled_with_categories df ->
    built (fst (train_ml_model self df)).

(** What scikit-learn guarantees about labels: [train_test_split] hands
    out labels of the table it splits, and a [MultinomialNB] predicts
    classes it was fitted on ([classes_] holds the distinct labels given
    to [fit]; a classifier whose fit failed predicts nothing else). *)
Definition keeps_labels : Prop :=
  (forall X y test_size random_state X_train X_test y_train y_test,
      train_test_split X y test_size random_state
      = Ok (X_train, X_test, y_train, y_test) ->
      incl y_train y) /\
  (forall X y X' labels,
      predict (fst (fit MultinomialNB X y)) X' = Ok labels ->
      incl labels y).

Definition is_some {A} (o : option A) : bool :=
  match o with Some _ => true | None => false end.

(** [ExpenseCategorizer.categorize_transaction]. *)
Definition categorize_transaction (self : ExpenseCategorizer)
    (description : string) (amount : option value) (method : string)
  : result string :=
  if String.eqb method "openai" && is_some (openai_client self) then
    openai_categorization self description amount
  else if String.eqb method "ml" && is_some (ml_model self) then
    ml_categorization self description
  else Ok (rule_based_categorization description).

(** [categorize_transaction] on a description that is not text: a
    number, a Timestamp, NaN, or a Series when two columns are labelled
    'description'.  Such a value has no [lower()]: the rule classifier
    raises AttributeError on it, and so does the trained path, where
    [transform] raises and the handler calls the rule classifier.  The
    remote path formats the value into its prompt and returns the answer
    of the service as it does for a text; when that path fails, its
    handler calls the rule classifier, which raises. *)
Definition categorize_other (self : ExpenseCategorizer)
    (description : value) (amount : option value) (method : string)
  : result string :=
  match (if String.eqb method "openai" then openai_client self
         else None) with
  | Some create =>
      try_except
        (content <- remote_answer create description amount ;;
         let category := strip content in
         Ok (if mem category categories then category else "Others"))
        (fun e => Raise AttributeError)
  | None => Raise AttributeError
  end.

(** The lambda of [batch_categorize] on one row. *)
Definition categorize_row (self : ExpenseCategorizer)
    (cols : list string) (method : string) (row : list cell)
  : result cell :=
  d <- row_getitem cols row "description" ;;
  match d with
  | Scalar (Str text) =>
      c <- categorize_transaction self text (row_get cols row "amount")
                                  method ;;
      Ok (Str c)
  | _ =>
      c <- categorize_other self d (row_get cols row "amount") method ;;
      Ok (Str c)
  end.

(** [df.apply(f, axis=1)] on a frame with rows: [f] on each row in
    index order; the first exception ends the call. *)
Fixpoint apply_rows (f : list cell -> result cell)
                    (rs : list (list cell)) : result (list cell) :=
  match rs with
  | [] => Ok []
  | r :: rs' =>
      c <- f r ;;
      cs <- apply_rows f rs' ;;
      Ok (c :: cs)
  end.

(** [df[key] = value] where [value] is a frame with the labels [cols]
    and no more rows than [df]: pandas compares the number of columns of
    [value] with the number of columns of [df] that carry [key], and
    then accepts a frame of one column only. *)
Definition setitem_frame (df : DataFrame) (key : string)
                         (cols : list string) : result DataFrame :=
  let carried := List.length (filter (String.eqb key) (columns df)) in
  if negb (carried =? 0)%nat && negb (carried =? List.length cols)%nat then
    Raise (ValueError "Columns must be same length as key")
  else
    match cols with
    | [] => Raise (ValueError
              "Cannot set a DataFrame without columns to the column category")
    | [_] => Ok (setitem df key [])
    | _ :: _ :: _ =>
        Raise (ValueError
          "Cannot set a DataFrame with multiple columns to the single column category")
    end.

(** [ExpenseCategorizer.batch_categorize]: the argument [df] as the
    call leaves it, and the returned frame.

    On a frame with rows and columns [DataFrame.apply(.., axis=1)] calls
    the function on every row.  On a frame without rows, or without
    columns, it calls the function once, on a row that holds NaN under
    every label, to see what it returns.  When that call raises, pandas
    swallows the exception and [apply] returns a copy of the frame; the
    assignment of a frame to the label 'category' then succeeds only if
    that frame has exactly one column.  When that call returns (the
    remote service answered for the row), [apply] returns an empty
    Series, which the assignment accepts; this needs a 'description'
    column, so the frame has columns and therefore no rows. *)
Definition batch_categorize (self : ExpenseCategorizer)
    (df : DataFrame) (method : string) : DataFrame * result DataFrame :=
  let df_copy := df in
  match rows df_copy, columns df_copy with
  | _ :: _, _ :: _ =>
      match apply_rows (categorize_row self (columns df_copy) method)
                       (rows df_copy) with
      | Raise e => (df, Raise e)
      | Ok series => (df, Ok (setitem df_copy "category" series))
      end
  | _, _ =>
      match categorize_row self (columns df_copy) method
                           (map (fun _ => Missing) (columns df_copy)) with
      | Ok _ => (df, Ok (setitem df_copy "category" []))
      | Raise _ =>
          (df, setitem_frame df_copy "category" (columns df_copy))
      end
  end.

(** What one output row owes to its input row: the cells under every
    label other than 'category' are those of the input, the cells
    under 'category' hold the result of the dispatch on that row. *)
Definition classified (self : ExpenseCategorizer) (method : string)
    (cols cols' : list string) (row row' : list cell) : Prop :=
  exists c,
    categorize_row self cols method row = Ok c /\
    (forall key, key <> "category" ->
                 cells_at cols' row' key = cells_at cols row key) /\
    Forall (eq c) (cells_at cols' row' "category") /\
    cells_at cols' row' "category" <> [].

(** The rows of a transaction table: one 'description' column, which
    holds text. *)
Definition text_description (cols : list string) (row : list cell)
  : Prop :=
  exists text, row_getitem cols row "description" = Ok (Scalar (Str text)).

End WithSklearn.

(** ** A small learner for the worked examples

    It has the two behaviours of scikit-learn on which the examples
    rely: [fit_transform] raises ValueError when every document is
    empty (no token, hence an empty vocabulary), and a fitted classifier
    predicts a label it was fitted on, which is the label itself when
    all training rows carry the same one.  The feature matrix is the
    list of documents, the split keeps the row order. *)
Definition example_learner : Sklearn :=
  {| matrix := list string;
     tfidf := bool;
     nb := option (list string);
     TfidfVectorizer := fun _ _ => false;
     fit_transform := fun v docs =>
       if forallb (String.eqb "") docs then
         (v, Raise (ValueError
            "empty vocabulary; perhaps the documents only contain stop words"))
       else (true, Ok docs);
     transform := fun v docs =>
       if v then Ok docs else Raise NotFittedError;
     train_test_split := fun X y _ _ =>
       let k := (List.length X - List.length X / 5)%nat in
       Ok (firstn k X, skipn k X, firstn k y, skipn k y);
     MultinomialNB := None;
     fit := fun _ _ y => (Some y, Ok tt);
     predict := fun m X =>
       match m with
       | Some (label :: _) => Ok (map (fun _ => label) X)
       | _ => Raise NotFittedError
       end;
     accuracy_score := fun y_true y_pred =>
       Ok (inject_Z (Z.of_nat (List.length
             (filter (fun p => String.eqb (fst p) (snd p))
                     (combine y_true y_pred))))
           / inject_Z (Z.of_nat (List.length y_true))) |}.

(** A categorizer as [__init__] leaves it without an API key. *)
Definition fresh {sk : Sklearn} : ExpenseCategorizer :=
  {| openai_client := None; ml_model := None; vectorizer := None |}.

(** A remote service that answers every request with [text]. *)
Definition answering (text : string) : client :=
  fun _ => Ok {| choices := [Some text] |}.

(** An answer padded with the next-line control and a space before the
    category, and a no-break space and a space after it. *)
Definition padded_food : string :=
  String (ascii_of_nat 133) " " ++ "Food" ++ String (ascii_of_nat 160) " ".

(** A categorizer constructed with an API key, [create] being the
    service behind its client. *)
Definition with_client {sk : Sklearn} (create : client)
  : ExpenseCategorizer :=
  {| openai_client := Some create; ml_model := None; vectorizer := None |}.

(** A table with the four standard columns and no rows, as a file that
    holds only its header line gives. *)
Definition header_only : DataFrame :=
  {| columns := ["date"; "description"; "category"; "amount"];
     rows := [] |}.

(** An uploaded table whose description column holds numbers. *)
Definition numbered : DataFrame :=
  {| columns := ["description"; "amount"];
     rows := [[Num 4411; Num 18]] |}.

(** A small uploaded table, not yet classified. *)
Definition two_purchases : DataFrame :=
  {| columns := ["date"; "description"; "amount"];
     rows := [[Str "2024-01-15"; Str "UBER *TRIP"; Num 18];
              [Str "2024-01-16"; Str "Corner bakery"; Num 4]] |}.

(** Twenty training rows with the same description and label. *)
Definition twenty (d c : string) : list labeled :=
  repeat {| description := d; category := c |} 20.

End Categorizer.

(* ===================================================================== *)
(** * The order of binary64                                               *)
(* ===================================================================== *)

Module Binary64.
Import PrimFloat.
Import SpecFloat FloatOps.

(** The place of a number in the order of binary64: its sign class,
    then its exponent and its mantissa, both negated for a negative
    number.  The two zeros have one place. *)
Definition rank (x : spec_float) : Z * Z * Z :=
  match x with
  | S754_zero _ => (0, 0, 0)%Z
  | S754_infinity true => (-2, 0, 0)%Z
  | S754_infinity false => (2, 0, 0)%Z
  | S754_nan => (3, 0, 0)%Z
  | S754_finite true m e => (-1, - e, Z.neg m)%Z
  | S754_finite false m e => (1, e, Z.pos m)%Z
  end.

Definition lexcmp (a b : Z * Z * Z) : comparison :=
  match (fst (fst a) ?= fst (fst b))%Z with
  | Eq => match (snd (fst a) ?= snd (fst b))%Z with
          | Eq => (snd a ?= snd b)%Z
          | c => c
          end
  | c => c
  end.

Definition lex_lt (a b : Z * Z * Z) : Prop :=
  (fst (fst a) < fst (fst b) \/
   (fst (fst a) = fst (fst b) /\
    (snd (fst a) < snd (fst b) \/
     (snd (fst a) = snd (fst b) /\ snd a < snd b))))%Z.

Definition place (x : float) : Z * Z * Z := rank (Prim2SF x).

End Binary64.

(* ===================================================================== *)
(** * insights.py                                                         *)
(* ===================================================================== *)

Module Insights.
Import PyStr Py.
Import PrimFloat.

(** The analytics read a classified transaction table.  Its rows are
    typed here by the four columns the code reads: descriptions and
    categories are text, a date is either still text (as read from a
    file) or already a Timestamp, and an amount is a cell of a float64
    column: a binary64 number, an infinity or NaN. *)
Inductive date_value : Type :=
| DateText (s : string)
| Timestamp (t : Z).

Record Transaction : Type :=
  { date : date_value;
    description : string;
    amount : float;
    category : string }.

Definition DataFrame : Type := list Transaction.

(** ** Numbers

    The arithmetic and the comparisons that the code writes itself
    ([mean + 2 * std], [amount > threshold], [amount * 0.15]) are those
    of binary64, the primitive floats of Rocq: every operation rounds to
    the nearest number, a comparison with NaN is false, and 0.0 equals
    -0.0. *)

(** The float of a count. *)
Definition of_nat (n : nat) : float := PrimFloat.of_uint63 (Uint63.of_nat n).

(** ** The reductions of pandas

    [Series.sum], [Series.mean], [Series.std] and the sum of one group
    of a [groupby] are computed by pandas, which hands them to numpy, to
    its own compiled loops, or to the bottleneck package when that is
    installed.  The order in which the values are added, and with it the
    last bits of the result, depends on that choice.  The analytics are
    therefore written against these four functions; [numpy_reductions]
    below computes them the way pandas does on numpy alone.  All of them
    skip NaN.

    One call of the analytics differs between the releases of pandas:
    [idxmax] of a series that holds no number gives NaN in pandas 2
    (with a warning) and raises ValueError in pandas 3. *)
Inductive pandas_release : Type :=
| pandas2
| pandas3.

Class Reductions : Type :=
  { release : pandas_release;
    (** [series.sum()] *)
    series_sum : list float -> float;
    (** [series.mean()] *)
    series_mean : list float -> float;
    (** [series.std()], with [ddof=1] *)
    series_std : list float -> float;
    (** [groupby(..)[..].sum()] on the values of one group *)
    group_sum : list float -> float }.

(** ** groupby *)

Section Groups.
Context {K V : Type}.
Variable keqb : K -> K -> bool.
Variable kltb : K -> K -> bool.

(** Add one row to the group of its key; groups are kept in order of
    first occurrence. *)
Fixpoint upsert (k : K) (init : V) (f : V -> V) (groups : list (K * V))
  : list (K * V) :=
  match groups with
  | [] => [(k, init)]
  | (k', v) :: rest =>
      if keqb k k' then (k', f v) :: rest
      else (k', v) :: upsert k init f rest
  end.

Fixpoint insert_sorted (g : K * V) (sorted : list (K * V))
  : list (K * V) :=
  match sorted with
  | [] => [g]
  | h :: rest =>
      if kltb (fst g) (fst h) then g :: sorted
      else h :: insert_sorted g rest
  end.

(** The groups in ascending key order ([groupby] sorts its keys). *)
Definition sort_index (groups : list (K * V)) : list (K * V) :=
  fold_right insert_sorted [] groups.
End Groups.

(** [df.groupby('category')['amount']]: for each category, in ascending
    order of the categories, the amounts of its rows in row order. *)
Definition category_amounts (df : DataFrame) : list (string * list float) :=
  sort_index String.ltb
    (fold_left (fun groups t =>
                  upsert String.eqb (category t) [amount t]
                         (fun values => (values ++ [amount t])%list) groups)
               df []).

(** [df['description'].value_counts()]: the descriptions with their
    counts, most frequent first; equal counts stay in order of first
    occurrence. *)
Definition description_counts (df : DataFrame) : list (string * nat) :=
  fold_left (fun groups t => upsert String.eqb (description t) 1%nat S groups)
            df [].

Fixpoint most_common (best : string * nat) (rest : list (string * nat))
  : string * nat :=
  match rest with
  | [] => best
  | g :: rest' =>
      if (snd best <? snd g)%nat then most_common g rest'
      else most_common best rest'
  end.

(** ** The largest value of a series

    [idxmax()] and [max()] skip NaN: pandas replaces NaN by minus
    infinity and takes the first of the largest values. *)
Definition fill_low {K} (g : K * float) : K * float :=
  (fst g, if PrimFloat.is_nan (snd g) then PrimFloat.neg_infinity
          else snd g).

Fixpoint first_max {K} (best : K * float) (rest : list (K * float))
  : K * float :=
  match rest with
  | [] => best
  | g :: rest' =>
      if (snd best <? snd g)%float then first_max g rest'
      else first_max best rest'
  end.

(** No value of the series is a number. *)
Definition all_na {K} (series : list (K * float)) : bool :=
  forallb (fun g => PrimFloat.is_nan (snd g)) series.

(** The entry that [idxmax()] and [max()] pick in a series that holds a
    number. *)
Definition largest {K} (g : K * float) (rest : list (K * float))
  : K * float :=
  first_max (fill_low g) (map fill_low rest).

(** The values that [generate_basic_insights] puts into its text.  The
    top category is NaN ([None]) when no total is a number. *)
Record summary : Type :=
  { total : float;
    avg_transaction : float;
    num_transactions : nat;
    top_category : option string;
    top_amount : float;
    most_frequent : string;
    frequency : nat;
    food_spending : float;
    food_savings : float }.

Inductive insights : Type :=
| NoData (message : string)
| SpendingSummary (values : summary).

(** ** Dates *)

Section Dates.
(** How pandas reads a date from text: a Timestamp, or an exception
    for text it cannot parse. *)
Variable parse_datetime : string -> result Z.

(** [pd.to_datetime] on one value and on a column. *)
Definition to_datetime (d : date_value) : result date_value :=
  match d with
  | Timestamp t => Ok (Timestamp t)
  | DateText s => t <- parse_datetime s ;; Ok (Timestamp t)
  end.

Fixpoint to_datetime_all (ds : list date_value)
  : result (list date_value) :=
  match ds with
  | [] => Ok []
  | d :: ds' =>
      d' <- to_datetime d ;;
      rest <- to_datetime_all ds' ;;
      Ok (d' :: rest)
  end.
End Dates.

Definition set_date (t : Transaction) (d : date_value) : Transaction :=
  {| date := d;
     description := description t;
     amount := amount t;
     category := category t |}.

(** The date of the row is a Timestamp already. *)
Definition parsed (t : Transaction) : bool :=
  match date t with
  | Timestamp _ => true
  | DateText _ => false
  end.

(** [timedelta(days=30)] in nanoseconds. *)
Definition thirty_days : Z := 30 * 86400 * 1000000000.

Definition date_eqb (a b : date_value) : bool :=
  match a, b with
  | DateText s, DateText s' => String.eqb s s'
  | Timestamp t, Timestamp t' => Z.eqb t t'
  | _, _ => false
  end.

(** [series.unique()]: the distinct values in order of first
    occurrence. *)
Fixpoint unique (seen ds : list date_value) : list date_value :=
  match ds with
  | [] => []
  | d :: ds' =>
      if existsb (date_eqb d) seen then unique seen ds'
      else d :: unique (d :: seen) ds'
  end.

(** [df['date'].max()] of a datetime column: NaT ([None]) when the
    column is empty. *)
Fixpoint latest (df : DataFrame) : option Z :=
  match df with
  | [] => None
  | t :: df' =>
      match date t, latest df' with
      | Timestamp a, Some b => Some (Z.max a b)
      | Timestamp a, None => Some a
      | DateText _, later => later
      end
  end.

(** [df['date'] > cutoff_date] and [df['date'] <= cutoff_date] on one
    row; a comparison with NaT is false. *)
Definition after (cutoff : option Z) (t : Transaction) : bool :=
  match date t, cutoff with
  | Timestamp a, Some c => (c <? a)%Z
  | _, _ => false
  end.

Definition not_after (cutoff : option Z) (t : Transaction) : bool :=
  match date t, cutoff with
  | Timestamp a, Some c => (a <=? c)%Z
  | _, _ => false
  end.

(** The values that [prepare_spending_summary] puts into its text. *)
Record spending_summary : Type :=
  { total_spending : float;
    category_spending : list (string * float);
    avg_daily : float;
    recent_spending : float;
    older_spending : float }.

(** The content of the first choice of a chat completion for the prompt
    built from a summary: [None] when the message has no text; a raised
    exception stands for every failure of the call. *)
Definition advisor : Type := spending_summary -> result (list (option string)).

(** What [generate_spending_insights] returns: the content of the remote
    answer, or the basic insights. *)
Inductive advice : Type :=
| Remote (content : option string)
| Basic (values : insights).

(** ** Recurring groups: the keys

    [groupby(['description', 'amount'])] leaves out the rows whose
    amount is NaN, takes two amounts for one when they are equal numbers
    (0.0 and -0.0 are), and shows each amount as it first occurs in the
    column. *)
Definition key : Type := string * float.

(** The equality of the hash table of pandas: equal numbers, or NaN
    twice. *)
Definition same_number (a b : float) : bool :=
  (a =? b)%float || (PrimFloat.is_nan a && PrimFloat.is_nan b).

Definition key_eqb (a b : key) : bool :=
  String.eqb (fst a) (fst b) && same_number (snd a) (snd b).

Definition key_ltb (a b : key) : bool :=
  match String.compare (fst a) (fst b) with
  | Lt => true
  | Eq => (snd a <? snd b)%float
  | Gt => false
  end.

(** The first value of the column that equals [x]. *)
Definition first_equal (column : list float) (x : float) : float :=
  match find (fun y => same_number y x) column with
  | Some y => y
  | None => x
  end.

Definition key_of (df : DataFrame) (t : Transaction) : key :=
  (description t, first_equal (map amount df) (amount t)).

(** [df.groupby(['description', 'amount']).size()]. *)
Definition group_sizes (df : DataFrame) : list (key * nat) :=
  sort_index key_ltb
    (fold_left (fun groups t => upsert key_eqb (key_of df t) 1%nat S groups)
               (filter (fun t => negb (PrimFloat.is_nan (amount t))) df)
               []).

(** The module-level [detect_recurring_transactions]; its first
    parameter [self] is not used. *)
Definition detect_recurring_transactions (df : DataFrame)
  : DataFrame * list (key * nat) :=
  let recurring := group_sizes df in
  (df, filter (fun g => (2 <? snd g)%nat) recurring).

(** The number of rows of [df] with the description [d] and an amount
    equal to [a]. *)
Definition occurrences (d : string) (a : float) (df : DataFrame) : nat :=
  List.length
    (filter (fun t => String.eqb (description t) d && (amount t =? a)%float)
            df).

(** The number of rows with a description. *)
Definition description_count (d : string) (df : DataFrame) : nat :=
  List.length (filter (fun t => String.eqb (description t) d) df).

(** The amounts of the rows of a category, in row order. *)
Definition category_values (c : string) (df : DataFrame) : list float :=
  map amount (filter (fun t => String.eqb (category t) c) df).

(** ** sort_values

    [series.sort_values(ascending=False)] puts the numbers from the
    largest to the smallest and NaN last.  Which of two equal values
    comes first is left to the sort of numpy, so the sort is an argument
    of the code that uses it.  [may_precede a b] says that the entry [a]
    may stand before the entry [b] in the sorted series. *)
Definition may_precede (a b : string * float) : bool :=
  PrimFloat.is_nan (snd b)
  || (negb (PrimFloat.is_nan (snd a)) && negb (snd a <? snd b)%float).

(** A stable sort: equal values stay in index order. *)
Fixpoint insert_descending (g : string * float)
                           (sorted : list (string * float))
  : list (string * float) :=
  match sorted with
  | [] => [g]
  | h :: rest =>
      if may_precede g h then g :: sorted
      else h :: insert_descending g rest
  end.

Definition stable_descending (series : list (string * float))
  : list (string * float) :=
  fold_right insert_descending [] series.

Record suggestion : Type :=
  { suggested_category : string;
    current_spending : float;
    suggested_reduction : float;
    percentage : nat }.

(** Two rows that differ in their dates at most. *)
Definition same_figures (t t' : Transaction) : Prop :=
  description t = description t' /\ amount t = amount t'
  /\ category t = category t'.

(** ** The analytics *)

Section WithReductions.
Context {pd : Reductions}.

(** [df.groupby('category')['amount'].sum()]. *)
Definition category_totals (df : DataFrame) : list (string * float) :=
  map (fun g => (fst g, group_sum (snd g))) (category_amounts df).

(** The total of one category. *)
Definition category_total (c : string) (df : DataFrame) : float :=
  group_sum (category_values c df).

(** [InsightGenerator.generate_savings_suggestions] with the sort of
    pandas: the argument as the call leaves it, and the suggestions. *)
Definition generate_savings_suggestions
    (sort_values : list (string * float) -> list (string * float))
    (df : DataFrame) : DataFrame * list suggestion :=
  let category_totals := sort_values (category_totals df) in
  let suggestions :=
    map (fun g => {| suggested_category := fst g;
                     current_spending := snd g;
                     suggested_reduction := (snd g * 0.15)%float;
                     percentage := 15 |})
        (filter (fun g => (100 <? snd g)%float)
                (firstn 3 category_totals)) in
  (df, suggestions).

(** [series.idxmax()] on the totals. *)
Definition idxmax (series : list (string * float))
  : result (option string) :=
  match series with
  | [] => Raise (ValueError "attempt to get argmax of an empty sequence")
  | g :: rest =>
      if all_na series then
        match release with
        | pandas2 => Ok None
        | pandas3 => Raise (ValueError "Encountered all NA values")
        end
      else Ok (Some (fst (largest g rest)))
  end.

(** [series.max()] on the totals: NaN when no total is a number. *)
Definition nanmax (series : list (string * float)) : float :=
  match series with
  | [] => PrimFloat.nan
  | g :: rest =>
      if all_na series then PrimFloat.nan else snd (largest g rest)
  end.

(** [InsightGenerator.generate_basic_insights]: the argument as the call
    leaves it, and the result. *)
Definition generate_basic_insights (df : DataFrame)
  : DataFrame * result insights :=
  if (List.length df =? 0)%nat then
    (df, Ok (NoData "No transaction data available for analysis."))
  else
    let amounts := map amount df in
    let total := series_sum amounts in
    let avg := series_mean amounts in
    match idxmax (category_totals df), description_counts df with
    | Raise e, _ => (df, Raise e)
    | Ok _, [] => (df, Raise IndexError)
    | Ok top, d :: descriptions =>
        let frequent := most_common d descriptions in
        let food :=
          series_sum
            (map amount
                 (filter (fun t => String.eqb (category t) "Food") df)) in
        (df, Ok (SpendingSummary
           {| total := total;
              avg_transaction := avg;
              num_transactions := List.length df;
              top_category := top;
              top_amount := nanmax (category_totals df);
              most_frequent := fst frequent;
              frequency := snd frequent;
              food_spending := food;
              food_savings :=
                if (0 <? food)%float then (food * 0.1)%float
                else 0%float |}))
    end.

(** [threshold = mean_spending + (2 * std_spending)]. *)
Definition threshold (amounts : list float) : float :=
  (series_mean amounts + 2 * series_std amounts)%float.

Section Anomalies.
Variable parse_datetime : string -> result Z.

(** [InsightGenerator.detect_spending_anomalies]: the argument [df] as
    the call leaves it, and the returned frame.  The first statement
    assigns the parsed dates to the caller's frame. *)
Definition detect_spending_anomalies (df : DataFrame)
  : DataFrame * result DataFrame :=
  match to_datetime_all parse_datetime (map date df) with
  | Raise e => (df, Raise e)
  | Ok dates =>
      let df1 := map (fun p => set_date (fst p) (snd p))
                     (combine df dates) in
      let threshold := threshold (map amount df1) in
      let anomalies :=
        filter (fun t => (threshold <? amount t)%float) df1 in
      (df1, Ok anomalies)
  end.

(** [InsightGenerator.prepare_spending_summary]: the argument [df] as the
    call leaves it, and the summary. *)
Definition prepare_spending_summary (df : DataFrame)
  : DataFrame * result spending_summary :=
  let total := series_sum (map amount df) in
  let by_category := category_totals df in
  let daily :=
    if (0 <? List.length df)%nat then
      (series_sum (map amount df)
       / of_nat (List.length (unique [] (map date df))))%float
    else 0%float in
  match to_datetime_all parse_datetime (map date df) with
  | Raise e => (df, Raise e)
  | Ok dates =>
      let df1 := map (fun p => set_date (fst p) (snd p))
                     (combine df dates) in
      let cutoff_date := option_map (fun t => (t - thirty_days)%Z)
                                    (latest df1) in
      let recent :=
        series_sum (map amount (filter (after cutoff_date) df1)) in
      let older :=
        series_sum (map amount (filter (not_after cutoff_date) df1)) in
      (df1, Ok {| total_spending := total;
                  category_spending := by_category;
                  avg_daily := daily;
                  recent_spending := recent;
                  older_spending := older |})
  end.

(** [InsightGenerator.generate_spending_insights]: the argument [df] as
    the call leaves it, and the result. *)
Definition generate_spending_insights (openai_client : option advisor)
    (df : DataFrame) : DataFrame * result advice :=
  match openai_client with
  | None =>
      let '(df', r) := generate_basic_insights df in
      (df', values <- r ;; Ok (Basic values))
  | Some create =>
      let '(df1, summary) := prepare_spending_summary df in
      match (s <- summary ;;
             contents <- create s ;;
             match contents with
             | [] => Raise IndexError
             | content :: _ => Ok (Remote content)
             end) with
      | Ok answer => (df1, Ok answer)
      | Raise e =>
          let '(df', r) := generate_basic_insights df1 in
          (df', values <- r ;; Ok (Basic values))
      end
  end.
End Anomalies.

End WithReductions.

(** ** The reductions on numpy

    What pandas computes when it has numpy alone.

    [ndarray.sum()] adds pairwise.  Fewer than 8 values are added from
    left to right.  Up to 128 values are added in eight interleaved
    partial sums, which are then added two by two, and the values left
    over after the last full run of eight are added one by one.  A
    longer array is the sum of two parts, the first with half of the
    values, rounded down to a multiple of 8.  The result is added to the
    identity 0.0. *)
Definition add_all (start : float) (values : list float) : float :=
  fold_left PrimFloat.add values start.

Fixpoint add_lanes (lanes values : list float) : list float :=
  match lanes, values with
  | r :: lanes', x :: values' => (r + x)%float :: add_lanes lanes' values'
  | _, _ => lanes
  end.

(** The loop over the runs of eight: the partial sums and the values
    left over. *)
Fixpoint unrolled (fuel : nat) (lanes values : list float)
  : list float * list float :=
  match fuel with
  | O => (lanes, values)
  | S fuel' =>
      if (8 <=? List.length values)%nat then
        unrolled fuel' (add_lanes lanes (firstn 8 values)) (skipn 8 values)
      else (lanes, values)
  end.

Definition block_sum (values : list float) : float :=
  match unrolled (List.length values) (firstn 8 values) (skipn 8 values) with
  | ([r0; r1; r2; r3; r4; r5; r6; r7], rest) =>
      add_all (((r0 + r1) + (r2 + r3)) + ((r4 + r5) + (r6 + r7)))%float
              rest
  | (_, rest) => add_all 0%float values
  end.

Fixpoint pairwise_sum (fuel : nat) (values : list float) : float :=
  let n := List.length values in
  if (n <? 8)%nat then add_all 0%float values
  else if (n <=? 128)%nat then block_sum values
  else
    match fuel with
    | O => block_sum values
    | S fuel' =>
        let n2 := (n / 2 - (n / 2) mod 8)%nat in
        (pairwise_sum fuel' (firstn n2 values)
         + pairwise_sum fuel' (skipn n2 values))%float
    end.

Definition numpy_sum (values : list float) : float :=
  (0 + pairwise_sum (List.length values) values)%float.

(** NaN replaced by zero, and the number of values that are not NaN. *)
Definition fill_zero (x : float) : float :=
  if PrimFloat.is_nan x then 0%float else x.

Definition count (values : list float) : nat :=
  List.length (filter (fun x => negb (PrimFloat.is_nan x)) values).

(** [nanops.nansum]. *)
Definition nansum (values : list float) : float :=
  numpy_sum (map fill_zero values).

(** [nanops.nanmean]: NaN without a value. *)
Definition nanmean (values : list float) : float :=
  if (0 <? count values)%nat then
    (nansum values / of_nat (count values))%float
  else PrimFloat.nan.

(** [nanops.nanvar] with [ddof=1]: the squares of the distances from the
    mean, summed and divided by the count less one; NaN for fewer than
    two values. *)
Definition nanvar (values : list float) : float :=
  if (count values <=? 1)%nat then PrimFloat.nan
  else
    let avg := (nansum values / of_nat (count values))%float in
    let sqr :=
      map (fun x => if PrimFloat.is_nan x then 0%float
                    else ((avg - x) * (avg - x))%float) values in
    (numpy_sum sqr / of_nat (count values - 1))%float.

(** [nanops.nanstd]. *)
Definition nanstd (values : list float) : float :=
  PrimFloat.sqrt (nanvar values).

(** The sum of a group is a compensated (Kahan) sum in row order, NaN
    left out; a compensation that is NaN is reset. *)
Record kahan : Type :=
  { sumx : float;
    compensation : float }.

Definition kahan_add (s : kahan) (val : float) : kahan :=
  if PrimFloat.is_nan val then s
  else
    let y := (val - compensation s)%float in
    let t := (sumx s + y)%float in
    let c := (t - sumx s - y)%float in
    {| sumx := t;
       compensation := if PrimFloat.is_nan c then 0%float else c |}.

Definition kahan_sum (values : list float) : float :=
  sumx (fold_left kahan_add values {| sumx := 0; compensation := 0 |}).

Definition numpy_reductions (version : pandas_release) : Reductions :=
  {| release := version;
     series_sum := nansum;
     series_mean := nanmean;
     series_std := nanstd;
     group_sum := kahan_sum |}.

(** ** Tables of the worked examples *)

Definition spent (d : string) (a : float) : Transaction :=
  {| date := Timestamp 0; description := d; amount := a;
     category := "Others" |}.

Definition amounts_1000 : DataFrame :=
  [spent "a" 10; spent "b" 10; spent "c" 10; spent "d" 10;
   spent "e" 1000].

Definition amounts_10000 : DataFrame :=
  [spent "a" 10; spent "b" 10; spent "c" 10; spent "d" 10;
   spent "e" 10000].

(** Six amounts: 10000 is above the threshold of about 9832. *)
Definition six_amounts : DataFrame :=
  [spent "a" 10; spent "b" 10; spent "c" 10; spent "d" 10;
   spent "e" 10; spent "f" 10000].

(** The mean of these amounts is 11.33.., their deviation 2.42.. with
    the count less one in the denominator and 2.21.. with the count:
    16 lies between the two thresholds. *)
Definition amounts_16 : DataFrame :=
  [spent "a" 10; spent "b" 10; spent "c" 10; spent "d" 10;
   spent "e" 12; spent "f" 16].

(** In exact arithmetic the threshold of these amounts is 7.8; in
    binary64 the deviation comes out below 2.6. *)
Definition amounts_tenths : DataFrame :=
  [spent "a" 1.3; spent "b" 1.3; spent "c" 1.3; spent "d" 1.3;
   spent "e" 2.6; spent "f" 7.8].

(** Two amounts whose distances from their mean have squares too small
    for binary64. *)
Definition tiny_amounts : DataFrame :=
  [spent "a" 0; spent "b" 1e-200].

Definition coffee (n : nat) : DataFrame := repeat (spent "Coffee" 5) n.

Definition text_dated : DataFrame :=
  [ {| date := DateText "2024-01-15"; description := "Coffee";
       amount := 5; category := "Food" |} ].

(** Two amounts of one category whose sum is no number. *)
Definition opposite_infinities : DataFrame :=
  [spent "a" PrimFloat.infinity; spent "b" PrimFloat.neg_infinity].

(** Three amounts of one category that sum to just above 100 in
    binary64, and two more categories. *)
Definition cents : DataFrame :=
  [ {| date := Timestamp 0; description := "a"; amount := 0.26;
       category := "Food" |};
    {| date := Timestamp 0; description := "b"; amount := 88.23;
       category := "Food" |};
    {| date := Timestamp 0; description := "c"; amount := 11.51;
       category := "Food" |};
    {| date := Timestamp 0; description := "Rent"; amount := 900;
       category := "Utilities" |};
    {| date := Timestamp 0; description := "Bus"; amount := 40;
       category := "Transport" |} ].


(** A table of the worked examples: two months of purchases. *)
Definition purchases : DataFrame :=
  [ {| date := DateText "2024-01-15"; description := "Rent";
       amount := 900; category := "Utilities" |};
    {| date := DateText "2024-01-20"; description := "Coffee";
       amount := 5; category := "Food" |};
    {| date := DateText "2024-03-01"; description := "Coffee";
       amount := 5; category := "Food" |};
    {| date := DateText "2024-03-02"; description := "Groceries";
       amount := 120; category := "Food" |} ].

(** ** A date parser for the worked examples

    It reads the dates written YYYY-MM-DD, which pandas reads as midnight
    of that day, and raises on every other text (pandas reads more
    formats than this one). *)







End Insights.

(* ===================================================================== *)
(** * utils.py                                                            *)
(* ===================================================================== *)

Module Utils.
Import PyStr Py Pandas.

(** [column_mapping] of [standardize_columns]. *)
Definition column_mapping : list (string * string) :=
  [ ("date", "date");
    ("transaction description", "description");
    ("category", "category");
    ("amount", "amount");
    ("type", "type") ].

(** One label under [df.rename(columns=mapping)]: labels that are not a
    key of the mapping stay as they are. *)
Fixpoint rename_label (mapping : list (string * string)) (label : string)
  : string :=
  match mapping with
  | [] => label
  | (old, new) :: rest =>
      if String.eqb old label then new else rename_label rest label
  end.

Definition required_columns : list string :=
  ["date"; "description"; "category"; "amount"].

(** [df.columns.str.lower().str.strip()]. *)
Definition normalize_labels (cols : list string) : list string :=
  map (fun c => strip (lower c)) cols.

(** The labels of [df] after the two renaming steps of
    [standardize_columns]. *)
Definition resolved_labels (df : DataFrame) : list string :=
  map (rename_label column_mapping) (normalize_labels (columns df)).

(** [DataProcessor.standardize_columns]: the argument [df] as the call
    leaves it (its labels are assigned in place), and the returned frame
    or the exception. *)
Definition standardize_columns (df : DataFrame)
  : DataFrame * result DataFrame :=
  let df_in := {| columns := normalize_labels (columns df);
                  rows := rows df |} in
  let df1 := {| columns := map (rename_label column_mapping)
                               (columns df_in);
                rows := rows df_in |} in
  let missing_cols :=
    filter (fun col => negb (mem col (columns df1))) required_columns in
  match missing_cols with
  | _ :: _ =>
      (df_in, Raise (ValueError ("Missing required columns: "
                                 ++ repr_list missing_cols)))
  | [] => (df_in, getitem_list df1 required_columns)
  end.

(** ** Tables of the worked examples *)

Definition no_date_table : DataFrame :=
  {| columns := ["Description"; "Category"; "Amount"];
     rows := [[Str "Coffee"; Str "Food"; Num 5]] |}.

Definition bank_export : DataFrame :=
  {| columns := [" Date"; "Transaction Description"; "Category";
                 "Amount "; "Type"; "Account"];
     rows := [[Str "2024-01-15"; Str "Coffee"; Str "Food"; Num 5;
               Str "debit"; Str "main"]] |}.

Definition two_descriptions : DataFrame :=
  {| columns := ["Date"; "Description"; "Transaction Description";
                 "Category"; "Amount"];
     rows := [[Str "2024-01-15"; Str "Coffee"; Str "COFFEE SHOP 0042";
               Str "Food"; Num 5]] |}.

(** ** Reading an upload *)

(** [s.endswith(suffix)]. *)
Definition endswith (s suffix : string) : bool :=
  (String.length suffix <=? String.length s)%nat
  && String.eqb (substring (String.length s - String.length suffix)
                           (String.length suffix) s)
                suffix.

(** An uploaded file: its name, and what [pd.read_csv] and
    [pd.read_excel] give on it. *)
Record uploaded_file : Type :=
  { name : string;
    read_csv : result DataFrame;
    read_excel : result DataFrame }.

(** The messages of [st.error]. *)
Inductive st_error : Type :=
| UnsupportedFormat
| ErrorReadingFile (e : exn).

(** [DataProcessor.parse_uploaded_file]: what it shows and what it
    returns ([None] is Python's None). *)
Definition parse_uploaded_file (file : uploaded_file)
  : list st_error * option DataFrame :=
  let read :=
    if endswith (name file) ".csv" then
      df <- read_csv file ;; Ok (Some df)
    else if endswith (name file) ".xlsx" || endswith (name file) ".xls" then
      df <- read_excel file ;; Ok (Some df)
    else Ok None in
  match read with
  | Ok None => ([UnsupportedFormat], None)
  | Ok (Some df) =>
      match snd (standardize_columns df) with
      | Ok df_cleaned => ([], Some df_cleaned)
      | Raise e => ([ErrorReadingFile e], None)
      end
  | Raise e => ([ErrorReadingFile e], None)
  end.

(** ** Cleaning the amounts

    The table is read through its amount column; [R] holds the other
    cells of a row.  The cells of a text column are text or missing, and
    its dtype is [object] (Python objects, what pandas 2 gives a text
    column read from a file) or a string dtype ([str], what pandas 3
    gives it, or [string]).  The cells of a numeric column are numbers
    or NaN. *)
Inductive text_dtype : Type :=
| object
| string_dtype.

Inductive amounts (R : Type) : Type :=
| TextAmounts (dtype : text_dtype) (rows : list (option string * R))
| NumberAmounts (rows : list (option Q * R)).
Arguments TextAmounts {R} dtype rows.
Arguments NumberAmounts {R} rows.

(** [df['amount'].dtype == 'object']. *)
Definition is_object {R} (df : amounts R) : bool :=
  match df with
  | TextAmounts object _ => true
  | _ => false
  end.

Definition is_digit (c : ascii) : bool :=
  let n := nat_of_ascii c in ((48 <=? n) && (n <=? 57))%nat.

(** [str.replace(r'[^\d.-]', '', regex=True)]: the digits, the dots and
    the minus signs of the text. *)
Fixpoint strip_symbols (s : string) : string :=
  match s with
  | EmptyString => EmptyString
  | String c s' =>
      if is_digit c || Ascii.eqb c "." || Ascii.eqb c "-"
      then String c (strip_symbols s')
      else strip_symbols s'
  end.

(** The digits of a numeral after its sign: [value] is the number read
    so far without its dot, [scale] the count of digits after the dot
    once the dot is read, [seen] whether a digit was read. *)
Fixpoint scan_decimal (value : Z) (scale : option nat) (seen : bool)
                      (s : string) : option Q :=
  match s with
  | EmptyString =>
      if seen then
        Some (inject_Z value
              / inject_Z (10 ^ Z.of_nat (match scale with
                                         | Some k => k
                                         | None => O
                                         end)))
      else None
  | String c s' =>
      if is_digit c then
        scan_decimal (10 * value + Z.of_nat (nat_of_ascii c - 48))%Z
                     (option_map S scale) true s'
      else if Ascii.eqb c "." then
        match scale with
        | None => scan_decimal value (Some O) seen s'
        | Some _ => None
        end
      else None
  end.

(** The plain decimal numerals: an optional leading minus sign, then
    digits with at most one dot among them.  [pd.to_numeric] reads
    these as their number; no other text of digits, dots and minus signs
    is a number to it. *)
Definition plain_decimal (s : string) : option Q :=
  match s with
  | String "-" s' => option_map Qopp (scan_decimal 0 None false s')
  | _ => scan_decimal 0 None false s
  end.

(** [astype(str)] on a cell of an object column. *)
Definition astype_str (c : option string) : string :=
  match c with
  | Some s => s
  | None => "nan"
  end.

(** [df.dropna(subset=[..])]. *)
Fixpoint dropna {A R} (rows : list (option A * R)) : list (A * R) :=
  match rows with
  | [] => []
  | (Some a, r) :: rows' => (a, r) :: dropna rows'
  | (None, _) :: rows' => dropna rows'
  end.

Section Amounts.
Context {R : Type}.
(** What [pd.to_numeric(.., errors='coerce')] makes of one text: the
    number it reads, NaN ([None]) when it reads none. *)
Variable read_number : string -> option Q.

(** [df['amount'].astype(str).str.replace(r'[^\d.-]', '', regex=True)]
    on a column of objects. *)
Definition remove_symbols (rows : list (option string * R))
  : list (option string * R) :=
  map (fun row => (Some (strip_symbols (astype_str (fst row))), snd row))
      rows.

(** [pd.to_numeric(df['amount'], errors='coerce')]: a missing value
    stays missing. *)
Definition to_numeric (df : amounts R) : list (option Q * R) :=
  match df with
  | TextAmounts _ rows =>
      map (fun row => (match fst row with
                       | Some text => read_number text
                       | None => None
                       end, snd row)) rows
  | NumberAmounts rows => rows
  end.

(** [DataProcessor.clean_amount_column]: the returned copy, whose amount
    column holds numbers.  The symbols are removed from a column of
    dtype object only. *)
Definition clean_amount_column (df : amounts R) : list (Q * R) :=
  let df1 :=
    match df with
    | TextAmounts dtype rows =>
        if is_object df then TextAmounts dtype (remove_symbols rows)
        else df
    | NumberAmounts _ => df
    end in
  map (fun row => (Qabs (fst row), snd row)) (dropna (to_numeric df1)).

(** A cleaned table given to the function again. *)
Definition cleaned (rows : list (Q * R)) : amounts R :=
  NumberAmounts (map (fun row => (Some (fst row), snd row)) rows).
End Amounts.

(** ** Cleaning the dates *)

Section Dates.
Context {R : Type}.
(** How pandas reads a date from text. *)
Variable parse_datetime : string -> result Z.

(** [pd.to_datetime(.., errors='coerce')] on one cell: NaT ([None]) for
    a missing value and for text that cannot be parsed. *)
Definition to_datetime_coerce (c : option Insights.date_value) : option Z :=
  match c with
  | None => None
  | Some (Insights.Timestamp t) => Some t
  | Some (Insights.DateText text) =>
      match parse_datetime text with
      | Ok t => Some t
      | Raise _ => None
      end
  end.

(** [DataProcessor.clean_date_column]: the returned copy. *)
Definition clean_date_column
    (df : list (option Insights.date_value * R)) : list (Z * R) :=
  dropna (map (fun row => (to_datetime_coerce (fst row), snd row)) df).
End Dates.

(** ** Validation *)

Fixpoint minimum (xs : list Q) : option Q :=
  match xs with
  | [] => None
  | x :: xs' =>
      match minimum xs' with
      | Some m => Some (if Qle_bool x m then x else m)
      | None => Some x
      end
  end.

Fixpoint maximum (xs : list Q) : option Q :=
  match xs with
  | [] => None
  | x :: xs' =>
      match maximum xs' with
      | Some m => Some (if Qle_bool m x then x else m)
      | None => Some x
      end
  end.

Definition below_zero (m : option Q) : bool :=
  match m with
  | Some x => negb (Qle_bool 0 x)
  | None => false
  end.

Definition above_ten_thousand (m : option Q) : bool :=
  match m with
  | Some x => negb (Qle_bool x 10000)
  | None => false
  end.

(** [DataProcessor.validate_data] on a table with a numeric amount
    column; [nulls r] is the number of missing values among the other
    cells of a row. *)
Definition validate_data {R} (nulls : R -> nat) (df : list (option Q * R))
  : list string :=
  let values := map fst (dropna df) in
  let missing :=
    (List.length (filter (fun row => match fst row with
                                     | None => true
                                     | Some _ => false
                                     end) df)
     + list_sum (map (fun row => nulls (snd row)) df))%nat in
  ((if (List.length df =? 0)%nat then ["No data rows found"] else [])
   ++ (if below_zero (minimum values) then ["Negative amounts found"]
       else [])
   ++ (if above_ten_thousand (maximum values)
       then ["Very large amounts detected - please verify"] else [])
   ++ (if (0 <? missing)%nat then ["Missing values detected"] else []))%list.

(** ** Tables of the worked examples *)

Definition statement_rows : list (option string * string) :=
  [ (Some "$1,234.56", "Laptop");
    (Some "-45.00", "Refund");
    (Some "n/a", "Pending");
    (None, "Blank");
    (Some "USD 12", "Lunch") ].

(** The amount column of a statement as pandas 2 reads it from a file,
    and as pandas 3 does. *)
Definition statement_amounts : amounts string :=
  TextAmounts object statement_rows.

Definition statement_strings : amounts string :=
  TextAmounts string_dtype statement_rows.

(** A table whose date header ends with a no-break space. *)
Definition padded_header : DataFrame :=
  {| columns := ["Date" ++ String (ascii_of_nat 160) "";
                 "Description"; "Category"; "Amount"];
     rows := [[Str "2024-01-15"; Str "Coffee"; Str "Food"; Num 5]] |}.

Definition csv_without_date : uploaded_file :=
  {| name := "bank.csv";
     read_csv := Ok no_date_table;
     read_excel := Raise (ValueError "File is not a zip file") |}.

End Utils.

(* ===================================================================== *)
(** * app.py                                                              *)
(* ===================================================================== *)

Module App.
Import Py Categorizer.

(** What a handler writes to the sidebar. *)
Inductive sidebar_message : Type :=
| Success (text : string)
| Error (text : string).

(** The handler of the 'Train ML Model' button.  [df] is the table that
    [load_data()] returned, read through its description and category
    columns.  The result is the categorizer as the handler leaves it and
    the message it shows, if any; an exception of the training is not
    caught. *)
Definition train_button {sk : Sklearn} (self : ExpenseCategorizer)
    (df : list labeled)
  : ExpenseCategorizer * result (option sidebar_message) :=
  if (50 <? List.length df)%nat then
    match train_ml_model self df with
    | (self', Raise e) => (self', Raise e)
    | (self', Ok success) =>
        if success then
          (self', Ok (Some (Success "ML model trained successfully!")))
        else
          (self', Ok (Some (Error "Insufficient data for ML training")))
    end
  else (self, Ok None).

End App.

(* ===================================================================== *)
(** * Facts about the text operations                                     *)
(* ===================================================================== *)

Module PyStrFacts.
Import PyStr.

Lemma lower_app (a b : string) : lower (a ++ b) = lower a ++ lower b.
Proof.
  induction a as [|c a IH]; simpl; [reflexivity | now rewrite IH].
Qed.

Lemma prefix_app (p b : string) : String.prefix p (p ++ b) = true.
Proof.
  induction p as [|c p IH]; simpl.
  - now destruct b.
  - destruct (ascii_dec c c) as [_|ne]; [exact IH | now elim ne].
Qed.

Lemma prefix_split (p s : string) :
  String.prefix p s = true -> exists b, s = p ++ b.
Proof.
  revert s; induction p as [|c p IH]; intros s H.
  - now exists s.
  - destruct s as [|d s]; simpl in H; [discriminate|].
    destruct (ascii_dec c d) as [->|]; [|discriminate].
    destruct (IH _ H) as [b ->]. now exists b.
Qed.

Lemma contains_cons (p s : string) (c : ascii) :
  contains p s = true -> contains p (String c s) = true.
Proof.
  intros H. unfold contains; fold contains. rewrite H. apply orb_true_r.
Qed.

(** [pattern in s] holds exactly when [s] is some text, the pattern,
    and some text. *)
Lemma contains_iff (p s : string) :
  contains p s = true <-> exists a b, s = a ++ p ++ b.
Proof.
  split.
  - induction s as [|c s IH]; simpl; intros H.
    + rewrite orb_false_r in H.
      destruct (prefix_split p "" H) as [b ->]. now exists "", b.
    + apply orb_true_iff in H as [H|H].
      * destruct (prefix_split p (String c s) H) as [b Hb].
        exists "", b. exact Hb.
      * destruct (IH H) as (a & b & ->). now exists (String c a), b.
  - intros (a & b & ->).
    induction a as [|c a IH].
    + change ("" ++ p ++ b) with (p ++ b).
      pose proof (prefix_app p b) as Hp.
      destruct (p ++ b); unfold contains; fold contains; now rewrite Hp.
    + change (String c a ++ p ++ b) with (String c (a ++ p ++ b)).
      now apply contains_cons.
Qed.

Lemma contains_app (a p b : string) : contains p (a ++ p ++ b) = true.
Proof. apply contains_iff. now exists a, b. Qed.

Lemma app_assoc (a b c : string) : (a ++ b) ++ c = a ++ b ++ c.
Proof.
  induction a as [|x a IH]; simpl; [reflexivity | now rewrite IH].
Qed.

Lemma mem_In (x : string) (l : list string) : mem x l = true <-> In x l.
Proof.
  unfold mem. rewrite existsb_exists. split.
  - intros (y & Hy & E). apply String.eqb_eq in E. now subst.
  - intros H. exists x. split; [exact H | apply String.eqb_refl].
Qed.

Lemma mem_false (x : string) (l : list string) :
  mem x l = false <-> ~ In x l.
Proof.
  rewrite <- mem_In. destruct (mem x l); split; congruence.
Qed.

(** A quoted item occurs in the joined list of quoted items. *)
Lemma contains_join (sep x : string) (items : list string) :
  In x items -> contains x (join sep items) = true.
Proof.
  induction items as [|y items IH]; [easy|].
  intros [->|H].
  - destruct items as [|z items]; simpl join.
    + apply contains_iff. exists "", "". simpl.
      induction x as [|c x IHx]; simpl; [reflexivity | now rewrite <- IHx].
    + apply (contains_app "" x).
  - specialize (IH H). destruct items as [|z items]; [easy|].
    apply contains_iff in IH as (a & b & E).
    apply contains_iff. exists (y ++ sep ++ a), b.
    change (join sep (y :: z :: items))
      with (y ++ sep ++ join sep (z :: items)).
    rewrite E, !app_assoc. reflexivity.
Qed.

Lemma contains_trans (x y s : string) :
  contains x y = true -> contains y s = true -> contains x s = true.
Proof.
  rewrite !contains_iff. intros (a & b & ->) (a' & b' & ->).
  exists (a' ++ a), (b ++ b'). now rewrite !app_assoc.
Qed.

(** [repr] of a list of labels shows each of its labels. *)
Lemma repr_list_names (x : string) (items : list string) :
  In x items -> contains x (repr_list items) = true.
Proof.
  intros H. unfold repr_list.
  apply contains_trans with (y := "'" ++ x ++ "'").
  - apply (contains_app "'" x "'").
  - apply contains_trans
      with (y := join ", " (map (fun s => "'" ++ s ++ "'") items)).
    + apply contains_join. now apply (in_map (fun s => "'" ++ s ++ "'")).
    + apply (contains_app "[" _ "]").
Qed.

Lemma lower_char_idempotent (c : ascii) :
  lower_char (lower_char c) = lower_char c.
Proof.
  destruct c as [[] [] [] [] [] [] [] []]; reflexivity.
Qed.

Lemma lower_idempotent (s : string) : lower (lower s) = lower s.
Proof.
  induction s as [|c s IH]; simpl; [reflexivity|].
  now rewrite lower_char_idempotent, IH.
Qed.

Lemma lstrip_pad (pad : string) (a : ascii) (s : string) :
  blank pad = true -> isspace a = false ->
  lstrip (pad ++ String a s) = String a s.
Proof.
  intros Hpad Ha. induction pad as [|c pad IH]; simpl.
  - now rewrite Ha.
  - simpl in Hpad. apply andb_true_iff in Hpad as [Hc Hpad].
    rewrite Hc. now apply IH.
Qed.

Lemma rstrip_blank (pad : string) : blank pad = true -> rstrip pad = "".
Proof.
  induction pad as [|c pad IH]; simpl; [reflexivity|].
  rewrite andb_true_iff. intros [Hc Hpad]. now rewrite (IH Hpad), Hc.
Qed.

Lemma rstrip_pad (pad s : string) :
  blank pad = true -> rstrip s = s -> s <> "" -> rstrip (s ++ pad) = s.
Proof.
  intros Hpad. induction s as [|a s IH]; [easy|].
  intros Hs _. simpl in Hs. simpl.
  destruct s as [|b s'].
  - simpl in *. rewrite (rstrip_blank pad Hpad).
    destruct (isspace a); [discriminate | reflexivity].
  - assert (Htail : rstrip (String b s') = String b s').
    { destruct (rstrip (String b s')) as [|x r] eqn:E.
      - destruct (isspace a); discriminate.
      - injection Hs as -> ->. reflexivity. }
    rewrite (IH Htail) by discriminate. reflexivity.
Qed.

(** A text without white space at its ends is what [strip] leaves of it
    however it is padded with white space. *)
Lemma strip_padded (before after : string) (a : ascii) (s : string) :
  blank before = true -> blank after = true ->
  isspace a = false -> rstrip (String a s) = String a s ->
  strip (before ++ String a s ++ after) = String a s.
Proof.
  intros Hb Ha Hfirst Hlast. unfold strip.
  change (String a s ++ after) with (String a (s ++ after)).
  rewrite lstrip_pad by assumption.
  change (String a (s ++ after)) with (String a s ++ after).
  now apply rstrip_pad.
Qed.

End PyStrFacts.

(* ===================================================================== *)
(** * Facts about tables                                                  *)
(* ===================================================================== *)

Module PandasFacts.
Import PyStr Py Pandas PyStrFacts.

Lemma cells_at_set_other (cols : list string) (row : list cell)
                         (k key : string) (v : cell) :
  key <> k ->
  cells_at cols (set_cells cols row k v) key = cells_at cols row key.
Proof.
  intros Hne. revert row.
  induction cols as [|c cols IH]; intros [|x row]; simpl; try reflexivity.
  destruct (String.eqb_spec c key) as [->|Hc].
  - destruct (String.eqb_spec key k) as [->|_]; [now elim Hne|].
    now rewrite IH.
  - apply IH.
Qed.

Lemma cells_at_set_same (cols : list string) (row : list cell)
                        (k : string) (v : cell) :
  Forall (eq v) (cells_at cols (set_cells cols row k v) k).
Proof.
  revert row.
  induction cols as [|c cols IH]; intros [|x row]; simpl; try constructor.
  destruct (String.eqb_spec c k); [constructor; auto | apply IH].
Qed.

Lemma cells_at_set_present (cols : list string) (row : list cell)
                           (k : string) (v : cell) :
  List.length row = List.length cols -> In k cols ->
  cells_at cols (set_cells cols row k v) k <> [].
Proof.
  revert row.
  induction cols as [|c cols IH]; intros [|x row]; simpl; try easy.
  intros [= Hlen] Hin.
  destruct (String.eqb_spec c k) as [->|Hc]; [discriminate|].
  destruct Hin as [->|Hin]; [now elim Hc | now apply IH].
Qed.

Lemma cells_at_app_other (cols : list string) (row : list cell)
                         (k key : string) (v : cell) :
  List.length row = List.length cols -> key <> k ->
  cells_at (cols ++ [k]) (row ++ [v]) key = cells_at cols row key.
Proof.
  intros Hlen Hne. revert row Hlen.
  induction cols as [|c cols IH]; intros [|x row]; simpl; try easy.
  - intros _. destruct (String.eqb_spec k key); [now subst; elim Hne|].
    reflexivity.
  - intros [= Hlen]. rewrite (IH row Hlen).
    now destruct (String.eqb c key).
Qed.

Lemma cells_at_app_same (cols : list string) (row : list cell)
                        (k : string) (v : cell) :
  List.length row = List.length cols -> ~ In k cols ->
  cells_at (cols ++ [k]) (row ++ [v]) k = [v].
Proof.
  revert row.
  induction cols as [|c cols IH]; intros [|x row]; simpl; try easy.
  - intros _ _. now rewrite String.eqb_refl.
  - intros [= Hlen] Hnin.
    destruct (String.eqb_spec c k) as [->|Hc]; [elim Hnin; now left|].
    apply IH; [exact Hlen | tauto].
Qed.

Lemma well_formed_rows (df : DataFrame) (row : list cell) :
  well_formed df = true -> In row (rows df) ->
  List.length row = List.length (columns df).
Proof.
  unfold well_formed. rewrite forallb_forall. intros H Hin.
  apply Nat.eqb_eq. now apply H.
Qed.

Lemma set_cells_unchanged (cols : list string) (row : list cell)
                          (k : string) (v : cell) :
  Forall (eq v) (cells_at cols row k) -> set_cells cols row k v = row.
Proof.
  revert row.
  induction cols as [|c cols IH]; intros [|x row]; simpl; try reflexivity.
  destruct (String.eqb c k).
  - intros H. inversion H; subst. now rewrite IH.
  - intros H. now rewrite IH.
Qed.

Lemma cells_at_absent (cols : list string) (row : list cell) (k : string) :
  ~ In k cols -> cells_at cols row k = [].
Proof.
  revert row.
  induction cols as [|c cols IH]; intros [|x row] H; simpl; try reflexivity.
  destruct (String.eqb_spec c k) as [->|_]; [elim H; now left|].
  apply IH. intros Hin. apply H. now right.
Qed.

End PandasFacts.

(* ===================================================================== *)
(** * The classifiers                                                     *)
(* ===================================================================== *)

Module CategorizerFacts.
Import PyStr Py Pandas Categorizer PyStrFacts.

(** ** The rule classifier *)

Lemma first_match_In (items : list (string * list string)) (d c : string) :
  first_match items d = Some c -> In c (map fst items).
Proof.
  induction items as [|[c' ps] items IH]; simpl; [discriminate|].
  destruct (any_pattern ps d).
  - intros [= ->]. now left.
  - intros H. right. now apply IH.
Qed.

Lemma rule_in_categories (description : string) :
  In (rule_based_categorization description) categories.
Proof.
  unfold rule_based_categorization.
  destruct (first_match category_patterns (lower description)) as [c|] eqn:E.
  - apply first_match_In in E. simpl in E. unfold categories. simpl.
    intuition.
  - unfold categories. simpl. intuition.
Qed.

Lemma any_pattern_In (patterns : list string) (pattern d : string) :
  In pattern patterns -> contains pattern d = true ->
  any_pattern patterns d = true.
Proof.
  induction patterns as [|p ps IH]; simpl; [easy|].
  intros [->|H] Hc.
  - now rewrite Hc.
  - destruct (contains p d); [reflexivity | now apply IH].
Qed.

Lemma first_match_app (earlier later : list (string * list string))
                      (d : string) :
  first_match earlier d = None ->
  first_match (earlier ++ later)%list d = first_match later d.
Proof.
  induction earlier as [|[c ps] earlier IH]; simpl; [reflexivity|].
  destruct (any_pattern ps d); [discriminate | exact IH].
Qed.

(** C3, as amended: a description that holds a keyword of the table, in
    any letter case and with any text around it, is given the category
    of that keyword provided no keyword of a category listed earlier in
    the table occurs in it as well (the first category that matches
    wins). *)
Theorem rule_keyword_first_listed
    (before keyword after category pattern : string)
    (patterns : list string)
    (earlier later : list (string * list string)) :
  category_patterns = (earlier ++ (category, patterns) :: later)%list ->
  In pattern patterns ->
  lower keyword = pattern ->
  first_match earlier (lower (before ++ keyword ++ after)) = None ->
  rule_based_categorization (before ++ keyword ++ after) = category.
Proof.
  intros Htable Hin Hlow Hearlier.
  unfold rule_based_categorization. rewrite Htable.
  rewrite first_match_app by exact Hearlier.
  simpl first_match.
  rewrite (any_pattern_In patterns pattern); [reflexivity | exact Hin |].
  rewrite !lower_app, Hlow. apply contains_app.
Qed.

Lemma rule_keyword_first_listed_witness :
  rule_based_categorization ("Paid " ++ "UBER" ++ " *TRIP 4411")
  = "Transport".
Proof.
  apply (rule_keyword_first_listed "Paid " "UBER" " *TRIP 4411"
           "Transport" "uber"
           ["uber"; "taxi"; "gas"; "fuel"; "parking"; "metro"; "bus";
            "train"]
           [("Food", ["restaurant"; "food"; "cafe"; "starbucks";
                      "mcdonald"; "pizza"; "grocery"; "supermarket"])]
           (skipn 2 category_patterns)).
  - reflexivity.
  - simpl; auto.
  - reflexivity.
  - reflexivity.
Defined.

(** C3 fails as stated: this description holds the keyword 'uber', yet
    it is classified as Food, because 'food' belongs to a category
    listed before Transport. *)
Lemma rule_uber_is_not_always_transport :
  contains "uber" (lower "Uber Eats food delivery") = true /\
  rule_based_categorization "Uber Eats food delivery" = "Food" /\
  rule_based_categorization "Uber Eats food delivery" <> "Transport".
Proof.
  repeat split; try reflexivity. vm_compute. discriminate.
Qed.

Section WithSklearn.
Context {sk : Sklearn}.

(** ** The remote classifier *)

(** C1, as amended: without a client, and whenever the remote call or
    the reading of its answer raises, the result is that of the rule
    classifier; an answer that, stripped, is one of the categories is
    returned as it is; every other answer gives 'Others' (not the rule
    classifier's category).  No exception reaches the caller. *)
Theorem openai_categorization_cases
    (self : ExpenseCategorizer) (description : string)
    (amount : option value) :
  (openai_client self = None ->
   openai_categorization self description amount
   = Ok (rule_based_categorization description)) /\
  (forall create e,
      openai_client self = Some create ->
      remote_content create description amount = Raise e ->
      openai_categorization self description amount
      = Ok (rule_based_categorization description)) /\
  (forall create text,
      openai_client self = Some create ->
      remote_content create description amount = Ok text ->
      In (strip text) categories ->
      openai_categorization self description amount
      = Ok (strip text)) /\
  (forall create text,
      openai_client self = Some create ->
      remote_content create description amount = Ok text ->
      ~ In (strip text) categories ->
      openai_categorization self description amount = Ok "Others") /\
  (exists c, openai_categorization self description amount = Ok c).
Proof.
  unfold openai_categorization.
  repeat split.
  - now intros ->.
  - intros create e -> Hr. now rewrite Hr.
  - intros create text -> Hr Hin. rewrite Hr. cbn [bind try_except].
    apply mem_In in Hin. now rewrite Hin.
  - intros create text -> Hr Hin. rewrite Hr. cbn [bind try_except].
    apply mem_false in Hin. now rewrite Hin.
  - destruct (openai_client self) as [create|]; [|eauto].
    destruct (remote_content create description amount);
      cbn [bind try_except]; eauto.
Qed.

Lemma openai_in_categories (self : ExpenseCategorizer)
    (description : string) (amount : option value) :
  exists c, openai_categorization self description amount = Ok c
            /\ In c categories.
Proof.
  unfold openai_categorization.
  destruct (openai_client self) as [create|].
  - destruct (remote_content create description amount) as [text|e];
      cbn [bind try_except].
    + destruct (mem (strip text) categories) eqn:E.
      * eexists; split; [reflexivity | now apply mem_In].
      * eexists; split; [reflexivity | unfold categories; simpl; tauto].
    + eexists; split; [reflexivity | apply rule_in_categories].
  - eexists; split; [reflexivity | apply rule_in_categories].
Qed.

(** ** The trained classifier and the dispatch *)

Lemma ml_in_categories (self : ExpenseCategorizer)
    (description : string) :
  predicts_categories self ->
  exists c, ml_categorization self description = Ok c /\ In c categories.
Proof.
  intros Hp. unfold ml_categorization.
  destruct (ml_model self) as [m|] eqn:Em;
    [|eexists; split; [reflexivity | apply rule_in_categories]].
  destruct (vectorizer self) as [v|];
    [|eexists; split; [reflexivity | apply rule_in_categories]].
  destruct (transform v [description]) as [X|e]; simpl;
    [|eexists; split; [reflexivity | apply rule_in_categories]].
  destruct (predict m X) as [labels|e] eqn:Ep; simpl;
    [|eexists; split; [reflexivity | apply rule_in_categories]].
  destruct labels as [|label labels]; simpl;
    [eexists; split; [reflexivity | apply rule_in_categories]|].
  eexists; split; [reflexivity|].
  specialize (Hp m X _ Em Ep). now inversion Hp.
Qed.

Lemma dispatch_in_categories
    (self : ExpenseCategorizer) (description : string)
    (amount : option value) (method : string) :
  predicts_categories self ->
  exists c, categorize_transaction self description amount method = Ok c
            /\ In c categories.
Proof.
  intros Hp. unfold categorize_transaction.
  destruct (String.eqb method "openai" && is_some (openai_client self)).
  - apply openai_in_categories.
  - destruct (String.eqb method "ml" && is_some (ml_model self)).
    + now apply ml_in_categories.
    + eexists; split; [reflexivity | apply rule_in_categories].
Qed.

(** Training on a table of transactions keeps the labels of the
    classifier slot among the categories, however the call ends. *)
Lemma train_predicts_categories (self : ExpenseCategorizer)
                                (df : list labeled) :
  keeps_labels -> labelled_with_categories df ->
  predicts_categories self ->
  predicts_categories (fst (train_ml_model self df)).
Proof.
  intros [Hsplit Hfit] Hdf Hself. unfold train_ml_model.
  destruct (List.length df <? 20)%nat; [exact Hself|].
  destruct (fit_transform (TfidfVectorizer 1000 "english")
                          (map description df)) as [v r].
  destruct r as [X|e0]; [|exact Hself].
  destruct (train_test_split X (map category df) (1 # 5) 42)
    as [[[[X_train X_test] y_train] y_test]|e0] eqn:Es; [|exact Hself].
  destruct (fit MultinomialNB X_train y_train) as [m r'] eqn:Ef.
  assert (Hm : forall other,
             ml_model other = Some m -> predicts_categories other).
  { intros other Ho m' X' labels Hm' Hp.
    rewrite Ho in Hm'. injection Hm' as <-.
    replace m with (fst (fit MultinomialNB X_train y_train)) in Hp
      by now rewrite Ef.
    apply Hfit in Hp. apply Forall_forall. intros label Hl.
    apply Hp in Hl.
    apply (Hsplit _ _ _ _ _ _ _ _ Es) in Hl.
    apply in_map_iff in Hl as (row & <- & Hrow).
    unfold labelled_with_categories in Hdf. rewrite Forall_forall in Hdf.
    now apply Hdf. }
  destruct r' as [u|e0]; [|now apply Hm].
  destruct (predict m X_test) as [y_pred|e0]; [|now apply Hm].
  destruct (accuracy_score y_test y_pred) as [accuracy|e0]; now apply Hm.
Qed.

Lemma built_predicts_categories (self : ExpenseCategorizer) :
  keeps_labels -> built self -> predicts_categories self.
Proof.
  intros Hsk. induction 1 as [create|self df _ IH Hdf].
  - intros m X labels Hm. discriminate.
  - now apply train_predicts_categories.
Qed.

(** C2: whatever the description, the amount, the method and the remote
    answer, and whatever tables of transactions the categorizer has been
    trained on, with whatever outcome, the dispatch returns (it does not
    raise) one of the eight categories.  The trained path returns a
    label of the training table, and the labels of transactions are
    categories. *)
Theorem categorize_transaction_in_categories
    (self : ExpenseCategorizer) (description : string)
    (amount : option value) (method : string) :
  keeps_labels -> built self ->
  exists c, categorize_transaction self description amount method = Ok c
            /\ In c categories.
Proof.
  intros Hsk Hself.
  now apply dispatch_in_categories, built_predicts_categories.
Qed.

End WithSklearn.

(** C1 fails as stated: the service answers 'Travel', which is not a
    category; the result is 'Others', although the rule classifier gives
    'Transport' for this description. *)
Lemma openai_unknown_answer_is_not_rule :
  ~ In "Travel" categories /\
  openai_categorization (sk := example_learner)
    (with_client (answering "Travel")) "uber ride" None = Ok "Others" /\
  rule_based_categorization "uber ride" = "Transport".
Proof.
  repeat split; try reflexivity.
  unfold categories; simpl. intuition discriminate.
Qed.

Lemma categorize_transaction_in_categories_witness :
  categorize_transaction (sk := example_learner)
    (fst (train_ml_model fresh (twenty "coffee beans" "Food")))
    "coffee to go" None "ml" = Ok "Food" /\
  exists c,
    categorize_transaction (sk := example_learner)
      (fst (train_ml_model fresh (twenty "coffee beans" "Food")))
      "coffee to go" None "ml" = Ok c
    /\ In c categories.
Proof.
  split; [reflexivity|].
  apply (categorize_transaction_in_categories (sk := example_learner)).
  - split.
    + intros X y test_size random_state X_train X_test y_train y_test H.
      simpl in H. injection H as _ _ <- _. intros label Hl.
      rewrite <- (firstn_skipn (List.length X - List.length X / 5) y).
      apply in_or_app. now left.
    + intros X y X' labels H. simpl in H.
      destruct y as [|label y]; [discriminate|]. injection H as <-.
      intros l Hl. apply in_map_iff in Hl as (_ & <- & _). now left.
  - apply (built_train fresh (twenty "coffee beans" "Food")).
    + apply built_init.
    + unfold labelled_with_categories, twenty.
      apply Forall_forall. intros row Hrow. apply repeat_spec in Hrow.
      subst row. unfold categories. simpl. auto.
Defined.

(** ** Training *)

Section Training.
Context {sk : Sklearn}.

(** C4, as amended: with fewer than 20 rows the call returns False and
    leaves the object as it was.  With 20 rows or more the vectorizer
    slot is assigned before anything is fitted, so it holds the new
    transform however the call ends; a call that returns True has
    replaced both slots by objects that depend on the table alone; a
    call that raises leaves the classifier slot either as it was (new
    transform, old classifier) or holding the new classifier. *)
Theorem train_ml_model_slots (self : ExpenseCategorizer)
                             (df : list labeled) :
  ((List.length df < 20)%nat ->
   train_ml_model self df = (self, Ok false)) /\
  ((20 <= List.length df)%nat ->
   snd (train_ml_model self df) <> Ok false /\
   exists v,
     vectorizer (fst (train_ml_model self df)) = Some v /\
     forall other,
       vectorizer (fst (train_ml_model other df)) = Some v) /\
  (snd (train_ml_model self df) = Ok true ->
   exists v m,
     forall other,
       train_ml_model other df
       = ({| openai_client := openai_client other;
             ml_model := Some m;
             vectorizer := Some v |}, Ok true)) /\
  (forall e,
      snd (train_ml_model self df) = Raise e ->
      ml_model (fst (train_ml_model self df)) = ml_model self \/
      exists m,
        forall other,
          ml_model (fst (train_ml_model other df)) = Some m).
Proof.
  unfold train_ml_model.
  destruct (List.length df <? 20)%nat eqn:Hlen.
  - apply Nat.ltb_lt in Hlen.
    repeat split; try (intros; simpl in *; (lia || discriminate)).
  - apply Nat.ltb_ge in Hlen.
    destruct (fit_transform (TfidfVectorizer 1000 "english")
                            (map description df)) as [v r].
    split; [intros; lia|].
    destruct r as [X|e0]; simpl.
    2:{ repeat split; try discriminate; eauto. }
    destruct (train_test_split X (map category df) (1 # 5) 42)
      as [[[[X_train X_test] y_train] y_test]|e0]; simpl.
    2:{ repeat split; try discriminate; eauto. }
    destruct (fit MultinomialNB X_train y_train) as [m r'].
    destruct r' as [u|e0]; simpl.
    2:{ repeat split; try discriminate; eauto. }
    destruct (predict m X_test) as [y_pred|e0]; simpl.
    2:{ repeat split; try discriminate; eauto. }
    destruct (accuracy_score y_test y_pred) as [accuracy|e0]; simpl.
    2:{ repeat split; try discriminate; eauto. }
    repeat split; try discriminate; eauto.
    intros _. exists v, m. reflexivity.
Qed.

End Training.

(** C4 fails as stated: twenty rows whose descriptions are empty give an
    empty vocabulary; the call raises, and it leaves a new, unfitted
    transform in the vectorizer slot next to the classifier slot as it
    was. *)
Lemma train_failure_keeps_new_vectorizer :
  (exists e, snd (train_ml_model (sk := example_learner) fresh
                    (twenty "" "Food")) = Raise e) /\
  vectorizer (fst (train_ml_model (sk := example_learner) fresh
                     (twenty "" "Food")))
  <> vectorizer (sk := example_learner) fresh /\
  ml_model (fst (train_ml_model (sk := example_learner) fresh
                   (twenty "" "Food")))
  = ml_model (sk := example_learner) fresh.
Proof.
  repeat split.
  - eexists. reflexivity.
  - vm_compute. discriminate.
Qed.

(** ** Batch classification *)

Section Batch.
Context {sk : Sklearn}.
Import PandasFacts.

Lemma apply_rows_Forall2 (f : list cell -> result cell)
    (rs : list (list cell)) (cs : list cell) :
  apply_rows f rs = Ok cs -> Forall2 (fun r c => f r = Ok c) rs cs.
Proof.
  revert cs. induction rs as [|r rs IH]; simpl; intros cs H.
  - injection H as <-. constructor.
  - destruct (f r) as [c|e] eqn:Ef; simpl in H; [|discriminate].
    destruct (apply_rows f rs) as [cs'|e]; simpl in H; [|discriminate].
    injection H as <-. constructor; [exact Ef | now apply IH].
Qed.

(** On a frame with rows and columns the function is applied to every
    row. *)
Lemma batch_categorize_apply (self : ExpenseCategorizer)
    (df : DataFrame) (method : string) :
  rows df <> [] -> columns df <> [] ->
  batch_categorize self df method
  = match apply_rows (categorize_row self (columns df) method)
                     (rows df) with
    | Raise e => (df, Raise e)
    | Ok series => (df, Ok (setitem df "category" series))
    end.
Proof.
  intros Hrows Hcols. unfold batch_categorize.
  destruct (rows df) as [|r0 rs0]; [now elim Hrows|].
  destruct (columns df) as [|c0 cs0]; [now elim Hcols|].
  reflexivity.
Qed.

(** A frame with rows and without columns is refused. *)
Lemma batch_categorize_no_columns (self : ExpenseCategorizer)
    (df : DataFrame) (method : string) :
  columns df = [] ->
  exists message,
    batch_categorize self df method = (df, Raise (ValueError message)).
Proof.
  destruct df as [cols rs]. simpl. intros ->.
  destruct rs; eexists; reflexivity.
Qed.

(** On a table with rows, [batch_categorize] leaves its argument as it
    was and returns the rows in their order, each with its category
    set and its other cells untouched. *)
Lemma batch_categorize_rows (self : ExpenseCategorizer)
    (df df_after out : DataFrame) (method : string) :
  well_formed df = true ->
  rows df <> [] ->
  batch_categorize self df method = (df_after, Ok out) ->
  df_after = df /\
  columns out = (if mem "category" (columns df) then columns df
                 else columns df ++ ["category"])%list /\
  Forall2 (classified self method (columns df) (columns out))
          (rows df) (rows out).
Proof.
  intros Hwf Hrows.
  destruct (columns df) as [|c0 cs0] eqn:Ec.
  { destruct (batch_categorize_no_columns self df method Ec) as [msg ->].
    discriminate. }
  rewrite <- Ec in *.
  rewrite batch_categorize_apply by (assumption || (rewrite Ec; discriminate)).
  clear Ec c0 cs0.
  destruct (rows df) as [|r0 rs0] eqn:Er; [now elim Hrows|].
  rewrite <- Er. clear Hrows.
  destruct (apply_rows (categorize_row self (columns df) method)
                       (rows df)) as [series|e] eqn:Ea;
    [|discriminate].
  intros [= <- <-]. split; [reflexivity|].
  apply apply_rows_Forall2 in Ea.
  assert (Hlen : forall row, In row (rows df) ->
            List.length row = List.length (columns df))
    by (intros; now apply well_formed_rows).
  unfold setitem.
  destruct (mem "category" (columns df)) eqn:Em; simpl;
    (split; [reflexivity|]).
  - apply mem_In in Em. clear Er.
    induction Ea as [|row c rs cs Hf _ IH]; simpl; constructor.
    + exists c. repeat split.
      * exact Hf.
      * intros key Hk. now apply cells_at_set_other.
      * apply cells_at_set_same.
      * apply cells_at_set_present; [apply Hlen; now left | exact Em].
    + apply IH. intros; apply Hlen; now right.
  - apply mem_false in Em. clear Er.
    induction Ea as [|row c rs cs Hf _ IH]; simpl; constructor.
    + assert (Hl : List.length row = List.length (columns df))
        by (apply Hlen; now left).
      exists c. repeat split.
      * exact Hf.
      * intros key Hk. now apply cells_at_app_other.
      * rewrite cells_at_app_same by assumption. now constructor.
      * now rewrite cells_at_app_same by assumption.
    + apply IH. intros; apply Hlen; now right.
Qed.

End Batch.

Lemma categorize_transaction_total {sk : Sklearn}
    (self : ExpenseCategorizer) (description : string)
    (amount : option value) (method : string) :
  exists c, categorize_transaction self description amount method = Ok c.
Proof.
  unfold categorize_transaction.
  destruct (String.eqb method "openai" && is_some (openai_client self)).
  - destruct (openai_in_categories self description amount) as (c & H & _).
    eauto.
  - destruct (String.eqb method "ml" && is_some (ml_model self));
      [|eauto].
    unfold ml_categorization.
    destruct (ml_model self) as [m|]; [|eauto].
    destruct (vectorizer self) as [v|]; [|eauto].
    destruct (transform v [description]) as [X|e]; simpl; [|eauto].
    destruct (predict m X) as [[|label labels]|e]; simpl; eauto.
Qed.


(** C7 at a table without rows: the call raises instead of returning a
    copy. *)
Theorem batch_categorize_header_only :
  batch_categorize (sk := example_learner) fresh header_only "rule"
  = (header_only, Raise (ValueError "Columns must be same length as key")).
Proof. reflexivity. Qed.

(** ** Further properties of the classifiers *)

Lemma any_pattern_false (patterns : list string) (d : string) :
  any_pattern patterns d = false <->
  forall pattern, In pattern patterns -> contains pattern d = false.
Proof.
  induction patterns as [|p ps IH]; simpl.
  - split; [intros _ ? [] | reflexivity].
  - destruct (contains p d) eqn:E.
    + split; [discriminate|]. intros H. rewrite <- E. apply H. now left.
    + rewrite IH. split.
      * intros H pattern [<-|Hin]; [exact E | now apply H].
      * intros H pattern Hin. apply H. now right.
Qed.

Lemma first_match_None (items : list (string * list string)) (d : string) :
  first_match items d = None <->
  forall category patterns pattern,
    In (category, patterns) items -> In pattern patterns ->
    contains pattern d = false.
Proof.
  induction items as [|[c ps] items IH]; simpl.
  - split; [intros _ ? ? ? [] | reflexivity].
  - destruct (any_pattern ps d) eqn:E.
    + split; [discriminate|]. intros H.
      assert (Hf : any_pattern ps d = false)
        by (apply any_pattern_false; intros p Hp; apply (H c ps p); auto).
      congruence.
    + rewrite IH. rewrite any_pattern_false in E. split.
      * intros H category patterns pattern [[= <- <-]|Hin] Hp;
          [now apply E | now apply (H category patterns)].
      * intros H category patterns pattern Hin Hp.
        apply (H category patterns pattern); [now right | exact Hp].
Qed.

(** X1: the rule classifier answers 'Others' exactly when no keyword of
    the table occurs in the lower-cased description; every other answer
    is one of the seven categories of the table. *)
Theorem rule_others_iff (description : string) :
  (rule_based_categorization description = "Others" <->
   forall category patterns pattern,
     In (category, patterns) category_patterns -> In pattern patterns ->
     contains pattern (lower description) = false) /\
  (rule_based_categorization description <> "Others" ->
   In (rule_based_categorization description) (map fst category_patterns)).
Proof.
  unfold rule_based_categorization.
  destruct (first_match category_patterns (lower description)) as [c|] eqn:E.
  - pose proof (first_match_In _ _ _ E) as Hin. split; [|now intros _].
    split.
    + intros ->. simpl in Hin. intuition discriminate.
    + intros H. apply first_match_None in H. congruence.
  - split; [|now intros H; elim H].
    split; [intros _; now apply first_match_None | reflexivity].
Qed.

(** X2: the rule classifier ignores letter case: two descriptions with
    the same lower-case form get the same category, and a description
    gets the category of its lower-case form. *)
Theorem rule_ignores_case (d1 d2 : string) :
  (lower d1 = lower d2 ->
   rule_based_categorization d1 = rule_based_categorization d2) /\
  rule_based_categorization (lower d1) = rule_based_categorization d1.
Proof.
  unfold rule_based_categorization. split.
  - now intros ->.
  - now rewrite lower_idempotent.
Qed.

(** X3: an answer of the remote service that is a category surrounded by
    any white space (spaces, tabs, line ends, the next-line control,
    no-break spaces) is returned as that category. *)
Theorem openai_answer_padded {sk : Sklearn} (self : ExpenseCategorizer)
    (create : client) (description : string) (amount : option value)
    (before after category : string) :
  openai_client self = Some create ->
  remote_content create description amount
  = Ok (before ++ category ++ after) ->
  blank before = true -> blank after = true ->
  In category categories ->
  openai_categorization self description amount = Ok category.
Proof.
  intros Hc Hr Hb Ha Hin. unfold openai_categorization.
  rewrite Hc, Hr. cbn [bind try_except].
  assert (Hs : strip (before ++ category ++ after) = category).
  { unfold categories in Hin. simpl in Hin.
    repeat (destruct Hin as [<-|Hin];
            [now apply strip_padded|]).
    contradiction. }
  rewrite Hs. apply mem_In in Hin. now rewrite Hin.
Qed.

Lemma openai_answer_padded_witness :
  openai_categorization (sk := example_learner)
    (with_client (answering padded_food)) "lunch" None = Ok "Food".
Proof.
  apply (openai_answer_padded (sk := example_learner)
           (with_client (answering padded_food)) (answering padded_food)
           "lunch" None (String (ascii_of_nat 133) " ")
           (String (ascii_of_nat 160) " ") "Food");
    try reflexivity.
  unfold categories; simpl; auto.
Defined.

(** X4: the trained classifier falls back on the rule classifier when no
    model or no vectorizer is present, when the transform or the
    prediction raises, and when the prediction is empty; otherwise it
    returns the first predicted label.  It never raises. *)
Theorem ml_categorization_fallback {sk : Sklearn}
    (self : ExpenseCategorizer) (description : string) :
  (ml_model self = None \/ vectorizer self = None ->
   ml_categorization self description
   = Ok (rule_based_categorization description)) /\
  (forall m v e,
      ml_model self = Some m -> vectorizer self = Some v ->
      transform v [description] = Raise e ->
      ml_categorization self description
      = Ok (rule_based_categorization description)) /\
  (forall m v X,
      ml_model self = Some m -> vectorizer self = Some v ->
      transform v [description] = Ok X ->
      ml_categorization self description
      = Ok (match predict m X with
            | Ok (label :: _) => label
            | _ => rule_based_categorization description
            end)) /\
  (exists c, ml_categorization self description = Ok c).
Proof.
  unfold ml_categorization. split; [|split; [|split]].
  - intros [->| ->]; [reflexivity|]. now destruct (ml_model self).
  - intros m v e -> -> Ht. now rewrite Ht.
  - intros m v X -> -> Ht. rewrite Ht. cbn [bind try_except].
    now destruct (predict m X) as [[|label labels]|e].
  - destruct (ml_model self) as [m|]; [|eauto].
    destruct (vectorizer self) as [v|]; [|eauto].
    destruct (transform v [description]) as [X|e]; simpl; [|eauto].
    destruct (predict m X) as [[|label labels]|e]; simpl; eauto.
Qed.

(** X5: without a remote client and without a trained model every
    method gives the result of the rule classifier, and so does, for
    every categorizer, a method other than 'openai' and 'ml' (the names
    are compared as they are written). *)
Theorem categorize_transaction_fallback {sk : Sklearn}
    (self : ExpenseCategorizer) (description : string)
    (amount : option value) (method : string) :
  (openai_client self = None -> ml_model self = None ->
   categorize_transaction self description amount method
   = Ok (rule_based_categorization description)) /\
  (method <> "openai" -> method <> "ml" ->
   categorize_transaction self description amount method
   = Ok (rule_based_categorization description)).
Proof.
  unfold categorize_transaction. split.
  - intros -> ->. simpl. now rewrite !andb_false_r.
  - intros H1 H2. apply String.eqb_neq in H1, H2. now rewrite H1, H2.
Qed.

(** X6: the dispatch never raises: whatever the method, the remote
    service and the fitted estimators do, [categorize_transaction]
    returns a category. *)
Theorem categorize_transaction_never_raises {sk : Sklearn}
    (self : ExpenseCategorizer) (description : string)
    (amount : option value) (method : string) :
  exists c, categorize_transaction self description amount method = Ok c.
Proof.
  destruct (categorize_transaction self description amount method)
    as [c|e] eqn:E; [eauto|].
  destruct (categorize_transaction_total self description amount method)
    as [c Hc]. congruence.
Qed.

(** ** Further properties of the batch *)



(** Off the remote path a description that is not text makes the
    classification raise. *)
Lemma categorize_other_raises {sk : Sklearn} (self : ExpenseCategorizer)
    (description : value) (amount : option value) (method : string) :
  String.eqb method "openai" && is_some (openai_client self) = false ->
  categorize_other self description amount method = Raise AttributeError.
Proof.
  intros H. unfold categorize_other.
  destruct (String.eqb method "openai"); [|reflexivity].
  now destruct (openai_client self).
Qed.

Lemma categorize_row_raises {sk : Sklearn} (self : ExpenseCategorizer)
    (cols : list string) (method : string) (row : list cell) :
  String.eqb method "openai" && is_some (openai_client self) = false ->
  ~ text_description cols row ->
  exists e, categorize_row self cols method row = Raise e.
Proof.
  intros Hlocal H. unfold categorize_row.
  destruct (row_getitem cols row "description") as [v|e] eqn:E;
    [|simpl; eauto].
  destruct v as [[text| | |]|cs]; cbn [bind];
    rewrite ?(categorize_other_raises self _ _ method Hlocal);
    cbn [bind]; eauto.
  elim H. now exists text.
Qed.

(** X8: no partial result off the remote path: when some row of a table
    with rows has no text description (no such column, a number, a
    missing value, or two columns with that label) and the method is not
    'openai' or there is no remote client, the call raises and returns
    no table; the table given is left as it was.  Whatever the method,
    a table with rows and columns but no 'description' column raises the
    KeyError of that label.  On the remote path a description that is
    not text is formatted into the prompt like a text, and the row gets
    the category that the service answers: a table whose description
    column holds numbers is classified by it. *)
Theorem batch_categorize_raises {sk : Sklearn} (self : ExpenseCategorizer)
    (df : DataFrame) (method : string) :
  (rows df <> [] ->
   String.eqb method "openai" && is_some (openai_client self) = false ->
   Exists (fun row => ~ text_description (columns df) row) (rows df) ->
   exists e, batch_categorize self df method = (df, Raise e)) /\
  (rows df <> [] -> columns df <> [] -> ~ In "description" (columns df) ->
   batch_categorize self df method = (df, Raise (KeyError "description"))) /\
  (forall create row d text,
      openai_client self = Some create ->
      row_getitem (columns df) row "description" = Ok d ->
      ~ text_description (columns df) row ->
      remote_answer create d (row_get (columns df) row "amount") = Ok text ->
      categorize_row self (columns df) "openai" row
      = Ok (Str (if mem (strip text) categories then strip text
                 else "Others"))) /\
  batch_categorize (sk := example_learner) (with_client (answering "Food"))
                   numbered "openai"
  = (numbered, Ok (setitem numbered "category" [Str "Food"])).
Proof.
  split; [|split; [|split; [|reflexivity]]].
  - intros Hrows Hlocal Hbad.
    destruct (columns df) as [|c0 cs0] eqn:Ec.
    { destruct (batch_categorize_no_columns self df method Ec) as [msg ->].
      eauto. }
    rewrite <- Ec in *.
    rewrite batch_categorize_apply by (assumption || (rewrite Ec; discriminate)).
    clear Ec Hrows.
    assert (H : exists e,
               apply_rows (categorize_row self (columns df) method) (rows df)
               = Raise e).
    { induction Hbad as [row rs Hrow|row rs _ IH]; simpl.
      - destruct (categorize_row_raises self (columns df) method row
                    Hlocal Hrow) as [e ->]. simpl. eauto.
      - destruct (categorize_row self (columns df) method row); simpl;
          [|eauto].
        destruct IH as [e ->]. simpl. eauto. }
    destruct H as [e ->]. eauto.
  - intros Hrows Hcols Hno.
    rewrite batch_categorize_apply by assumption.
    destruct (rows df) as [|r0 rs0] eqn:Er; [now elim Hrows|].
    simpl. unfold categorize_row at 1, row_getitem.
    rewrite (PandasFacts.cells_at_absent _ _ _ Hno). reflexivity.
  - intros create row d text Hc Hd Hrow Hr. unfold categorize_row.
    rewrite Hd. cbn [bind].
    assert (Ho : categorize_other self d
                   (row_get (columns df) row "amount") "openai"
                 = Ok (if mem (strip text) categories then strip text
                       else "Others")).
    { unfold categorize_other. rewrite String.eqb_refl, Hc, Hr.
      reflexivity. }
    destruct d as [[text'| | |]|cs]; rewrite ?Ho; try reflexivity.
    elim Hrow. now exists text'.
Qed.

Lemma classified_again {sk : Sklearn} (self : ExpenseCategorizer)
    (method : string) (cols cols' : list string)
    (rs rs' : list (list cell)) :
  Forall2 (classified self method cols cols') rs rs' ->
  exists series,
    apply_rows (categorize_row self cols' method) rs' = Ok series /\
    map (fun rv => set_cells cols' (fst rv) "category" (snd rv))
        (combine rs' series) = rs'.
Proof.
  induction 1 as [|row row' rs rs' (c & Hc & Hother & Hcat & _) _ IH].
  - exists []. split; reflexivity.
  - destruct IH as (series & Ha & Hm).
    exists (c :: series). split.
    + simpl.
      assert (Hrow : categorize_row self cols' method row' = Ok c).
      { rewrite <- Hc. unfold categorize_row, row_get, row_getitem.
        rewrite (Hother "description") by discriminate.
        rewrite (Hother "amount") by discriminate. reflexivity. }
      rewrite Hrow, Ha. reflexivity.
    + simpl. rewrite Hm.
      now rewrite (PandasFacts.set_cells_unchanged cols' row' "category" c).
Qed.

(** X9: classifying a classified table again changes nothing: when
    [batch_categorize] has returned a table for a table with rows, the
    same call on the returned table returns that table (the remote
    service, if it is used, giving the same answers to the same
    requests). *)
Theorem batch_categorize_again {sk : Sklearn} (self : ExpenseCategorizer)
    (df out : DataFrame) (method : string) :
  well_formed df = true ->
  rows df <> [] ->
  batch_categorize self df method = (df, Ok out) ->
  batch_categorize self out method = (out, Ok out).
Proof.
  intros Hwf Hrows Hout.
  destruct (batch_categorize_rows self df df out method Hwf Hrows Hout)
    as (_ & Hcols & Hclass).
  destruct (classified_again self method _ _ _ _ Hclass)
    as (series & Ha & Hm).
  assert (Hmem : mem "category" (columns out) = true).
  { rewrite Hcols. destruct (mem "category" (columns df)) eqn:E;
      [exact E|].
    apply mem_In, in_or_app. right. now left. }
  assert (Hrows' : rows out <> []).
  { apply Forall2_length in Hclass. intros E. rewrite E in Hclass.
    destruct (rows df); [now elim Hrows | discriminate]. }
  assert (Hcols' : columns out <> []).
  { intros E. rewrite E in Hmem. discriminate. }
  rewrite batch_categorize_apply by assumption.
  rewrite Ha. unfold setitem. rewrite Hmem, Hm.
  now destruct out.
Qed.

Lemma batch_categorize_again_witness :
  batch_categorize (sk := example_learner) fresh
    (setitem two_purchases "category" [Str "Transport"; Str "Others"])
    "rule"
  = (setitem two_purchases "category" [Str "Transport"; Str "Others"],
     Ok (setitem two_purchases "category" [Str "Transport"; Str "Others"])).
Proof.
  apply (batch_categorize_again (sk := example_learner) fresh
           two_purchases _ "rule").
  - reflexivity.
  - discriminate.
  - reflexivity.
Defined.

End CategorizerFacts.

(* ===================================================================== *)
(** * binary64                                                            *)
(* ===================================================================== *)

Module Binary64Facts.
Import PrimFloat.
Import SpecFloat FloatOps FloatAxioms.
Import Binary64.

Lemma SFcompare_rank (x y : spec_float) :
  x <> S754_nan -> y <> S754_nan ->
  SFcompare x y = Some (lexcmp (rank x) (rank y)).
Proof.
  intros Hx Hy.
  destruct x as [sx|sx| |sx mx ex]; try congruence;
    destruct y as [sy|sy| |sy my ey]; try congruence;
    try destruct sx; try destruct sy; try reflexivity;
    unfold lexcmp; cbn [SFcompare rank fst snd];
    rewrite Z.compare_refl.
  rewrite Z.compare_opp.
  destruct (Z.compare_spec ex ey) as [->|H|H].
  - rewrite Z.compare_refl. reflexivity.
  - apply Z.compare_gt_iff in H. rewrite H. reflexivity.
  - apply Z.compare_lt_iff in H. rewrite H. reflexivity.
Qed.

Lemma lexcmp_Lt (a b : Z * Z * Z) : lexcmp a b = Lt <-> lex_lt a b.
Proof.
  unfold lexcmp, lex_lt.
  destruct (Z.compare_spec (fst (fst a)) (fst (fst b)));
    destruct (Z.compare_spec (snd (fst a)) (snd (fst b)));
    destruct (Z.compare_spec (snd a) (snd b));
    split; intros; try discriminate; try reflexivity; try lia.
Qed.

Lemma lexcmp_Eq (a b : Z * Z * Z) : lexcmp a b = Eq <-> a = b.
Proof.
  unfold lexcmp. destruct a as [[a1 a2] a3], b as [[b1 b2] b3].
  cbn [fst snd].
  destruct (Z.compare_spec a1 b1); destruct (Z.compare_spec a2 b2);
    destruct (Z.compare_spec a3 b3);
    split; intros H'; try discriminate; try reflexivity;
    try (injection H' as -> -> ->; lia); subst; reflexivity.
Qed.

(** NaN is the one float whose specification is NaN. *)
Lemma is_nan_spec (x : float) :
  PrimFloat.is_nan x = true <-> Prim2SF x = S754_nan.
Proof.
  unfold Prim2SF. destruct (PrimFloat.is_nan x).
  - split; reflexivity.
  - split; [discriminate|].
    destruct (PrimFloat.is_zero x); [discriminate|].
    destruct (PrimFloat.is_infinity x); [discriminate|].
    destruct (Z.frexp x) as [r e].
    destruct (shr_fexp _ _ _ _ _) as [shr e'].
    destruct (shr_m shr); discriminate.
Qed.

Lemma not_nan_spec (x : float) :
  PrimFloat.is_nan x = false <-> Prim2SF x <> S754_nan.
Proof.
  rewrite <- is_nan_spec. destruct (PrimFloat.is_nan x); split; congruence.
Qed.

Lemma ltb_nan_l (x y : float) :
  PrimFloat.is_nan x = true -> (x <? y)%float = false.
Proof.
  intros H. apply is_nan_spec in H. now rewrite ltb_spec, H.
Qed.

Lemma ltb_nan_r (x y : float) :
  PrimFloat.is_nan y = true -> (x <? y)%float = false.
Proof.
  intros H. apply is_nan_spec in H. rewrite ltb_spec, H.
  unfold SFltb. now destruct (Prim2SF x).
Qed.

Lemma ltb_place (x y : float) :
  PrimFloat.is_nan x = false -> PrimFloat.is_nan y = false ->
  (x <? y)%float = true <-> lex_lt (place x) (place y).
Proof.
  intros Hx Hy. apply not_nan_spec in Hx, Hy.
  rewrite ltb_spec. unfold SFltb. rewrite (SFcompare_rank _ _ Hx Hy).
  rewrite <- lexcmp_Lt. unfold place.
  destruct (lexcmp _ _); split; congruence.
Qed.

Lemma eqb_place (x y : float) :
  PrimFloat.is_nan x = false -> PrimFloat.is_nan y = false ->
  (x =? y)%float = true <-> place x = place y.
Proof.
  intros Hx Hy. apply not_nan_spec in Hx, Hy.
  rewrite eqb_spec. unfold SFeqb. rewrite (SFcompare_rank _ _ Hx Hy).
  rewrite <- lexcmp_Eq. unfold place.
  destruct (lexcmp _ _); split; congruence.
Qed.

Lemma eqb_not_nan (x y : float) :
  (x =? y)%float = true ->
  PrimFloat.is_nan x = false /\ PrimFloat.is_nan y = false.
Proof.
  rewrite eqb_spec. unfold SFeqb. intros H.
  split; apply not_nan_spec; intros E; rewrite E in H;
    [discriminate | now destruct (Prim2SF x)].
Qed.

Lemma eqb_refl (x : float) :
  PrimFloat.is_nan x = false -> (x =? x)%float = true.
Proof.
  unfold PrimFloat.is_nan. now destruct (x =? x)%float.
Qed.

Lemma eqb_sym (x y : float) : (x =? y)%float = (y =? x)%float.
Proof.
  destruct (x =? y)%float eqn:E.
  - destruct (eqb_not_nan _ _ E) as [Hx Hy].
    symmetry. apply eqb_place; [assumption..|].
    symmetry. now apply eqb_place.
  - destruct (y =? x)%float eqn:E'; [|reflexivity].
    destruct (eqb_not_nan _ _ E') as [Hy Hx].
    rewrite <- E. apply eqb_place; [assumption..|].
    symmetry. now apply eqb_place.
Qed.

Lemma eqb_trans (x y z : float) :
  (x =? y)%float = true -> (y =? z)%float = true -> (x =? z)%float = true.
Proof.
  intros Hxy Hyz.
  destruct (eqb_not_nan _ _ Hxy) as [Hx Hy].
  destruct (eqb_not_nan _ _ Hyz) as [_ Hz].
  apply eqb_place; [assumption..|].
  transitivity (place y); now apply eqb_place.
Qed.

Lemma ltb_false_place (x y : float) :
  PrimFloat.is_nan x = false -> PrimFloat.is_nan y = false ->
  (x <? y)%float = false <-> ~ lex_lt (place x) (place y).
Proof.
  intros Hx Hy. rewrite <- (ltb_place x y Hx Hy).
  destruct (x <? y)%float; split; congruence.
Qed.

Lemma lex_lt_trans (a b c : Z * Z * Z) :
  lex_lt a b -> lex_lt b c -> lex_lt a c.
Proof.
  unfold lex_lt. lia.
Qed.

Lemma lex_lt_total (a b : Z * Z * Z) : lex_lt a b \/ a = b \/ lex_lt b a.
Proof.
  destruct a as [[a1 a2] a3], b as [[b1 b2] b3]. unfold lex_lt.
  cbn [fst snd].
  destruct (Z.lt_trichotomy a1 b1) as [H|[H|H]];
    destruct (Z.lt_trichotomy a2 b2) as [H2|[H2|H2]];
    destruct (Z.lt_trichotomy a3 b3) as [H3|[H3|H3]];
    subst; try (left; lia); try (right; right; lia).
  right. left. reflexivity.
Qed.

Lemma lex_lt_irrefl (a : Z * Z * Z) : ~ lex_lt a a.
Proof.
  unfold lex_lt. lia.
Qed.

(** The numbers are ordered in a line. *)
Lemma ltb_irrefl (x : float) : (x <? x)%float = false.
Proof.
  destruct (PrimFloat.is_nan x) eqn:E; [now apply ltb_nan_l|].
  apply ltb_false_place; [assumption..|]. apply lex_lt_irrefl.
Qed.

Lemma ltb_trans (x y z : float) :
  (x <? y)%float = true -> (y <? z)%float = true -> (x <? z)%float = true.
Proof.
  intros Hxy Hyz.
  assert (Hx : PrimFloat.is_nan x = false).
  { destruct (PrimFloat.is_nan x) eqn:E; [|reflexivity].
    now rewrite (ltb_nan_l x y E) in Hxy. }
  assert (Hy : PrimFloat.is_nan y = false).
  { destruct (PrimFloat.is_nan y) eqn:E; [|reflexivity].
    now rewrite (ltb_nan_r x y E) in Hxy. }
  assert (Hz : PrimFloat.is_nan z = false).
  { destruct (PrimFloat.is_nan z) eqn:E; [|reflexivity].
    now rewrite (ltb_nan_r y z E) in Hyz. }
  apply ltb_place in Hxy, Hyz; try assumption.
  apply ltb_place; try assumption.
  now apply lex_lt_trans with (place y).
Qed.

(** When [y] is not below [x] and [z] is not below [y], [z] is not
    below [x]. *)
Lemma ltb_false_trans (x y z : float) :
  PrimFloat.is_nan y = false ->
  (y <? x)%float = false -> (z <? y)%float = false ->
  PrimFloat.is_nan x = false -> PrimFloat.is_nan z = false ->
  (z <? x)%float = false.
Proof.
  intros Hy Hyx Hzy Hx Hz.
  apply ltb_false_place in Hyx, Hzy; try assumption.
  apply ltb_false_place; try assumption. intros Hzx.
  destruct (lex_lt_total (place y) (place x)) as [H|[H|H]].
  - contradiction.
  - rewrite H in Hzy. contradiction.
  - apply Hzy. now apply lex_lt_trans with (place x).
Qed.

(** When [x] is below [y] and [z] is not below [y], [z] is not below
    [x]. *)
Lemma ltb_false_below (x y z : float) :
  (x <? y)%float = true -> (z <? y)%float = false ->
  PrimFloat.is_nan z = false ->
  (z <? x)%float = false.
Proof.
  intros Hxy Hzy Hz.
  assert (Hx : PrimFloat.is_nan x = false).
  { destruct (PrimFloat.is_nan x) eqn:E; [|reflexivity].
    now rewrite (ltb_nan_l x y E) in Hxy. }
  assert (Hy : PrimFloat.is_nan y = false).
  { destruct (PrimFloat.is_nan y) eqn:E; [|reflexivity].
    now rewrite (ltb_nan_r x y E) in Hxy. }
  apply ltb_place in Hxy; try assumption.
  apply ltb_false_place in Hzy; try assumption.
  apply ltb_false_place; try assumption. intros Hzx.
  apply Hzy. now apply lex_lt_trans with (place x).
Qed.

(** When [x] is below [y] and [z] is not below [y], [x] is below [z]. *)
Lemma ltb_below_false (x y z : float) :
  (x <? y)%float = true -> (z <? y)%float = false ->
  PrimFloat.is_nan z = false ->
  (x <? z)%float = true.
Proof.
  intros Hxy Hzy Hz.
  assert (Hx : PrimFloat.is_nan x = false).
  { destruct (PrimFloat.is_nan x) eqn:E; [|reflexivity].
    now rewrite (ltb_nan_l x y E) in Hxy. }
  assert (Hy : PrimFloat.is_nan y = false).
  { destruct (PrimFloat.is_nan y) eqn:E; [|reflexivity].
    now rewrite (ltb_nan_r x y E) in Hxy. }
  apply ltb_place in Hxy; try assumption.
  apply ltb_false_place in Hzy; try assumption.
  apply ltb_place; try assumption.
  destruct (lex_lt_total (place z) (place y)) as [H|[H|H]].
  - contradiction.
  - now rewrite H.
  - now apply lex_lt_trans with (place y).
Qed.

(** A sum with NaN is NaN. *)
Lemma add_nan_r (x : float) : PrimFloat.is_nan (x + nan)%float = true.
Proof.
  apply is_nan_spec. rewrite add_spec.
  change (Prim2SF nan) with S754_nan.
  now destruct (Prim2SF x) as [s|s| |s m e].
Qed.

End Binary64Facts.

(* ===================================================================== *)
(** * The analytics                                                       *)
(* ===================================================================== *)

Module InsightsFacts.
Import PyStr Py Insights.
Import PrimFloat.
Import Binary64 Binary64Facts.

(** ** Groups *)

Section SortFacts.
Context {K V : Type}.
Variable kltb : K -> K -> bool.

Lemma insert_sorted_In (g e : K * V) (sorted : list (K * V)) :
  In e (insert_sorted kltb g sorted) <-> e = g \/ In e sorted.
Proof.
  induction sorted as [|h rest IH]; simpl.
  - intuition.
  - destruct (kltb (fst g) (fst h)); simpl; rewrite ?IH; intuition.
Qed.

Lemma sort_index_In (e : K * V) (groups : list (K * V)) :
  In e (sort_index kltb groups) <-> In e groups.
Proof.
  induction groups as [|g groups IH]; simpl; [tauto|].
  rewrite insert_sorted_In, IH. intuition.
Qed.

End SortFacts.

Lemma upsert_not_nil {K V} (keqb : K -> K -> bool) (k : K) (init : V)
                     (f : V -> V)
                     (groups : list (K * V)) :
  upsert keqb k init f groups <> [].
Proof.
  destruct groups as [|[k' v] rest]; simpl; [discriminate|].
  destruct (keqb k k'); discriminate.
Qed.

Section GroupFacts.
Context {K T : Type}.
Variable keqb : K -> K -> bool.
Variable kltb : K -> K -> bool.
Variable key_of_row : T -> K.
Hypothesis keqb_refl : forall a, keqb a a = true.
Hypothesis keqb_sym : forall a b, keqb a b = keqb b a.
Hypothesis keqb_trans :
  forall a b c, keqb a b = true -> keqb b c = true -> keqb a c = true.

Let tally (rows : list T) (groups : list (K * nat)) : list (K * nat) :=
  fold_left (fun groups t => upsert keqb (key_of_row t) 1%nat S groups)
            rows groups.
Let occ (k : K) (rows : list T) : nat :=
  List.length (filter (fun t => keqb (key_of_row t) k) rows).
Let size_of (k : K) (groups : list (K * nat)) : option nat :=
  option_map snd (find (fun g => keqb (fst g) k) groups).
Let apart (a b : K * nat) : Prop := keqb (fst a) (fst b) = false.

Lemma upsert_keys (k : K) (e : K * nat) (groups : list (K * nat)) :
  In e (upsert keqb k 1%nat S groups) ->
  fst e = k \/ exists e0, In e0 groups /\ fst e = fst e0.
Proof.
  induction groups as [|[k' n] rest IH]; simpl.
  - intros [<-|[]]. now left.
  - destruct (keqb k k'); simpl.
    + intros [<-|H]; right; eexists; split; eauto.
    + intros [<-|H]; [right; eexists; split; eauto|].
      destruct (IH H) as [E|(e0 & H0 & E)]; [now left|].
      right. exists e0. auto.
Qed.

Lemma upsert_apart (k : K) (groups : list (K * nat)) :
  ForallOrdPairs apart groups ->
  ForallOrdPairs apart (upsert keqb k 1%nat S groups).
Proof.
  induction 1 as [|[k' n] rest Hhead Hrest IH]; simpl.
  - repeat constructor.
  - destruct (keqb k k') eqn:E.
    + constructor; [|exact Hrest].
      rewrite Forall_forall in *. intros e He. exact (Hhead e He).
    + constructor; [|exact IH].
      rewrite Forall_forall in *. intros e He.
      destruct (upsert_keys _ _ _ He) as [Ek|(e0 & H0 & Ek)];
        unfold apart; simpl; rewrite Ek.
      * now rewrite keqb_sym.
      * exact (Hhead e0 H0).
Qed.

Lemma tally_apart (rows : list T) (groups : list (K * nat)) :
  ForallOrdPairs apart groups -> ForallOrdPairs apart (tally rows groups).
Proof.
  revert groups. induction rows as [|t rows IH]; intros groups H;
    [exact H|].
  apply IH. now apply upsert_apart.
Qed.

Lemma size_of_upsert (k0 k : K) (groups : list (K * nat)) :
  size_of k (upsert keqb k0 1%nat S groups)
  = if keqb k0 k
    then Some (S (match size_of k groups with Some n => n | None => O end))
    else size_of k groups.
Proof.
  unfold size_of.
  induction groups as [|[k' n] rest IH]; simpl.
  - now destruct (keqb k0 k).
  - destruct (keqb k0 k') eqn:E0; simpl.
    + destruct (keqb k0 k) eqn:E1.
      * rewrite (keqb_trans k' k0 k); [reflexivity| |exact E1].
        now rewrite keqb_sym.
      * destruct (keqb k' k) eqn:E2; [|reflexivity].
        now rewrite (keqb_trans k0 k' k E0 E2) in E1.
    + destruct (keqb k' k) eqn:E2; simpl.
      * destruct (keqb k0 k) eqn:E1; [|reflexivity].
        rewrite keqb_sym in E2.
        now rewrite (keqb_trans k0 k k' E1 E2) in E0.
      * exact IH.
Qed.

Lemma occ_snoc (k : K) (seen : list T) (t : T) :
  occ k (seen ++ [t])%list
  = (occ k seen + if keqb (key_of_row t) k then 1 else 0)%nat.
Proof.
  unfold occ. rewrite filter_app, length_app. simpl.
  now destruct (keqb (key_of_row t) k).
Qed.

(** The size recorded for a key is the number of rows seen with it. *)
Lemma tally_size (rows seen : list T) (groups : list (K * nat)) :
  (forall k, size_of k groups
             = if (occ k seen =? 0)%nat then None
               else Some (occ k seen)) ->
  forall k, size_of k (tally rows groups)
            = if (occ k (seen ++ rows)%list =? 0)%nat then None
              else Some (occ k (seen ++ rows)%list).
Proof.
  revert seen groups.
  induction rows as [|t rows IH]; intros seen groups H k.
  - rewrite app_nil_r. apply H.
  - change (seen ++ t :: rows)%list with (seen ++ [t] ++ rows)%list.
    rewrite app_assoc. apply IH. clear k. intros k.
    rewrite size_of_upsert, occ_snoc, H.
    destruct (keqb (key_of_row t) k).
    + destruct (occ k seen) as [|n]; simpl; [reflexivity|].
      rewrite Nat.add_1_r. reflexivity.
    + now rewrite Nat.add_0_r.
Qed.

Lemma apart_find (k : K) (n : nat) (groups : list (K * nat)) :
  ForallOrdPairs apart groups -> In (k, n) groups ->
  size_of k groups = Some n.
Proof.
  unfold size_of.
  induction 1 as [|[k' n'] rest Hhead Hrest IH]; simpl; [easy|].
  intros [[= -> ->]|Hin].
  - now rewrite keqb_refl.
  - rewrite Forall_forall in Hhead. specialize (Hhead _ Hin).
    unfold apart in Hhead. simpl in Hhead. rewrite Hhead. now apply IH.
Qed.

(** Every group holds the number of rows with its key. *)
Lemma tally_counts (rows : list T) (k : K) (n : nat) :
  In (k, n) (tally rows []) -> n = occ k rows /\ (0 < n)%nat.
Proof.
  intros Hin.
  apply apart_find in Hin; [|apply tally_apart; constructor].
  rewrite (tally_size rows [] []) in Hin by reflexivity.
  simpl in Hin.
  destruct (occ k rows) as [|m]; simpl in Hin; [discriminate|].
  injection Hin as <-. split; [reflexivity | lia].
Qed.

(** Every key that occurs has its group. *)
Lemma tally_complete (rows : list T) (k : K) :
  (0 < occ k rows)%nat ->
  exists k', keqb k' k = true /\ In (k', occ k rows) (tally rows []).
Proof.
  intros Hpos.
  pose proof (tally_size rows [] [] (fun _ => eq_refl) k) as H.
  simpl in H. unfold size_of in H.
  destruct (occ k rows) as [|m] eqn:E; [lia|]. simpl in H.
  destruct (find (fun g => keqb (fst g) k) (tally rows [])) as [[k' n]|]
    eqn:Ef; [|discriminate].
  injection H as ->. apply find_some in Ef as [Hin Hk].
  exists k'. split; [exact Hk | exact Hin].
Qed.
End GroupFacts.

Lemma tally_keys_from {K T} (keqb : K -> K -> bool) (key_of_row : T -> K)
    (rows : list T) (groups : list (K * nat)) (e : K * nat) :
  In e (fold_left (fun groups t => upsert keqb (key_of_row t) 1%nat S groups)
                  rows groups) ->
  (exists t, In t rows /\ fst e = key_of_row t) \/
  (exists e0, In e0 groups /\ fst e = fst e0).
Proof.
  revert groups. induction rows as [|t rows IH]; intros groups H; simpl in H.
  - right. eauto.
  - destruct (IH _ H) as [(t' & Ht' & E)|(e0 & H0 & E)].
    + left. exists t'. split; [now right | exact E].
    + clear IH H. revert e0 H0 E.
      induction groups as [|[k' n] rest IHg]; simpl; intros e0 H0 E.
      * destruct H0 as [<-|[]]. left. exists t. split; [now left | exact E].
      * destruct (keqb (key_of_row t) k'); simpl in H0.
        -- destruct H0 as [<-|H0]; right.
           ++ exists (k', n). split; [now left | exact E].
           ++ exists e0. split; [now right | exact E].
        -- destruct H0 as [<-|H0].
           ++ right. exists (k', n). split; [now left | exact E].
           ++ destruct (IHg e0 H0 E) as [Hl|(e1 & H1 & E1)];
                [now left|].
              right. exists e1. split; [now right | exact E1].
Qed.

(** ** The keys of the recurring groups *)

Lemma same_number_refl (a : float) : same_number a a = true.
Proof.
  unfold same_number, is_nan. now destruct (a =? a)%float.
Qed.

Lemma eqb_nan_l (x y : float) : is_nan x = true -> (x =? y)%float = false.
Proof.
  intros H. destruct (x =? y)%float eqn:E; [|reflexivity].
  apply eqb_not_nan in E as [E _]. congruence.
Qed.

Lemma eqb_nan_r (x y : float) : is_nan y = true -> (x =? y)%float = false.
Proof.
  intros H. rewrite eqb_sym. now apply eqb_nan_l.
Qed.

Lemma same_number_eqb (a b : float) :
  is_nan b = false -> same_number a b = (a =? b)%float.
Proof.
  intros H. unfold same_number. rewrite H, andb_false_r.
  apply orb_false_r.
Qed.

Lemma same_number_sym (a b : float) : same_number a b = same_number b a.
Proof.
  unfold same_number. now rewrite eqb_sym, andb_comm.
Qed.

Lemma same_number_trans (a b c : float) :
  same_number a b = true -> same_number b c = true ->
  same_number a c = true.
Proof.
  unfold same_number. rewrite !orb_true_iff, !andb_true_iff.
  intros [Hab|[Ha Hb]] [Hbc|[Hb' Hc]].
  - left. now apply eqb_trans with b.
  - apply eqb_not_nan in Hab as [_ Hab]. congruence.
  - apply eqb_not_nan in Hbc as [Hbc _]. congruence.
  - right. now split.
Qed.

Lemma eqb_congr_l (x y a : float) :
  (x =? y)%float = true -> (x =? a)%float = (y =? a)%float.
Proof.
  intros H. destruct (y =? a)%float eqn:E.
  - now apply eqb_trans with y.
  - destruct (x =? a)%float eqn:E'; [|reflexivity].
    rewrite eqb_sym in H. now rewrite (eqb_trans _ _ _ H E') in E.
Qed.

Lemma eqb_congr_r (a x y : float) :
  (x =? y)%float = true -> (a =? x)%float = (a =? y)%float.
Proof.
  intros H. rewrite (eqb_sym a x), (eqb_sym a y). now apply eqb_congr_l.
Qed.

Lemma key_eqb_refl (a : key) : key_eqb a a = true.
Proof.
  unfold key_eqb. now rewrite String.eqb_refl, same_number_refl.
Qed.

Lemma key_eqb_sym (a b : key) : key_eqb a b = key_eqb b a.
Proof.
  unfold key_eqb. now rewrite String.eqb_sym, same_number_sym.
Qed.

Lemma key_eqb_trans (a b c : key) :
  key_eqb a b = true -> key_eqb b c = true -> key_eqb a c = true.
Proof.
  unfold key_eqb. rewrite !andb_true_iff, !String.eqb_eq.
  intros [-> Hq] [-> Hq']. split; [reflexivity|].
  now apply same_number_trans with (snd b).
Qed.

(** The amount shown for a row is the same number as the amount of the
    row. *)
Lemma first_equal_same (column : list float) (x : float) :
  same_number (first_equal column x) x = true.
Proof.
  unfold first_equal.
  destruct (find (fun y => same_number y x) column) as [y|] eqn:E.
  - now apply find_some in E as [_ E].
  - apply same_number_refl.
Qed.

Lemma first_equal_eqb (column : list float) (x a : float) :
  (first_equal column x =? a)%float = (x =? a)%float.
Proof.
  pose proof (first_equal_same column x) as H. unfold same_number in H.
  apply orb_true_iff in H as [H|H].
  - now apply eqb_congr_l.
  - apply andb_true_iff in H as [H1 H2].
    now rewrite (eqb_nan_l _ a H1), (eqb_nan_l _ a H2).
Qed.

Lemma first_equal_not_nan (column : list float) (x : float) :
  is_nan x = false -> is_nan (first_equal column x) = false.
Proof.
  intros Hx. pose proof (first_equal_eqb column x x) as H.
  rewrite (eqb_refl x Hx) in H. now apply eqb_not_nan in H as [H _].
Qed.

(** A row belongs to the group of a description and a number when it has
    that description and an equal amount. *)
Lemma key_of_matches (df : DataFrame) (t : Transaction)
                     (d : string) (a : float) :
  is_nan a = false ->
  key_eqb (key_of df t) (d, a)
  = String.eqb (description t) d && (amount t =? a)%float.
Proof.
  intros Ha. unfold key_eqb, key_of. cbn [fst snd].
  now rewrite (same_number_eqb _ a Ha), first_equal_eqb.
Qed.

Lemma group_rows (df l : DataFrame) (d : string) (a : float) :
  is_nan a = false ->
  List.length
    (filter (fun t => key_eqb (key_of df t) (d, a))
            (filter (fun t => negb (is_nan (amount t))) l))
  = occurrences d a l.
Proof.
  intros Ha. unfold occurrences.
  induction l as [|t l IH]; [reflexivity|]. cbn [filter].
  destruct (is_nan (amount t)) eqn:E; cbn [negb].
  - rewrite (eqb_nan_l _ a E), andb_false_r. exact IH.
  - cbn [filter]. rewrite (key_of_matches df t d a Ha).
    destruct (String.eqb (description t) d && (amount t =? a)%float);
      cbn [List.length]; now rewrite IH.
Qed.

Lemma occurrences_nan (d : string) (a : float) (df : DataFrame) :
  is_nan a = true -> occurrences d a df = 0%nat.
Proof.
  intros Ha. unfold occurrences.
  induction df as [|t df IH]; [reflexivity|]. cbn [filter].
  now rewrite (eqb_nan_r _ a Ha), andb_false_r.
Qed.

Lemma occurrences_equal (d : string) (a a' : float) (df : DataFrame) :
  (a' =? a)%float = true -> occurrences d a' df = occurrences d a df.
Proof.
  intros H. unfold occurrences. f_equal. apply filter_ext. intros t.
  f_equal. now apply eqb_congr_r.
Qed.

Lemma group_sizes_In (df : DataFrame) (d : string) (a : float) (n : nat) :
  In ((d, a), n) (group_sizes df) ->
  n = occurrences d a df /\ (0 < n)%nat /\ is_nan a = false.
Proof.
  unfold group_sizes. rewrite sort_index_In. intros Hin.
  assert (Ha : is_nan a = false).
  { destruct (tally_keys_from key_eqb (key_of df) _ [] _ Hin)
      as [(t & Ht & E)|(e0 & [] & _)].
    apply filter_In in Ht as [_ Ht]. apply negb_true_iff in Ht.
    cbn [fst] in E. injection E as _ ->.
    now apply first_equal_not_nan. }
  destruct (tally_counts key_eqb (key_of df) key_eqb_refl key_eqb_sym
              key_eqb_trans _ _ _ Hin) as [Hn Hpos].
  rewrite (group_rows df df d a Ha) in Hn. auto.
Qed.

Lemma group_sizes_complete (df : DataFrame) (d : string) (a : float) :
  (0 < occurrences d a df)%nat ->
  exists a', (a' =? a)%float = true
             /\ In ((d, a'), occurrences d a df) (group_sizes df).
Proof.
  intros H.
  assert (Ha : is_nan a = false).
  { destruct (is_nan a) eqn:E; [|reflexivity].
    rewrite (occurrences_nan d a df E) in H. lia. }
  rewrite <- (group_rows df df d a Ha) in H.
  destruct (tally_complete key_eqb (key_of df) key_eqb_sym key_eqb_trans
              _ (d, a) H) as ([d' a'] & Hk & Hin).
  unfold key_eqb in Hk. cbn [fst snd] in Hk.
  apply andb_true_iff in Hk as [Hd Hnum]. apply String.eqb_eq in Hd.
  subst d'. rewrite (same_number_eqb _ a Ha) in Hnum.
  exists a'. split; [exact Hnum|].
  unfold group_sizes. rewrite sort_index_In.
  now rewrite (group_rows df df d a Ha) in Hin.
Qed.

(** C8: the recurring groups are the pairs of a description and an
    amount, each reported with the number of rows that have that
    description and an equal amount, and a pair is reported exactly when
    that number is greater than 2: with three rows it is reported, with
    two it is not.  A row whose amount is NaN belongs to no group. *)
Theorem recurring_groups (df : DataFrame) :
  (forall d a n,
      In ((d, a), n) (snd (detect_recurring_transactions df)) ->
      n = occurrences d a df /\ (2 < n)%nat /\ is_nan a = false) /\
  (forall d a,
      (2 < occurrences d a df)%nat ->
      exists a', (a' =? a)%float = true /\
                 In ((d, a'), occurrences d a df)
                    (snd (detect_recurring_transactions df))) /\
  (forall d a,
      occurrences d a df = 2%nat ->
      forall a' n, (a' =? a)%float = true ->
                   ~ In ((d, a'), n)
                        (snd (detect_recurring_transactions df))) /\
  snd (detect_recurring_transactions (coffee 3)) = [(("Coffee", 5%float), 3%nat)] /\
  snd (detect_recurring_transactions (coffee 2)) = [].
Proof.
  assert (H1 : forall d a n,
             In ((d, a), n) (snd (detect_recurring_transactions df)) ->
             n = occurrences d a df /\ (2 < n)%nat /\ is_nan a = false).
  { intros d a n Hin. simpl in Hin. apply filter_In in Hin as [Hin Hn].
    apply group_sizes_In in Hin as (-> & _ & Ha).
    split; [reflexivity|]. split; [now apply Nat.ltb_lt in Hn | exact Ha]. }
  split; [exact H1|]. split; [|split; [|split; reflexivity]].
  - intros d a Hk.
    destruct (group_sizes_complete df d a) as (a' & Ha' & Hin); [lia|].
    exists a'. split; [exact Ha'|]. simpl. apply filter_In.
    split; [exact Hin | now apply Nat.ltb_lt].
  - intros d a Hk a' n Ha' Hin. apply H1 in Hin as (-> & Hn & _).
    rewrite (occurrences_equal d a a' df Ha') in Hn. lia.
Qed.

(** ** The threshold of the anomalies *)

Lemma ltb_not_nan (x y : float) :
  (x <? y)%float = true -> is_nan x = false /\ is_nan y = false.
Proof.
  intros H. split.
  - destruct (is_nan x) eqn:E; [|reflexivity].
    now rewrite (ltb_nan_l x y E) in H.
  - destruct (is_nan y) eqn:E; [|reflexivity].
    now rewrite (ltb_nan_r x y E) in H.
Qed.

Section ThresholdFacts.
Context {pd : Reductions}.
Variable parse : string -> result Z.

Lemma to_datetime_all_Forall2 (ds dates : list date_value) :
  to_datetime_all parse ds = Ok dates ->
  Forall2 (fun d d' => to_datetime parse d = Ok d') ds dates.
Proof.
  revert dates. induction ds as [|d ds IH]; simpl; intros dates H.
  - injection H as <-. constructor.
  - destruct (to_datetime parse d) as [d'|e] eqn:Ed; simpl in H;
      [|discriminate].
    destruct (to_datetime_all parse ds) as [rest|e]; simpl in H;
      [|discriminate].
    injection H as <-. constructor; [exact Ed | now apply IH].
Qed.

Lemma to_datetime_all_length (ds dates : list date_value) :
  to_datetime_all parse ds = Ok dates ->
  List.length dates = List.length ds.
Proof.
  intros H. apply to_datetime_all_Forall2, Forall2_length in H.
  now symmetry.
Qed.

Lemma set_dates_fields (df : DataFrame) (dates : list date_value) :
  List.length dates = List.length df ->
  let df1 := map (fun p => set_date (fst p) (snd p)) (combine df dates) in
  map description df1 = map description df /\
  map amount df1 = map amount df /\
  map category df1 = map category df /\
  map date df1 = dates.
Proof.
  revert dates. induction df as [|t df IH]; intros [|d dates]; simpl;
    try easy.
  intros [= Hlen]. destruct (IH dates Hlen) as (-> & -> & -> & ->).
  easy.
Qed.

Lemma to_datetime_all_parsed (df : DataFrame) :
  forallb parsed df = true ->
  to_datetime_all parse (map date df) = Ok (map date df).
Proof.
  induction df as [|t df IH]; simpl; [reflexivity|].
  rewrite andb_true_iff. intros [Ht Hdf]. unfold parsed in Ht.
  destruct (date t); [discriminate|]. simpl. now rewrite (IH Hdf).
Qed.

Lemma set_dates_same (df : DataFrame) :
  map (fun p => set_date (fst p) (snd p)) (combine df (map date df)) = df.
Proof.
  induction df as [|[d x a c] df IH]; simpl; [reflexivity|].
  now rewrite IH.
Qed.

(** The anomalies are the rows above the threshold of the amounts of
    the supplied table, in the order of the table. *)
Lemma anomalies_above (df df1 anomalies : DataFrame) :
  detect_spending_anomalies parse df = (df1, Ok anomalies) ->
  anomalies
  = filter (fun t => (series_mean (map amount df)
                      + 2 * series_std (map amount df) <? amount t)%float)
           df1.
Proof.
  unfold detect_spending_anomalies.
  destruct (to_datetime_all parse (map date df)) as [dates|e] eqn:E;
    [|discriminate].
  intros [= <- <-].
  pose proof (to_datetime_all_length _ _ E) as Hlen.
  rewrite length_map in Hlen.
  destruct (set_dates_fields df dates Hlen) as (_ & Ha & _).
  unfold threshold. now rewrite Ha.
Qed.

Lemma anomalies_frame (df : DataFrame) :
  let df1 := fst (detect_spending_anomalies parse df) in
  map description df1 = map description df /\
  map amount df1 = map amount df /\
  map category df1 = map category df /\
  (forall out,
      snd (detect_spending_anomalies parse df) = Ok out ->
      Forall2 (fun d d' => to_datetime parse d = Ok d')
              (map date df) (map date df1)) /\
  (forall e,
      snd (detect_spending_anomalies parse df) = Raise e -> df1 = df) /\
  (forallb parsed df = true ->
   df1 = df /\
   exists out, snd (detect_spending_anomalies parse df) = Ok out).
Proof.
  unfold detect_spending_anomalies.
  destruct (to_datetime_all parse (map date df)) as [dates|e] eqn:E;
    simpl.
  - pose proof (to_datetime_all_Forall2 _ _ E) as HF.
    assert (Hlen : List.length dates = List.length df).
    { apply Forall2_length in HF. now rewrite length_map in HF. }
    destruct (set_dates_fields df dates Hlen) as (Hd & Ha & Hc & Ht).
    split; [exact Hd|]. split; [exact Ha|]. split; [exact Hc|].
    split; [|split].
    + intros out _. now rewrite Ht.
    + discriminate.
    + intros Hp. rewrite (to_datetime_all_parsed df Hp) in E.
      injection E as <-. split; [apply set_dates_same | eauto].
  - do 3 (split; [reflexivity|]). split; [|split].
    + discriminate.
    + reflexivity.
    + intros Hp. rewrite (to_datetime_all_parsed df Hp) in E.
      discriminate.
Qed.

End ThresholdFacts.

(** C5, as amended: the anomalies are exactly the rows of the table, in
    its order, whose amount is greater than the threshold: the mean plus
    twice the standard deviation of all amounts of the supplied table,
    the flagged ones included, as pandas computes and compares them in
    binary64.  A flagged amount and the threshold are numbers.  With the
    reductions of numpy the deviation has the count less one in its
    denominator: of 10, 10, 10, 10, 1000 no row is flagged, of 10, 10,
    10, 10, 10000 no row is flagged either, of 10, 10, 10, 10, 10, 10000
    the last one is, of 10, 10, 10, 10, 12, 16 none is (16 is above the
    threshold that the count itself would give), and of 1.3, 1.3, 1.3,
    1.3, 2.6, 7.8 the last one is, the computed threshold being just
    below 7.8. *)
Theorem anomalies_exceed_threshold :
  (forall (pd : Reductions) parse df df1 anomalies,
      detect_spending_anomalies parse df = (df1, Ok anomalies) ->
      let limit := (series_mean (map amount df)
                    + 2 * series_std (map amount df))%float in
      anomalies = filter (fun t => (limit <? amount t)%float) df1 /\
      (forall t, In t anomalies <->
                 In t df1 /\ (limit <? amount t)%float = true) /\
      (forall t, In t anomalies ->
                 is_nan (amount t) = false /\ is_nan limit = false)) /\
  (forall version parse,
      snd (detect_spending_anomalies (pd := numpy_reductions version)
             parse amounts_1000) = Ok []) /\
  (forall version parse,
      snd (detect_spending_anomalies (pd := numpy_reductions version)
             parse amounts_10000) = Ok []) /\
  (forall version parse,
      snd (detect_spending_anomalies (pd := numpy_reductions version)
             parse six_amounts) = Ok [spent "f" 10000]) /\
  (forall version parse,
      snd (detect_spending_anomalies (pd := numpy_reductions version)
             parse amounts_16) = Ok []) /\
  (forall version parse,
      snd (detect_spending_anomalies (pd := numpy_reductions version)
             parse amounts_tenths) = Ok [spent "f" 7.8]).
Proof.
  split; [|repeat split; intros version parse; vm_compute; reflexivity].
  intros pd parse df df1 anomalies H limit.
  pose proof (anomalies_above parse df df1 anomalies H) as Hf.
  fold limit in Hf.
  assert (Hin : forall t, In t anomalies <->
                          In t df1 /\ (limit <? amount t)%float = true).
  { intros t. rewrite Hf. apply filter_In. }
  split; [exact Hf|]. split; [exact Hin|].
  intros t Ht. apply Hin in Ht as [_ Ht].
  apply ltb_not_nan in Ht. tauto.
Qed.

(** C5 fails as stated: whatever the release of pandas and the date
    parser, the row with the amount 10000 is not among the anomalies of
    10, 10, 10, 10, 10000: the mean is 2008 and the deviation about
    4467.7, so the threshold is above 10000. *)
Lemma anomalies_miss_10000 :
  ~ exists version parse anomalies,
      snd (detect_spending_anomalies (pd := numpy_reductions version)
             parse amounts_10000) = Ok anomalies
      /\ In (spent "e" 10000) anomalies.
Proof.
  intros (version & parse & anomalies & H & Hin).
  assert (E : snd (detect_spending_anomalies
                     (pd := numpy_reductions version) parse amounts_10000)
              = Ok []) by (vm_compute; reflexivity).
  rewrite E in H. injection H as <-. exact Hin.
Qed.

(** ** What the analytics do to their argument *)

Lemma fold_left_not_nil {A T} (step : list A -> T -> list A)
                        (rows : list T) (g : list A) :
  (forall g t, step g t <> []) -> rows <> [] \/ g <> [] ->
  fold_left step rows g <> [].
Proof.
  intros Hstep. revert g.
  induction rows as [|t rows IH]; intros g H; simpl.
  - destruct H as [H|H]; [now elim H | exact H].
  - apply IH. right. apply Hstep.
Qed.

Lemma sort_index_not_nil {K V} (kltb : K -> K -> bool)
                         (groups : list (K * V)) :
  groups <> [] -> sort_index kltb groups <> [].
Proof.
  destruct groups as [|g groups]; [easy|]. intros _ E.
  assert (H : In g (sort_index kltb (g :: groups)))
    by (apply sort_index_In; now left).
  now rewrite E in H.
Qed.

Section FrameFacts.
Context {pd : Reductions}.

Lemma category_totals_not_nil (df : DataFrame) :
  df <> [] -> category_totals df <> [].
Proof.
  intros Hdf E. unfold category_totals in E. apply map_eq_nil in E.
  revert E. apply sort_index_not_nil, fold_left_not_nil; [|now left].
  intros g x. apply upsert_not_nil.
Qed.

Lemma description_counts_not_nil (df : DataFrame) :
  df <> [] -> description_counts df <> [].
Proof.
  intros Hdf. apply fold_left_not_nil; [|now left].
  intros g x. apply upsert_not_nil.
Qed.

Lemma basic_insights_frame (df : DataFrame) :
  fst (generate_basic_insights df) = df.
Proof.
  unfold generate_basic_insights.
  destruct (List.length df =? 0)%nat; [reflexivity|].
  destruct (idxmax (category_totals df)), (description_counts df);
    reflexivity.
Qed.

(** The summary raises in one case only: in pandas 3, on a table none of
    whose category totals is a number. *)
Lemma basic_insights_result (df : DataFrame) :
  (exists r, snd (generate_basic_insights df) = Ok r) \/
  (release = pandas3 /\ df <> [] /\
   all_na (category_totals df) = true /\
   snd (generate_basic_insights df)
   = Raise (ValueError "Encountered all NA values")).
Proof.
  unfold generate_basic_insights.
  destruct df as [|t df]; [left; simpl; eauto|].
  set (rows := t :: df).
  assert (Hrows : rows <> []) by discriminate.
  change (List.length rows =? 0)%nat with false. cbv iota.
  pose proof (category_totals_not_nil rows Hrows) as Hc.
  pose proof (description_counts_not_nil rows Hrows) as Hd.
  destruct (description_counts rows) as [|d ds]; [now elim Hd|].
  unfold idxmax.
  destruct (category_totals rows) as [|g groups] eqn:Eg; [now elim Hc|].
  destruct (all_na (g :: groups)) eqn:Ena.
  - destruct release eqn:Er.
    + left. simpl. eauto.
    + right. simpl. auto.
  - left. simpl. eauto.
Qed.

Lemma basic_insights_total (df : DataFrame) :
  release = pandas2 \/ all_na (category_totals df) = false ->
  exists r, snd (generate_basic_insights df) = Ok r.
Proof.
  intros H.
  destruct (basic_insights_result df) as [Hok|(Hr & _ & Hna & _)];
    [exact Hok|].
  destruct H as [H|H]; congruence.
Qed.

End FrameFacts.

(** C6, as amended: the summary and the recurring detection leave the
    supplied table as it was.  The recurring detection does not raise;
    the summary raises in one case only: in pandas 3 it raises
    ValueError on a table none of whose category totals is a number (the
    amounts plus and minus infinity in one category give such a table).
    The anomaly detection assigns the parsed dates to the date column of
    the supplied table and leaves its descriptions, amounts and
    categories as they were; the table is unchanged when its dates are
    Timestamps already, and also when a date cannot be parsed, in which
    case the call raises.  On an empty table the three give a message,
    an empty table and no group. *)
Theorem analytics_frame :
  (forall (pd : Reductions) df,
      fst (generate_basic_insights df) = df /\
      ((exists r, snd (generate_basic_insights df) = Ok r) \/
       (release = pandas3 /\ df <> [] /\
        all_na (category_totals df) = true /\
        snd (generate_basic_insights df)
        = Raise (ValueError "Encountered all NA values"))) /\
      (release = pandas2 \/ all_na (category_totals df) = false ->
       exists r, snd (generate_basic_insights df) = Ok r)) /\
  snd (generate_basic_insights (pd := numpy_reductions pandas3)
         opposite_infinities)
  = Raise (ValueError "Encountered all NA values") /\
  (forall (pd : Reductions),
      generate_basic_insights []
      = ([], Ok (NoData "No transaction data available for analysis."))) /\
  (forall df, fst (detect_recurring_transactions df) = df) /\
  detect_recurring_transactions [] = ([], []) /\
  (forall (pd : Reductions) parse df,
      let df1 := fst (detect_spending_anomalies parse df) in
      map description df1 = map description df /\
      map amount df1 = map amount df /\
      map category df1 = map category df /\
      (forall out,
          snd (detect_spending_anomalies parse df) = Ok out ->
          Forall2 (fun d d' => to_datetime parse d = Ok d')
                  (map date df) (map date df1)) /\
      (forall e,
          snd (detect_spending_anomalies parse df) = Raise e ->
          df1 = df) /\
      (forallb parsed df = true ->
       df1 = df /\
       exists out, snd (detect_spending_anomalies parse df) = Ok out)) /\
  (forall (pd : Reductions) parse,
      detect_spending_anomalies parse [] = ([], Ok [])).
Proof.
  split; [|repeat apply conj; try reflexivity].
  - intros pd df. split; [apply basic_insights_frame|].
    split; [apply basic_insights_result | apply basic_insights_total].
  - intros pd parse df. apply anomalies_frame.
Qed.

(** C6 fails as stated: this table holds its date as text.  With any
    date parser, and however pandas computes its sums, the anomaly
    detection either raises or leaves a Timestamp in the date column of
    the table it was given. *)
Lemma anomalies_change_or_raise :
  ~ exists (pd : Reductions) parse,
      fst (detect_spending_anomalies parse text_dated) = text_dated /\
      exists out, snd (detect_spending_anomalies parse text_dated) = Ok out.
Proof.
  intros (pd & parse & Hsame & out & Hok). revert Hsame Hok.
  unfold detect_spending_anomalies, text_dated. simpl.
  destruct (parse "2024-01-15") as [t|e]; simpl; discriminate.
Qed.

(** ** The most frequent description *)

Lemma most_common_largest (best : string * nat)
                          (rest : list (string * nat)) :
  In (most_common best rest) (best :: rest) /\
  forall g, In g (best :: rest) ->
            (snd g <= snd (most_common best rest))%nat.
Proof.
  revert best. induction rest as [|g rest IH]; intros best; simpl.
  - split; [now left|]. intros g [<-|[]]. lia.
  - destruct (snd best <? snd g)%nat eqn:E.
    + destruct (IH g) as [Hin Hmax]. split; [now right|].
      apply Nat.ltb_lt in E.
      intros h [<-|Hh]; [|now apply Hmax].
      specialize (Hmax g (or_introl eq_refl)). lia.
    + destruct (IH best) as [Hin Hmax]. apply Nat.ltb_ge in E. split.
      * destruct Hin as [<-|Hin]; [now left | now right; right].
      * intros h [<-|[<-|Hh]].
        -- apply Hmax. now left.
        -- specialize (Hmax best (or_introl eq_refl)). lia.
        -- apply Hmax. now right.
Qed.

Lemma string_eqb_trans (a b c : string) :
  String.eqb a b = true -> String.eqb b c = true -> String.eqb a c = true.
Proof.
  rewrite !String.eqb_eq. congruence.
Qed.

(** X13: the most frequent description of the summary occurs in the
    table as often as the summary says, at least once, and no
    description of the table occurs more often. *)
Theorem basic_insights_most_frequent {pd : Reductions}
    (df df' : DataFrame) (v : summary) :
  generate_basic_insights df = (df', Ok (SpendingSummary v)) ->
  frequency v = description_count (most_frequent v) df /\
  (0 < frequency v)%nat /\
  (forall t, In t df ->
             (description_count (description t) df <= frequency v)%nat).
Proof.
  unfold generate_basic_insights.
  destruct (List.length df =? 0)%nat; [discriminate|].
  destruct (idxmax (category_totals df)) as [top|e];
    destruct (description_counts df) as [|d ds] eqn:Ed; try discriminate.
  intros [= _ <-]. cbn [most_frequent frequency].
  destruct (most_common_largest d ds) as [Hin Hmax].
  rewrite <- Ed in Hin.
  destruct (most_common d ds) as [text n] eqn:Etop. simpl in *.
  destruct (tally_counts String.eqb description String.eqb_refl
              String.eqb_sym string_eqb_trans df text n Hin) as [Hn Hpos].
  split; [exact Hn|]. split; [exact Hpos|].
  intros t Ht.
  destruct (tally_complete String.eqb description String.eqb_sym
              string_eqb_trans df (description t)) as (k & Hk & Hkin).
  - apply Nat.neq_0_lt_0. intros H0. apply length_zero_iff_nil in H0.
    assert (Hf : In t (filter (fun x => String.eqb (description x)
                                                   (description t)) df))
      by (apply filter_In; split; [exact Ht | apply String.eqb_refl]).
    now rewrite H0 in Hf.
  - apply String.eqb_eq in Hk. subst k.
    fold (description_counts df) in Hkin. rewrite Ed in Hkin.
    exact (Hmax _ Hkin).
Qed.

Lemma basic_insights_most_frequent_witness :
  exists v,
    generate_basic_insights (pd := numpy_reductions pandas2) purchases
    = (purchases, Ok (SpendingSummary v))
    /\ most_frequent v = "Coffee"
    /\ frequency v = description_count (most_frequent v) purchases
    /\ (0 < frequency v)%nat
    /\ (forall t, In t purchases ->
                  (description_count (description t) purchases
                   <= frequency v)%nat).
Proof.
  eexists. split; [reflexivity|]. split; [reflexivity|].
  apply (basic_insights_most_frequent (pd := numpy_reductions pandas2)
           purchases purchases _ eq_refl).
Defined.

(** ** The remote insights *)

Lemma fold_left_same {A} (step : A -> Transaction -> A)
                     (l l' : DataFrame) (acc : A) :
  (forall a t t', same_figures t t' -> step a t = step a t') ->
  Forall2 same_figures l l' ->
  fold_left step l acc = fold_left step l' acc.
Proof.
  intros Hstep H. revert acc.
  induction H as [|t t' l l' Ht _ IH]; intros acc; simpl; [reflexivity|].
  now rewrite (Hstep acc t t' Ht), IH.
Qed.

Lemma set_dates_same_figures (df : DataFrame) (dates : list date_value) :
  List.length dates = List.length df ->
  Forall2 same_figures df
          (map (fun p => set_date (fst p) (snd p)) (combine df dates)).
Proof.
  revert dates. induction df as [|t df IH]; intros [|d dates]; simpl;
    try easy.
  intros [= Hlen]. constructor; [now repeat split | now apply IH].
Qed.

Section RemoteFacts.
Context {pd : Reductions}.

Lemma category_totals_same (df df1 : DataFrame) :
  Forall2 same_figures df df1 ->
  category_totals df1 = category_totals df.
Proof.
  intros H. unfold category_totals, category_amounts. do 2 f_equal.
  symmetry. apply fold_left_same; [|exact H].
  intros a t t' (_ & -> & ->). reflexivity.
Qed.

Lemma basic_insights_same (df df1 : DataFrame) :
  Forall2 same_figures df df1 ->
  snd (generate_basic_insights df1) = snd (generate_basic_insights df).
Proof.
  intros H. unfold generate_basic_insights.
  assert (Hlen : List.length df1 = List.length df)
    by (symmetry; now apply Forall2_length in H).
  assert (Ha : map amount df1 = map amount df).
  { induction H as [|t t' l l' (_ & Ht & _) _ IH]; simpl; [reflexivity|].
    rewrite Ht, IH; [reflexivity|]. now injection Hlen. }
  pose proof (category_totals_same df df1 H) as Hc.
  assert (Hd : description_counts df1 = description_counts df).
  { unfold description_counts. symmetry.
    apply fold_left_same; [|exact H].
    intros a t t' (-> & _ & _). reflexivity. }
  assert (Hf : map amount
                 (filter (fun t => String.eqb (category t) "Food") df1)
               = map amount
                   (filter (fun t => String.eqb (category t) "Food") df)).
  { clear Hlen Ha Hc Hd.
    induction H as [|t t' l l' (_ & Ht & Hcat) _ IH]; [reflexivity|].
    cbn [filter]. rewrite Hcat.
    destruct (String.eqb (category t') "Food"); cbn [map];
      now rewrite ?Ht, IH. }
  rewrite Hlen, Ha, Hc, Hd, Hf.
  destruct (List.length df =? 0)%nat; [reflexivity|].
  destruct (idxmax (category_totals df)), (description_counts df);
    reflexivity.
Qed.

End RemoteFacts.

(** X14: [generate_spending_insights] raises in one case only, the one
    in which the basic insights raise: in pandas 3, on a table none of
    whose category totals is a number.  Without a client it returns the
    basic insights and leaves the table as it was.  With a client it
    returns the content of the first choice of the answer; when the
    dates cannot be parsed, the call raises or the answer has no choice,
    it returns the very basic insights it returns without a client. *)
Theorem spending_insights_fallback {pd : Reductions}
    (parse : string -> result Z) (client : option advisor)
    (df : DataFrame) :
  ((exists a, snd (generate_spending_insights parse client df) = Ok a) \/
   (release = pandas3 /\ df <> [] /\
    all_na (category_totals df) = true /\
    snd (generate_spending_insights parse client df)
    = Raise (ValueError "Encountered all NA values"))) /\
  (release = pandas2 \/ all_na (category_totals df) = false ->
   exists a, snd (generate_spending_insights parse client df) = Ok a) /\
  generate_spending_insights parse None df
  = (df, values <- snd (generate_basic_insights df) ;; Ok (Basic values)) /\
  (forall create s content rest,
      client = Some create ->
      snd (prepare_spending_summary parse df) = Ok s ->
      create s = Ok (content :: rest) ->
      snd (generate_spending_insights parse client df)
      = Ok (Remote content)) /\
  (forall create,
      client = Some create ->
      (forall s content rest,
          snd (prepare_spending_summary parse df) = Ok s ->
          create s <> Ok (content :: rest)) ->
      snd (generate_spending_insights parse client df)
      = snd (generate_spending_insights parse None df)).
Proof.
  assert (Hbasic : forall d,
             generate_spending_insights parse None d
             = (d, values <- snd (generate_basic_insights d) ;;
                   Ok (Basic values))).
  { intros d. unfold generate_spending_insights.
    pose proof (basic_insights_frame d) as Hfst.
    destruct (generate_basic_insights d) as [d' r'].
    simpl in *. now subst. }
  assert (Hdates : forall dates,
             to_datetime_all parse (map date df) = Ok dates ->
             snd (generate_basic_insights
                    (map (fun p => set_date (fst p) (snd p))
                         (combine df dates)))
             = snd (generate_basic_insights df)).
  { intros dates E. apply basic_insights_same, set_dates_same_figures.
    apply to_datetime_all_Forall2, Forall2_length in E.
    now rewrite length_map in E. }
  assert (Hfall : forall create,
             (forall s content rest,
                 snd (prepare_spending_summary parse df) = Ok s ->
                 create s <> Ok (content :: rest)) ->
             snd (generate_spending_insights parse (Some create) df)
             = snd (generate_spending_insights parse None df)).
  { intros create Hno. unfold generate_spending_insights.
    unfold prepare_spending_summary in *.
    destruct (to_datetime_all parse (map date df)) as [dates|e] eqn:E.
    - cbn [bind snd] in *.
      match goal with
      | |- context [create ?s] =>
          specialize (Hno s); destruct (create s) as [[|c r]|e0]
      end; cbn [bind].
      + specialize (Hdates dates eq_refl).
        destruct (generate_basic_insights (map _ (combine df dates)))
          as [d1 r1].
        destruct (generate_basic_insights df) as [d0 r0].
        simpl in *. now subst.
      + now elim (Hno c r eq_refl).
      + specialize (Hdates dates eq_refl).
        destruct (generate_basic_insights (map _ (combine df dates)))
          as [d1 r1].
        destruct (generate_basic_insights df) as [d0 r0].
        simpl in *. now subst.
    - cbn [bind]. reflexivity. }
  assert (Hcases : forall create,
             (exists content,
                 snd (generate_spending_insights parse (Some create) df)
                 = Ok (Remote content)) \/
             snd (generate_spending_insights parse (Some create) df)
             = snd (generate_spending_insights parse None df)).
  { intros create. unfold generate_spending_insights.
    unfold prepare_spending_summary.
    destruct (to_datetime_all parse (map date df)) as [dates|e] eqn:E.
    - cbn [bind snd].
      match goal with
      | |- context [create ?s] => destruct (create s) as [[|c r]|e0]
      end; cbn [bind].
      + right. specialize (Hdates dates eq_refl).
        destruct (generate_basic_insights (map _ (combine df dates)))
          as [d1 r1].
        destruct (generate_basic_insights df) as [d0 r0].
        simpl in *. now subst.
      + left. exists c. reflexivity.
      + right. specialize (Hdates dates eq_refl).
        destruct (generate_basic_insights (map _ (combine df dates)))
          as [d1 r1].
        destruct (generate_basic_insights df) as [d0 r0].
        simpl in *. now subst.
    - right. cbn [bind]. reflexivity. }
  assert (Hres :
            (exists a, snd (generate_spending_insights parse client df)
                       = Ok a) \/
            (release = pandas3 /\ df <> [] /\
             all_na (category_totals df) = true /\
             snd (generate_spending_insights parse client df)
             = Raise (ValueError "Encountered all NA values"))).
  { assert (Hnone :
              (exists a, snd (generate_spending_insights parse None df)
                         = Ok a) \/
              (release = pandas3 /\ df <> [] /\
               all_na (category_totals df) = true /\
               snd (generate_spending_insights parse None df)
               = Raise (ValueError "Encountered all NA values"))).
    { rewrite Hbasic. cbn [snd].
      destruct (basic_insights_result df) as [[r ->]|(H1 & H2 & H3 & ->)].
      - left. simpl. eauto.
      - right. simpl. auto. }
    destruct client as [create|]; [|exact Hnone].
    destruct (Hcases create) as [[content ->]| ->]; [left; eauto|].
    exact Hnone. }
  split; [exact Hres|]. split; [|split; [apply Hbasic|split]].
  - intros H. destruct Hres as [Hok|(Hr & _ & Hna & _)]; [exact Hok|].
    destruct H as [H|H]; congruence.
  - intros create s content rest -> Hs Hc.
    unfold generate_spending_insights.
    destruct (prepare_spending_summary parse df) as [df1 [s'|e]];
      simpl in Hs; [|discriminate].
    injection Hs as ->. cbn [bind]. now rewrite Hc.
  - intros create ->. apply Hfall.
Qed.

(** ** Recurring groups are reported once *)

Lemma insert_sorted_pairs {K V} (kltb : K -> K -> bool)
    (R : K * V -> K * V -> Prop) (g : K * V) (sorted : list (K * V)) :
  (forall a b, R a b -> R b a) ->
  Forall (R g) sorted -> ForallOrdPairs R sorted ->
  ForallOrdPairs R (insert_sorted kltb g sorted).
Proof.
  intros Hsym Hg H. induction H as [|h rest Hh Hrest IH]; simpl.
  - repeat constructor.
  - inversion Hg as [|? ? Hgh Hgrest]; subst.
    destruct (kltb (fst g) (fst h)).
    + constructor; [exact Hg|]. now constructor.
    + constructor; [|now apply IH].
      rewrite Forall_forall in *. intros x Hx.
      apply insert_sorted_In in Hx as [->|Hx];
        [now apply Hsym | now apply Hh].
Qed.

Lemma sort_index_pairs {K V} (kltb : K -> K -> bool)
    (R : K * V -> K * V -> Prop) (groups : list (K * V)) :
  (forall a b, R a b -> R b a) ->
  ForallOrdPairs R groups -> ForallOrdPairs R (sort_index kltb groups).
Proof.
  intros Hsym. induction 1 as [|g rest Hg Hrest IH]; simpl.
  - constructor.
  - apply insert_sorted_pairs; [exact Hsym| |exact IH].
    rewrite Forall_forall in *. intros x Hx.
    apply sort_index_In in Hx. now apply Hg.
Qed.

Lemma filter_pairs {A} (R : A -> A -> Prop) (p : A -> bool) (l : list A) :
  ForallOrdPairs R l -> ForallOrdPairs R (filter p l).
Proof.
  induction 1 as [|a l Ha Hl IH]; simpl; [constructor|].
  destruct (p a); [|exact IH]. constructor; [|exact IH].
  rewrite Forall_forall in *. intros x Hx. apply Ha.
  now apply filter_In in Hx as [Hx _].
Qed.

(** X16: no group is reported twice: any two entries of the result of
    [detect_recurring_transactions] differ in their description or in
    their amount. *)
Theorem recurring_groups_distinct (df : DataFrame) :
  ForallOrdPairs (fun a b => key_eqb (fst a) (fst b) = false)
                 (snd (detect_recurring_transactions df)).
Proof.
  unfold detect_recurring_transactions, group_sizes. cbn [snd].
  apply filter_pairs, sort_index_pairs.
  - intros a b H. now rewrite key_eqb_sym.
  - apply (tally_apart key_eqb (key_of df) key_eqb_sym _ []). constructor.
Qed.

(** ** The remote summary *)

Section SummaryFacts.
Context {pd : Reductions}.
Variable parse : string -> result Z.





End SummaryFacts.


(** ** Totals by category and the summary *)

Section TextGroups.
Context {V : Type}.

Let value_of (c : string) (groups : list (string * V)) : option V :=
  option_map snd (find (fun g => String.eqb (fst g) c) groups).
Let separate (a b : string * V) : Prop :=
  String.eqb (fst a) (fst b) = false.

Lemma text_upsert_value (c0 c : string) (init : V) (f : V -> V)
                        (groups : list (string * V)) :
  value_of c (upsert String.eqb c0 init f groups)
  = if String.eqb c0 c
    then Some (match value_of c groups with
               | Some v => f v
               | None => init
               end)
    else value_of c groups.
Proof.
  unfold value_of.
  induction groups as [|[c' v] rest IH]; simpl.
  - now destruct (String.eqb c0 c).
  - destruct (String.eqb_spec c0 c') as [<-|Hne]; simpl.
    + now destruct (String.eqb c0 c).
    + destruct (String.eqb_spec c' c) as [<-|Hne']; simpl.
      * apply String.eqb_neq in Hne. now rewrite Hne.
      * exact IH.
Qed.

Lemma text_upsert_keys (c0 : string) (init : V) (f : V -> V)
                       (e : string * V) (groups : list (string * V)) :
  In e (upsert String.eqb c0 init f groups) ->
  fst e = c0 \/ exists e0, In e0 groups /\ fst e = fst e0.
Proof.
  induction groups as [|[c' v] rest IH]; simpl.
  - intros [<-|[]]. now left.
  - destruct (String.eqb c0 c'); simpl.
    + intros [<-|H]; right; eexists; split; eauto.
    + intros [<-|H]; [right; eexists; split; eauto|].
      destruct (IH H) as [E|(e0 & H0 & E)]; [now left|].
      right. exists e0. auto.
Qed.

Lemma text_upsert_separate (c0 : string) (init : V) (f : V -> V)
                           (groups : list (string * V)) :
  ForallOrdPairs separate groups ->
  ForallOrdPairs separate (upsert String.eqb c0 init f groups).
Proof.
  induction 1 as [|[c' v] rest Hhead Hrest IH]; simpl.
  - repeat constructor.
  - destruct (String.eqb c0 c') eqn:E.
    + constructor; [|exact Hrest].
      rewrite Forall_forall in *. intros e He. exact (Hhead e He).
    + constructor; [|exact IH].
      rewrite Forall_forall in *. intros e He.
      destruct (text_upsert_keys _ _ _ _ _ He) as [Ek|(e0 & H0 & Ek)];
        unfold separate; simpl; rewrite Ek.
      * now rewrite String.eqb_sym.
      * exact (Hhead e0 H0).
Qed.

Lemma separate_value (c : string) (v : V) (groups : list (string * V)) :
  ForallOrdPairs separate groups -> In (c, v) groups ->
  value_of c groups = Some v.
Proof.
  unfold value_of.
  induction 1 as [|[c' v'] rest Hhead Hrest IH]; simpl; [easy|].
  intros [[= -> ->]|Hin].
  - now rewrite String.eqb_refl.
  - rewrite Forall_forall in Hhead. specialize (Hhead _ Hin).
    unfold separate in Hhead. simpl in Hhead. rewrite Hhead. now apply IH.
Qed.

Lemma value_In (c : string) (v : V) (groups : list (string * V)) :
  value_of c groups = Some v -> In (c, v) groups.
Proof.
  unfold value_of.
  destruct (find (fun g => String.eqb (fst g) c) groups) as [[c' v']|] eqn:E;
    [|discriminate].
  simpl. intros [= ->]. apply find_some in E as [Hin Hc].
  apply String.eqb_eq in Hc. simpl in Hc. now subst.
Qed.
End TextGroups.

Lemma category_values_snoc (c : string) (seen : DataFrame)
                           (t : Transaction) :
  category_values c (seen ++ [t])%list
  = if String.eqb (category t) c
    then (category_values c seen ++ [amount t])%list
    else category_values c seen.
Proof.
  unfold category_values. rewrite filter_app. cbn [filter].
  destruct (String.eqb (category t) c).
  - now rewrite map_app.
  - now rewrite app_nil_r.
Qed.

Lemma category_rows_snoc (c : string) (seen : DataFrame) (t : Transaction) :
  filter (fun x => String.eqb (category x) c) (seen ++ [t])%list = [] <->
  filter (fun x => String.eqb (category x) c) seen = []
  /\ String.eqb (category t) c = false.
Proof.
  rewrite filter_app. simpl. destruct (String.eqb (category t) c).
  - split; [|now intros [_ H]]. intros H.
    now apply app_eq_nil in H as [_ H].
  - rewrite app_nil_r. tauto.
Qed.

(** What the groups hold while the rows are added one by one. *)
Lemma amounts_step (rows seen : DataFrame)
                   (groups : list (string * list float)) :
  (forall c,
      match option_map snd (find (fun g => String.eqb (fst g) c) groups) with
      | None => filter (fun x => String.eqb (category x) c) seen = []
      | Some v =>
          filter (fun x => String.eqb (category x) c) seen <> []
          /\ v = category_values c seen
      end) ->
  forall c,
    match option_map snd
            (find (fun g => String.eqb (fst g) c)
               (fold_left
                  (fun groups t =>
                     upsert String.eqb (category t) [amount t]
                            (fun values => (values ++ [amount t])%list)
                            groups)
                  rows groups)) with
    | None => filter (fun x => String.eqb (category x) c) (seen ++ rows)%list = []
    | Some v =>
        filter (fun x => String.eqb (category x) c) (seen ++ rows)%list <> []
        /\ v = category_values c (seen ++ rows)%list
    end.
Proof.
  revert seen groups.
  induction rows as [|t rows IH]; intros seen groups H c.
  - rewrite app_nil_r. apply H.
  - change (seen ++ t :: rows)%list with (seen ++ [t] ++ rows)%list.
    rewrite app_assoc. apply IH. clear c. intros c. specialize (H c).
    rewrite text_upsert_value, category_values_snoc.
    destruct (String.eqb (category t) c) eqn:E.
    + destruct (option_map snd _) as [v|].
      * destruct H as [Hne Hv]. split.
        -- rewrite filter_app. intros H0.
           now apply app_eq_nil in H0 as [H0 _].
        -- now rewrite Hv.
      * split.
        -- rewrite filter_app. simpl. rewrite E. intros H0.
           now apply app_eq_nil in H0 as [_ H0].
        -- unfold category_values. now rewrite H.
    + destruct (option_map snd _) as [v|].
      * destruct H as [Hne Hv]. split; [|exact Hv].
        rewrite filter_app. intros H0.
        now apply app_eq_nil in H0 as [H0 _].
      * apply category_rows_snoc. now split.
Qed.

Lemma amounts_separate (df : DataFrame)
                       (groups : list (string * list float)) :
  ForallOrdPairs (fun a b => String.eqb (fst a) (fst b) = false) groups ->
  ForallOrdPairs (fun a b => String.eqb (fst a) (fst b) = false)
    (fold_left
       (fun groups t =>
          upsert String.eqb (category t) [amount t]
                 (fun values => (values ++ [amount t])%list) groups)
       df groups).
Proof.
  revert groups. induction df as [|t df IH]; intros groups H; simpl;
    [exact H|].
  apply IH. now apply text_upsert_separate.
Qed.

Lemma category_amounts_sound (df : DataFrame) (c : string)
                             (v : list float) :
  In (c, v) (category_amounts df) ->
  v = category_values c df /\ exists t, In t df /\ category t = c.
Proof.
  unfold category_amounts. rewrite sort_index_In. intros Hin.
  pose proof (separate_value c v _
                (amounts_separate df [] (FOP_nil _)) Hin) as Hv.
  pose proof (amounts_step df [] [] (fun _ => eq_refl) c) as H.
  simpl in H. rewrite Hv in H. destruct H as [Hne Heq].
  split; [exact Heq|].
  destruct (filter (fun x => String.eqb (category x) c) df) as [|t l] eqn:E;
    [now elim Hne|].
  assert (Ht : In t (filter (fun x => String.eqb (category x) c) df))
    by (rewrite E; now left).
  apply filter_In in Ht as [Ht Hc]. apply String.eqb_eq in Hc. eauto.
Qed.

Lemma category_amounts_complete (df : DataFrame) (t : Transaction) :
  In t df ->
  In (category t, category_values (category t) df) (category_amounts df).
Proof.
  intros Ht.
  pose proof (amounts_step df [] [] (fun _ => eq_refl) (category t)) as H.
  simpl in H.
  destruct (option_map snd _) as [v|] eqn:Ev.
  - destruct H as [_ ->].
    unfold category_amounts. rewrite sort_index_In. now apply value_In.
  - assert (Hin : In t (filter (fun x => String.eqb (category x) (category t))
                               df))
      by (apply filter_In; split; [exact Ht | apply String.eqb_refl]).
    now rewrite H in Hin.
Qed.

Section TotalFacts.
Context {pd : Reductions}.

Lemma category_totals_sound (df : DataFrame) (c : string) (v : float) :
  In (c, v) (category_totals df) ->
  v = category_total c df /\ exists t, In t df /\ category t = c.
Proof.
  unfold category_totals. intros Hin.
  apply in_map_iff in Hin as ([c' values] & [= -> <-] & Hin).
  cbn [fst snd] in *.
  destruct (category_amounts_sound df c values Hin) as [-> Hrow].
  split; [reflexivity | exact Hrow].
Qed.

Lemma category_totals_complete (df : DataFrame) (t : Transaction) :
  In t df ->
  In (category t, category_total (category t) df) (category_totals df).
Proof.
  intros Ht. unfold category_totals. apply in_map_iff.
  exists (category t, category_values (category t) df).
  split; [reflexivity | now apply category_amounts_complete].
Qed.

End TotalFacts.

Lemma fill_low_number {K} (g : K * float) :
  is_nan (snd (fill_low g)) = false.
Proof.
  unfold fill_low. cbn [snd].
  destruct (is_nan (snd g)) eqn:E; [reflexivity | exact E].
Qed.

(** Among numbers, [first_max] finds an entry that none exceeds. *)
Lemma first_max_largest {K} (best : K * float) (rest : list (K * float)) :
  (forall g, In g (best :: rest) -> is_nan (snd g) = false) ->
  In (first_max best rest) (best :: rest) /\
  forall g, In g (best :: rest) ->
            (snd (first_max best rest) <? snd g)%float = false.
Proof.
  revert best. induction rest as [|g rest IH]; intros best Hnum; simpl.
  - split; [now left|]. intros g [<-|[]]. apply ltb_irrefl.
  - assert (Hb : is_nan (snd best) = false) by (apply Hnum; now left).
    assert (Hg : is_nan (snd g) = false) by (apply Hnum; right; now left).
    destruct (snd best <? snd g)%float eqn:E.
    + destruct (IH g) as [Hin Hmax].
      { intros h Hh. apply Hnum. now right. }
      split; [now right|].
      intros h [<-|Hh]; [|now apply Hmax].
      apply ltb_false_below with (snd g); [exact E| |].
      * apply Hmax. now left.
      * apply Hnum. right. exact Hin.
    + destruct (IH best) as [Hin Hmax].
      { intros h [<-|Hh]; apply Hnum; [now left | now right; right]. }
      split.
      * destruct Hin as [<-|Hin]; [now left | now right; right].
      * intros h [<-|[<-|Hh]].
        -- apply Hmax. now left.
        -- apply ltb_false_trans with (snd best); try assumption.
           ++ apply Hmax. now left.
           ++ apply Hnum. destruct Hin as [<-|Hin];
                [now left | now right; right].
        -- apply Hmax. now right.
Qed.

(** The entry that [idxmax] and [max] pick: an entry of the series
    whose value, with minus infinity for NaN, no value exceeds. *)
Lemma largest_entry {K} (g : K * float) (rest : list (K * float)) :
  (exists e, In e (g :: rest) /\ largest g rest = fill_low e) /\
  forall e, In e (g :: rest) ->
            (snd (largest g rest) <? snd e)%float = false.
Proof.
  unfold largest.
  destruct (first_max_largest (fill_low g) (map fill_low rest))
    as [Hin Hmax].
  { intros h Hh. change (In h (map fill_low (g :: rest))) in Hh.
    apply in_map_iff in Hh as (e & <- & _). apply fill_low_number. }
  split.
  - change (In (first_max (fill_low g) (map fill_low rest))
               (map fill_low (g :: rest))) in Hin.
    apply in_map_iff in Hin as (e & He & Hin). eauto.
  - intros e He.
    destruct (is_nan (snd e)) eqn:E; [now apply ltb_nan_r|].
    assert (Hf : fill_low e = e).
    { unfold fill_low. rewrite E. now destruct e. }
    rewrite <- Hf. apply Hmax.
    change (In (fill_low e) (map fill_low (g :: rest))).
    now apply in_map.
Qed.

(** X12: the top category of the summary is a category of the table,
    the amount shown with it is the total of its rows (minus infinity
    when that total is NaN), and no category of the table has a larger
    total.  The summary shows NaN for the category and for the amount
    when no total is a number, which pandas 2 allows. *)
Theorem basic_insights_top_category {pd : Reductions}
    (df df' : DataFrame) (v : summary) :
  generate_basic_insights df = (df', Ok (SpendingSummary v)) ->
  match top_category v with
  | Some c =>
      (exists t, In t df /\ category t = c) /\
      top_amount v
      = (if is_nan (category_total c df) then neg_infinity
         else category_total c df) /\
      (forall t, In t df ->
                 (top_amount v <? category_total (category t) df)%float
                 = false) /\
      (exists t, In t df
                 /\ is_nan (category_total (category t) df) = false)
  | None =>
      release = pandas2 /\
      is_nan (top_amount v) = true /\
      (forall t, In t df ->
                 is_nan (category_total (category t) df) = true)
  end.
Proof.
  unfold generate_basic_insights.
  destruct (List.length df =? 0)%nat; [discriminate|].
  unfold idxmax, nanmax.
  destruct (category_totals df) as [|g groups] eqn:Eg; [discriminate|].
  destruct (all_na (g :: groups)) eqn:Ena.
  - destruct release eqn:Er; [|discriminate].
    destruct (description_counts df) as [|d ds]; [discriminate|].
    intros [= _ <-]. cbn [top_category top_amount].
    split; [reflexivity|]. split; [reflexivity|].
    intros t Ht. pose proof (category_totals_complete df t Ht) as Hin.
    rewrite Eg in Hin. unfold all_na in Ena.
    rewrite forallb_forall in Ena. exact (Ena _ Hin).
  - destruct (description_counts df) as [|d ds]; [discriminate|].
    intros [= _ <-]. cbn [top_category top_amount].
    destruct (largest_entry g groups) as [([c total] & Hin & Hl) Hmax].
    rewrite Hl. unfold fill_low. cbn [fst snd].
    rewrite <- Eg in Hin.
    destruct (category_totals_sound df c total Hin) as [-> Hrow].
    split; [exact Hrow|]. split; [reflexivity|]. split.
    + intros t Ht. pose proof (category_totals_complete df t Ht) as Ht'.
      rewrite Eg in Ht'. specialize (Hmax _ Ht').
      rewrite Hl in Hmax. exact Hmax.
    + unfold all_na in Ena.
      assert (Hex : exists e, In e (g :: groups)
                             /\ is_nan (snd e) = false).
      { clear -Ena. induction (g :: groups) as [|e l IH];
          [discriminate|].
        simpl in Ena. destruct (is_nan (snd e)) eqn:E.
        - destruct (IH Ena) as (e' & He' & Hn). exists e'.
          split; [now right | exact Hn].
        - exists e. split; [now left | exact E]. }
      destruct Hex as ([c' w] & He & Hn). rewrite <- Eg in He.
      destruct (category_totals_sound df c' w He) as [-> (t & Ht & <-)].
      exists t. split; [exact Ht | exact Hn].
Qed.

Lemma basic_insights_top_category_witness :
  exists v,
    generate_basic_insights (pd := numpy_reductions pandas2) purchases
    = (purchases, Ok (SpendingSummary v))
    /\ top_category v = Some "Utilities"
    /\ top_amount v = 900%float
    /\ match top_category v with
       | Some c =>
           (exists t, In t purchases /\ category t = c) /\
           top_amount v
           = (if is_nan (category_total (pd := numpy_reductions pandas2)
                           c purchases)
              then neg_infinity
              else category_total (pd := numpy_reductions pandas2)
                     c purchases) /\
           (forall t, In t purchases ->
                      (top_amount v
                       <? category_total (pd := numpy_reductions pandas2)
                            (category t) purchases)%float = false) /\
           (exists t, In t purchases
                      /\ is_nan (category_total
                                   (pd := numpy_reductions pandas2)
                                   (category t) purchases) = false)
       | None =>
           release (Reductions := numpy_reductions pandas2) = pandas2 /\
           is_nan (top_amount v) = true /\
           (forall t, In t purchases ->
                      is_nan (category_total
                                (pd := numpy_reductions pandas2)
                                (category t) purchases) = true)
       end.
Proof.
  eexists. split; [reflexivity|]. split; [reflexivity|].
  split; [reflexivity|].
  apply (basic_insights_top_category (pd := numpy_reductions pandas2)
           purchases purchases _ eq_refl).
Defined.

(** ** Savings suggestions *)

Lemma may_precede_below (a b : string * float) :
  may_precede a b = true -> (snd a <? snd b)%float = false.
Proof.
  unfold may_precede. rewrite orb_true_iff, andb_true_iff.
  intros [H|[_ H]]; [now apply ltb_nan_r | now apply negb_true_iff in H].
Qed.

Lemma may_precede_number (a b : string * float) :
  may_precede a b = true -> is_nan (snd b) = false ->
  is_nan (snd a) = false /\ (snd a <? snd b)%float = false.
Proof.
  unfold may_precede. intros H Hb. rewrite Hb in H. cbn [orb] in H.
  apply andb_true_iff in H as [Ha H]. apply negb_true_iff in Ha, H.
  now split.
Qed.

Lemma may_precede_trans (a b c : string * float) :
  may_precede a b = true -> may_precede b c = true ->
  may_precede a c = true.
Proof.
  intros Hab Hbc. destruct (is_nan (snd c)) eqn:Hc.
  - unfold may_precede. now rewrite Hc.
  - destruct (may_precede_number b c Hbc Hc) as [Hb Hbc'].
    destruct (may_precede_number a b Hab Hb) as [Ha Hab'].
    unfold may_precede. rewrite Hc, Ha. cbn [orb negb andb].
    apply negb_true_iff.
    now apply ltb_false_trans with (snd b).
Qed.

Lemma may_precede_total (a b : string * float) :
  may_precede a b = false -> may_precede b a = true.
Proof.
  unfold may_precede. rewrite orb_false_iff, andb_false_iff.
  intros [Hb [Ha|Hab]].
  - apply negb_false_iff in Ha. now rewrite Ha.
  - apply negb_false_iff in Hab. rewrite Hb. cbn [negb andb].
    destruct (is_nan (snd a)) eqn:Ha; [reflexivity|]. cbn [orb].
    apply negb_true_iff.
    destruct (snd b <? snd a)%float eqn:E; [|reflexivity].
    pose proof (ltb_trans _ _ _ Hab E) as H.
    now rewrite ltb_irrefl in H.
Qed.

Lemma insert_descending_In (g e : string * float)
                           (sorted : list (string * float)) :
  In e (insert_descending g sorted) <-> e = g \/ In e sorted.
Proof.
  induction sorted as [|h rest IH]; simpl.
  - intuition.
  - destruct (may_precede g h); simpl; rewrite ?IH; intuition.
Qed.

Lemma insert_descending_permutation (g : string * float)
                                    (sorted : list (string * float)) :
  Permutation (insert_descending g sorted) (g :: sorted).
Proof.
  induction sorted as [|h rest IH]; simpl; [apply Permutation_refl|].
  destruct (may_precede g h); [apply Permutation_refl|].
  apply perm_trans with (h :: g :: rest); [|apply perm_swap].
  now apply perm_skip.
Qed.

Lemma insert_descending_sorted (g : string * float)
                               (sorted : list (string * float)) :
  StronglySorted (fun a b => may_precede a b = true) sorted ->
  StronglySorted (fun a b => may_precede a b = true)
                 (insert_descending g sorted).
Proof.
  induction 1 as [|h rest Hrest IH Hhead]; simpl.
  - repeat constructor.
  - destruct (may_precede g h) eqn:E.
    + constructor; [constructor; assumption|].
      constructor; [exact E|].
      rewrite Forall_forall in *. intros x Hx.
      apply may_precede_trans with h; [exact E | now apply Hhead].
    + constructor; [exact IH|].
      rewrite Forall_forall in *. intros x Hx.
      apply insert_descending_In in Hx as [->|Hx]; [|now apply Hhead].
      now apply may_precede_total.
Qed.

(** The stable sort is a sort. *)
Lemma stable_descending_sorts (series : list (string * float)) :
  Permutation (stable_descending series) series /\
  StronglySorted (fun a b => may_precede a b = true)
                 (stable_descending series).
Proof.
  induction series as [|g series [IHp IHs]]; simpl.
  - split; constructor.
  - split; [|now apply insert_descending_sorted].
    apply perm_trans with (g :: stable_descending series);
      [apply insert_descending_permutation | now apply perm_skip].
Qed.

Lemma firstn_In {A} (n : nat) (l : list A) (x : A) :
  In x (firstn n l) -> In x l.
Proof.
  intros H. rewrite <- (firstn_skipn n l). apply in_or_app. now left.
Qed.

Lemma StronglySorted_firstn {A} (R : A -> A -> Prop) (n : nat)
                            (l : list A) :
  StronglySorted R l -> StronglySorted R (firstn n l).
Proof.
  intros H. revert n. induction H as [|a l Hl IH Ha]; intros [|n]; simpl;
    try constructor.
  - apply IH.
  - rewrite Forall_forall in *. intros x Hx. apply Ha.
    now apply firstn_In in Hx.
Qed.

Lemma StronglySorted_filter {A} (R : A -> A -> Prop) (p : A -> bool)
                            (l : list A) :
  StronglySorted R l -> StronglySorted R (filter p l).
Proof.
  induction 1 as [|a l Hl IH Ha]; simpl; [constructor|].
  destruct (p a); [|exact IH]. constructor; [exact IH|].
  rewrite Forall_forall in *. intros x Hx. apply Ha.
  now apply filter_In in Hx as [Hx _].
Qed.

Lemma StronglySorted_map {A B} (R : A -> A -> Prop) (R' : B -> B -> Prop)
                         (f : A -> B) (l : list A) :
  (forall a b, R a b -> R' (f a) (f b)) ->
  StronglySorted R l -> StronglySorted R' (map f l).
Proof.
  intros Hf. induction 1 as [|a l Hl IH Ha]; simpl; constructor.
  - exact IH.
  - rewrite Forall_forall in *. intros y Hy.
    apply in_map_iff in Hy as (x & <- & Hx). apply Hf. now apply Ha.
Qed.

Lemma StronglySorted_across {A} (R : A -> A -> Prop) (l1 l2 : list A) :
  StronglySorted R (l1 ++ l2)%list ->
  forall a b, In a l1 -> In b l2 -> R a b.
Proof.
  induction l1 as [|x l1 IH]; simpl; intros H a b Ha Hb; [easy|].
  inversion H as [|? ? Hrest Hhead]; subst.
  destruct Ha as [<-|Ha].
  - rewrite Forall_forall in Hhead. apply Hhead, in_or_app. now right.
  - now apply IH.
Qed.

Lemma filter_all {A} (p : A -> bool) (l : list A) :
  (forall x, In x l -> p x = true) -> filter p l = l.
Proof.
  induction l as [|x l IH]; simpl; intros H; [reflexivity|].
  rewrite (H x (or_introl eq_refl)). f_equal. apply IH.
  intros y Hy. apply H. now right.
Qed.

(** X15: the savings suggestions leave the table as it was, whatever
    sort pandas uses for [sort_values].  There are at most three; each
    names a category of the table whose total is the spending shown,
    which is greater than 100; the suggested reduction is that spending
    times 0.15, in binary64; and they are listed from the largest
    spending to the smallest.  A category of the table whose total is
    greater than 100 is among them, unless there are three suggestions
    none of which shows less than that total. *)
Theorem savings_suggestions {pd : Reductions}
    (sort_values : list (string * float) -> list (string * float))
    (df : DataFrame) :
  Permutation (sort_values (category_totals df)) (category_totals df) ->
  StronglySorted (fun a b => may_precede a b = true)
                 (sort_values (category_totals df)) ->
  fst (generate_savings_suggestions sort_values df) = df /\
  (List.length (snd (generate_savings_suggestions sort_values df)) <= 3)%nat
  /\
  (forall s,
      In s (snd (generate_savings_suggestions sort_values df)) ->
      (100 <? current_spending s)%float = true /\
      suggested_reduction s = (current_spending s * 0.15)%float /\
      percentage s = 15%nat /\
      current_spending s = category_total (suggested_category s) df /\
      exists t, In t df /\ category t = suggested_category s) /\
  StronglySorted
    (fun a b => (current_spending a <? current_spending b)%float = false)
    (snd (generate_savings_suggestions sort_values df)) /\
  (forall t,
      In t df ->
      (100 <? category_total (category t) df)%float = true ->
      (exists s,
          In s (snd (generate_savings_suggestions sort_values df))
          /\ suggested_category s = category t) \/
      (List.length (snd (generate_savings_suggestions sort_values df))
       = 3%nat /\
       forall s,
         In s (snd (generate_savings_suggestions sort_values df)) ->
         (current_spending s <? category_total (category t) df)%float
         = false)).
Proof.
  intros Hperm Hsorted.
  unfold generate_savings_suggestions. cbn [fst snd].
  set (sorted := sort_values (category_totals df)) in *.
  split; [reflexivity|]. split; [|split; [|split]].
  - rewrite length_map.
    apply Nat.le_trans with (List.length (firstn 3 sorted)).
    + apply filter_length_le.
    + apply firstn_le_length.
  - intros s Hs. apply in_map_iff in Hs as ([c v] & <- & Hg).
    apply filter_In in Hg as [Hg Hv]. cbn [fst snd] in *.
    apply firstn_In in Hg.
    apply (Permutation_in _ Hperm) in Hg.
    destruct (category_totals_sound df c v Hg) as [Hsum Hrow].
    cbn [current_spending suggested_reduction percentage
         suggested_category].
    repeat split; assumption.
  - apply StronglySorted_map
      with (R := fun a b => may_precede a b = true).
    + intros a b H. cbn [current_spending].
      now apply may_precede_below.
    + now apply StronglySorted_filter, StronglySorted_firstn.
  - intros t Ht Hv.
    pose proof (category_totals_complete df t Ht) as Hin.
    apply (Permutation_in _ (Permutation_sym Hperm)) in Hin.
    rewrite <- (firstn_skipn 3 sorted) in Hin.
    apply in_app_or in Hin as [Hin|Hin].
    + left. eexists. split.
      * apply in_map. apply filter_In. split; [exact Hin | exact Hv].
      * reflexivity.
    + right.
      assert (Hnum : is_nan (category_total (category t) df) = false).
      { destruct (is_nan (category_total (category t) df)) eqn:E;
          [|reflexivity].
        now rewrite (ltb_nan_r _ _ E) in Hv. }
      assert (Hall : forall a,
                 In a (firstn 3 sorted) ->
                 (100 <? snd a)%float = true /\
                 (snd a <? category_total (category t) df)%float = false).
      { intros a Ha.
        assert (Hp : may_precede a (category t,
                                    category_total (category t) df)
                     = true).
        { apply (StronglySorted_across
                   (fun a b => may_precede a b = true)
                   (firstn 3 sorted) (skipn 3 sorted));
            [now rewrite firstn_skipn | exact Ha | exact Hin]. }
        destruct (may_precede_number _ _ Hp Hnum) as [Hna Hlt].
        cbn [snd] in Hlt. split; [|exact Hlt].
        now apply ltb_below_false
          with (category_total (category t) df). }
      rewrite (filter_all _ (firstn 3 sorted));
        [|intros a Ha; now apply Hall].
      split.
      * rewrite length_map. apply firstn_length_le.
        destruct (Nat.le_gt_cases 3 (List.length sorted)) as [H|H];
          [exact H|].
        rewrite skipn_all2 in Hin by lia. destruct Hin.
      * intros s Hs. apply in_map_iff in Hs as (a & <- & Ha).
        cbn [current_spending]. now apply Hall.
Qed.

Lemma savings_suggestions_witness :
  snd (generate_savings_suggestions (pd := numpy_reductions pandas2)
         stable_descending cents)
  = [ {| suggested_category := "Utilities";
         current_spending := 900;
         suggested_reduction := 135;
         percentage := 15 |};
      {| suggested_category := "Food";
         current_spending := 100.00000000000001;
         suggested_reduction := 15.000000000000002;
         percentage := 15 |} ] /\
  (forall s,
      In s (snd (generate_savings_suggestions
                   (pd := numpy_reductions pandas2)
                   stable_descending cents)) ->
      (100 <? current_spending s)%float = true /\
      suggested_reduction s = (current_spending s * 0.15)%float /\
      percentage s = 15%nat /\
      current_spending s
      = category_total (pd := numpy_reductions pandas2)
          (suggested_category s) cents /\
      exists t, In t cents /\ category t = suggested_category s).
Proof.
  split; [reflexivity|].
  apply (savings_suggestions (pd := numpy_reductions pandas2)
           stable_descending cents);
    apply stable_descending_sorts.
Defined.

(** ** Tables with a single amount *)

Lemma nanstd_single (version : pandas_release) (amounts : list float) :
  (count amounts <= 1)%nat ->
  threshold (pd := numpy_reductions version) amounts
  = (nanmean amounts + nan)%float.
Proof.
  intros H. unfold threshold. cbn [series_mean series_std numpy_reductions].
  unfold nanstd, nanvar. apply Nat.leb_le in H. now rewrite H.
Qed.

(** X17: with the reductions of numpy, a table with at most one amount
    that is a number has no anomaly: the deviation is NaN, and no amount
    is greater than a threshold that is NaN.  Two amounts are enough
    for an anomaly: of 0 and 1e-200 the second is flagged, the squares
    of the distances from the mean being zero in binary64. *)
Theorem no_anomaly_below_two :
  (forall version parse df anomalies,
      (count (map amount df) <= 1)%nat ->
      snd (detect_spending_anomalies (pd := numpy_reductions version)
             parse df) = Ok anomalies ->
      anomalies = []) /\
  (forall version parse,
      snd (detect_spending_anomalies (pd := numpy_reductions version)
             parse (coffee 1)) = Ok []) /\
  (forall version parse,
      snd (detect_spending_anomalies (pd := numpy_reductions version)
             parse tiny_amounts) = Ok [spent "b" 1e-200]).
Proof.
  split; [|split; intros version parse; reflexivity].
  intros version parse df anomalies Hcount H.
  destruct (detect_spending_anomalies (pd := numpy_reductions version)
              parse df) as [df1 r] eqn:E.
  cbn [snd] in H. subst r.
  rewrite (anomalies_above (pd := numpy_reductions version)
             parse df df1 anomalies E).
  change (series_mean (map amount df) + 2 * series_std (map amount df))%float
    with (threshold (pd := numpy_reductions version) (map amount df)).
  rewrite (nanstd_single _ _ Hcount).
  clear E. induction df1 as [|t df1 IH]; [reflexivity|]. cbn [filter].
  now rewrite (ltb_nan_l _ (amount t) (add_nan_r _)).
Qed.

End InsightsFacts.

(* ===================================================================== *)
(** * The normalizer                                                      *)
(* ===================================================================== *)

Module UtilsFacts.
Import PyStr Py Pandas Utils PyStrFacts.

Lemma missing_columns (df : DataFrame) (field : string) :
  In field (filter (fun col => negb (mem col (resolved_labels df)))
                   required_columns)
  <-> In field required_columns /\ ~ In field (resolved_labels df).
Proof.
  rewrite filter_In, negb_true_iff, mem_false. reflexivity.
Qed.

(** C9: when a required field is carried by no column after the labels
    are lower-cased, stripped and renamed, the call raises; the message
    of the exception shows that field, and every other required field
    that is not resolved; no table is returned. *)
Theorem standardize_columns_missing (df : DataFrame) (field : string) :
  In field required_columns ->
  ~ In field (resolved_labels df) ->
  exists message,
    snd (standardize_columns df) = Raise (ValueError message) /\
    contains field message = true /\
    (forall other,
        In other required_columns -> ~ In other (resolved_labels df) ->
        contains other message = true).
Proof.
  intros Hreq Hmiss. unfold standardize_columns.
  cbn [columns rows]. fold (resolved_labels df).
  assert (Hin : In field
                   (filter (fun col => negb (mem col (resolved_labels df)))
                           required_columns))
    by now apply missing_columns.
  assert (Hnames : forall other,
             In other required_columns -> ~ In other (resolved_labels df) ->
             contains other
               ("Missing required columns: "
                ++ repr_list
                     (filter
                        (fun col => negb (mem col (resolved_labels df)))
                        required_columns)) = true).
  { intros other Ho Hm.
    apply contains_trans with (y := repr_list
      (filter (fun col => negb (mem col (resolved_labels df)))
              required_columns)).
    - apply repr_list_names. now apply missing_columns.
    - apply contains_iff. exists "Missing required columns: ", "".
      f_equal. clear. induction (repr_list _) as [|c r IH]; simpl;
        [reflexivity | now rewrite <- IH]. }
  destruct (filter (fun col => negb (mem col (resolved_labels df)))
                   required_columns) as [|m ms] eqn:E; [easy|].
  eexists. split; [reflexivity|]. split; [now apply Hnames|].
  exact Hnames.
Qed.

Lemma standardize_columns_missing_witness :
  exists message,
    snd (standardize_columns no_date_table) = Raise (ValueError message) /\
    contains "date" message = true /\
    (forall other,
        In other required_columns ->
        ~ In other (resolved_labels no_date_table) ->
        contains other message = true).
Proof.
  apply (standardize_columns_missing no_date_table "date").
  - simpl. auto.
  - vm_compute. intuition discriminate.
Defined.

Lemma select_labels_In (cols keys : list string) (label : string) :
  In label (select_labels cols keys) <-> In label keys /\ In label cols.
Proof.
  induction keys as [|k keys IH]; simpl; [tauto|].
  rewrite in_app_iff, filter_In, IH. split.
  - intros [[Hc Hk]|[Hk Hc]].
    + apply String.eqb_eq in Hk. subst. tauto.
    + tauto.
  - intros [[<-|Hk] Hc].
    + left. split; [exact Hc | apply String.eqb_refl].
    + tauto.
Qed.

Lemma filter_eqb_repeat (cols : list string) (k : string) :
  filter (String.eqb k) cols = repeat k (count_occ string_dec cols k).
Proof.
  induction cols as [|c cols IH]; simpl; [reflexivity|].
  destruct (String.eqb_spec k c) as [<-|Hne].
  - destruct (string_dec k k) as [_|n]; [|now elim n].
    simpl. now rewrite IH.
  - destruct (string_dec c k) as [->|_]; [now elim Hne | exact IH].
Qed.

Lemma select_labels_unique (cols keys : list string) :
  (forall k, In k keys -> count_occ string_dec cols k = 1%nat) ->
  select_labels cols keys = keys.
Proof.
  induction keys as [|k keys IH]; simpl; [reflexivity|].
  intros H. rewrite filter_eqb_repeat, (H k) by now left.
  simpl. f_equal. apply IH. intros; apply H; now right.
Qed.

(** X23: the selection of the required columns.  Every column of the
    returned table carries one of the four labels date, description,
    category, amount, and each of the four is carried by some column, so
    that no column with another label (an account or a type column) is
    returned; the rows are kept.  The columns are exactly date,
    description, category, amount, in this order, when each of the four
    is the resolved label of one input column only. *)
Theorem standardize_columns_output (df out : DataFrame) :
  snd (standardize_columns df) = Ok out ->
  (forall label, In label (columns out) <-> In label required_columns) /\
  columns out = select_labels (resolved_labels df) required_columns /\
  ((forall field, In field required_columns ->
                  count_occ string_dec (resolved_labels df) field = 1%nat) ->
   columns out = required_columns) /\
  List.length (rows out) = List.length (rows df).
Proof.
  unfold standardize_columns. cbn [columns rows].
  fold (resolved_labels df).
  remember required_columns as required eqn:Hreq.
  destruct (filter (fun col => negb (mem col (resolved_labels df)))
                   required) as [|m ms] eqn:E; [|discriminate].
  unfold getitem_list. cbn [columns rows snd]. rewrite E.
  intros Hout. injection Hout as <-. cbn [columns rows].
  assert (Hall : forall label, In label required ->
                               In label (resolved_labels df)).
  { intros label Hl.
    destruct (mem label (resolved_labels df)) eqn:Em;
      [now apply mem_In|].
    assert (Hin : In label
               (filter (fun col => negb (mem col (resolved_labels df)))
                       required))
      by (apply filter_In; split; [exact Hl | now rewrite Em]).
    now rewrite E in Hin. }
  split; [|split; [reflexivity|split]].
  - intros label. rewrite select_labels_In. split; [tauto|].
    intros Hl. split; [exact Hl | now apply Hall].
  - apply select_labels_unique.
  - apply length_map.
Qed.

Lemma standardize_columns_output_witness :
  snd (standardize_columns bank_export)
  = Ok {| columns := ["date"; "description"; "category"; "amount"];
          rows := [[Str "2024-01-15"; Str "Coffee"; Str "Food"; Num 5]] |}
  /\
  (forall label,
      In label ["date"; "description"; "category"; "amount"]
      <-> In label required_columns) /\
  ["date"; "description"; "category"; "amount"]
  = select_labels (resolved_labels bank_export) required_columns /\
  ((forall field, In field required_columns ->
                  count_occ string_dec (resolved_labels bank_export) field
                  = 1%nat) ->
   ["date"; "description"; "category"; "amount"] = required_columns) /\
  1%nat = List.length (rows bank_export).
Proof.
  split; [reflexivity|].
  apply (standardize_columns_output bank_export
           {| columns := ["date"; "description"; "category"; "amount"];
              rows := [[Str "2024-01-15"; Str "Coffee"; Str "Food";
                        Num 5]] |}).
  reflexivity.
Defined.

(** A header that ends with a no-break space is stripped like one that
    ends with a space. *)
Lemma standardize_columns_padded_header :
  snd (standardize_columns padded_header)
  = Ok {| columns := ["date"; "description"; "category"; "amount"];
          rows := rows padded_header |}.
Proof. reflexivity. Qed.

(** C10 at a table with two columns for one field: this table has a
    'Description' and a 'Transaction Description' column; both resolve
    to 'description', and the table returned for it has five columns,
    the two description columns among them, where the claim (and the
    comment of the code, 'only necessary columns') has four.  In the
    returned table the description of a row is a pair of cells, not a
    text, and the batch classification of that table raises. *)
Theorem standardize_columns_keeps_both :
  exists out,
    snd (standardize_columns two_descriptions) = Ok out /\
    columns out
    = ["date"; "description"; "description"; "category"; "amount"] /\
    columns out <> required_columns /\
    (forall row,
        In row (rows out) ->
        row_getitem (columns out) row "description"
        = Ok (Series [Str "Coffee"; Str "COFFEE SHOP 0042"])) /\
    snd (Categorizer.batch_categorize (sk := Categorizer.example_learner)
           Categorizer.fresh out "rule")
    = Raise AttributeError.
Proof.
  eexists. split; [reflexivity|]. split; [reflexivity|].
  split; [discriminate|]. split; [|reflexivity].
  intros row [<-|[]]. reflexivity.
Qed.

(** ** Reading an upload *)

Lemma standardize_raises (df : DataFrame) (field : string) :
  In field required_columns -> ~ In field (resolved_labels df) ->
  exists message,
    snd (standardize_columns df) = Raise (ValueError message) /\
    contains field message = true.
Proof.
  intros Hreq Hmiss. unfold standardize_columns.
  cbn [columns rows]. fold (resolved_labels df).
  assert (Hin : In field
                   (filter (fun col => negb (mem col (resolved_labels df)))
                           required_columns))
    by now apply missing_columns.
  destruct (filter (fun col => negb (mem col (resolved_labels df)))
                   required_columns) as [|m ms] eqn:E; [easy|].
  eexists. split; [reflexivity|].
  apply contains_trans with (y := repr_list (m :: ms)).
  - now apply repr_list_names.
  - apply contains_iff. exists "Missing required columns: ", "".
    f_equal. clear. induction (repr_list _) as [|c r IH]; simpl;
      [reflexivity | now rewrite <- IH].
Qed.

(** X18: [parse_uploaded_file] swallows every exception.  A file whose
    name ends in none of .csv, .xlsx, .xls (compared as written, so
    'DATA.CSV' is refused) gives None and the message of the unsupported
    format without being read.  A .csv file whose table lacks a required
    field gives None as well: the exception of [standardize_columns] is
    turned into a message that names the field.  A .csv file that cannot
    be read gives None and the message of that exception. *)
Theorem parse_uploaded_file_none (file : uploaded_file) :
  (endswith (name file) ".csv" = false ->
   endswith (name file) ".xlsx" = false ->
   endswith (name file) ".xls" = false ->
   parse_uploaded_file file = ([UnsupportedFormat], None)) /\
  (forall df field,
      endswith (name file) ".csv" = true ->
      read_csv file = Ok df ->
      In field required_columns -> ~ In field (resolved_labels df) ->
      exists message,
        parse_uploaded_file file
        = ([ErrorReadingFile (ValueError message)], None)
        /\ contains field message = true) /\
  (forall e,
      endswith (name file) ".csv" = true ->
      read_csv file = Raise e ->
      parse_uploaded_file file = ([ErrorReadingFile e], None)) /\
  (forall df out,
      endswith (name file) ".csv" = true ->
      read_csv file = Ok df ->
      snd (standardize_columns df) = Ok out ->
      parse_uploaded_file file = ([], Some out)).
Proof.
  unfold parse_uploaded_file. split; [|split; [|split]].
  - now intros -> -> ->.
  - intros df field -> -> Hreq Hmiss. cbn [bind].
    destruct (standardize_raises df field Hreq Hmiss) as (msg & -> & Hc).
    eauto.
  - now intros e -> ->.
  - intros df out -> -> Hout. cbn [bind]. now rewrite Hout.
Qed.

(** ** Cleaning *)

Lemma dropna_In {A R} (rows : list (option A * R)) (a : A) (r : R) :
  In (a, r) (dropna rows) <-> In (Some a, r) rows.
Proof.
  induction rows as [|[[b|] r'] rows IH]; simpl; [tauto| |].
  - rewrite IH. split; intros [H|H]; auto; left; congruence.
  - rewrite IH. split; [auto|]. intros [H|H]; [discriminate | exact H].
Qed.

Lemma dropna_some {A R} (rows : list (A * R)) :
  dropna (map (fun row => (Some (fst row), snd row)) rows) = rows.
Proof.
  induction rows as [|[a r] rows IH]; simpl; [reflexivity|].
  now rewrite IH.
Qed.

Lemma Qabs_twice (q : Q) : Qabs (Qabs q) = Qabs q.
Proof.
  destruct q as [n d]. unfold Qabs. now rewrite Z.abs_idemp.
Qed.

(** X19: whatever texts pandas reads as numbers, the cleaned amounts are
    never negative, and cleaning a cleaned table again changes nothing.
    Of a numeric column exactly the rows that hold a number are kept,
    each with the absolute value of its number and its other cells
    untouched.  In a text column of dtype object the currency signs,
    separators and letters are removed before the text is read, and a
    missing value is read as the text 'nan'; in a text column of a string
    dtype the text is read as it is: the symbols are not removed there.
    A row without a readable number is dropped.  With plain decimal
    numerals, the object column '$1,234.56', '-45.00', 'n/a', missing,
    'USD 12' gives 1234.56, 45 and 12, and the same column with a string
    dtype gives 45 only. *)
Theorem clean_amount_column_result {R} (read_number : string -> option Q)
    (df : amounts R) :
  Forall (fun row => 0 <= fst row) (clean_amount_column read_number df) /\
  clean_amount_column read_number
    (cleaned (clean_amount_column read_number df))
  = clean_amount_column read_number df /\
  (forall rows,
      df = NumberAmounts rows ->
      forall a r,
        In (a, r) (clean_amount_column read_number df) <->
        exists x, In (Some x, r) rows /\ a = Qabs x) /\
  (forall rows,
      df = TextAmounts object rows ->
      forall a r,
        In (a, r) (clean_amount_column read_number df) <->
        exists c x,
          In (c, r) rows /\
          read_number (strip_symbols (astype_str c)) = Some x /\
          a = Qabs x) /\
  (forall rows,
      df = TextAmounts string_dtype rows ->
      forall a r,
        In (a, r) (clean_amount_column read_number df) <->
        exists text x,
          In (Some text, r) rows /\ read_number text = Some x /\
          a = Qabs x) /\
  clean_amount_column plain_decimal statement_amounts
  = [(123456 # 100, "Laptop"); (4500 # 100, "Refund"); (12 # 1, "Lunch")] /\
  clean_amount_column plain_decimal statement_strings
  = [(4500 # 100, "Refund")].
Proof.
  split; [|split; [|split; [|split; [|split; [|split; reflexivity]]]]].
  - unfold clean_amount_column. apply Forall_forall.
    intros row Hrow. apply in_map_iff in Hrow as (x & <- & _).
    apply Qabs_nonneg.
  - unfold clean_amount_column at 1. unfold cleaned.
    cbn [to_numeric]. rewrite dropna_some.
    unfold clean_amount_column. rewrite map_map. cbn [fst snd].
    apply map_ext. intros [a r]. cbn [fst snd]. now rewrite Qabs_twice.
  - intros rows -> a r. unfold clean_amount_column. cbn [to_numeric].
    rewrite in_map_iff. split.
    + intros ([x r'] & [= <- <-] & Hin). apply dropna_In in Hin. eauto.
    + intros (x & Hin & ->). exists (x, r). split; [reflexivity|].
      now apply dropna_In.
  - intros rows -> a r. unfold clean_amount_column, remove_symbols.
    cbn [is_object to_numeric]. rewrite map_map. cbn [fst snd].
    rewrite in_map_iff. split.
    + intros ([x r'] & [= <- <-] & Hin). apply dropna_In in Hin.
      apply in_map_iff in Hin as ([c r''] & [= Hx <-] & Hin).
      exists c, x. auto.
    + intros (c & x & Hin & Hx & ->). exists (x, r).
      split; [reflexivity|]. apply dropna_In. apply in_map_iff.
      exists (c, r). cbn [fst snd]. now rewrite Hx.
  - intros rows -> a r. unfold clean_amount_column.
    cbn [is_object to_numeric]. rewrite in_map_iff. split.
    + intros ([x r'] & [= <- <-] & Hin). apply dropna_In in Hin.
      apply in_map_iff in Hin as ([[text|] r''] & Hx & Hin);
        cbn [fst snd] in Hx; [|discriminate].
      injection Hx as Hx <-. exists text, x. auto.
    + intros (text & x & Hin & Hx & ->). exists (x, r).
      split; [reflexivity|]. apply dropna_In. apply in_map_iff.
      exists (Some text, r). cbn [fst snd]. now rewrite Hx.
Qed.

Section DateFacts.
Context {R : Type}.
Variable parse : string -> result Z.

(** X20: [clean_date_column] keeps, in their order, the rows whose date
    is a Timestamp or a text that can be parsed, each with its Timestamp
    and its other cells untouched, and drops the rows with a missing or
    unreadable date; cleaning the result again changes nothing. *)
Theorem clean_date_column_result
    (df : list (option Insights.date_value * R)) :
  (forall t r,
      In (t, r) (clean_date_column parse df) <->
      exists c, In (c, r) df /\ to_datetime_coerce parse c = Some t) /\
  (List.length (clean_date_column parse df) <= List.length df)%nat /\
  clean_date_column parse
    (map (fun row => (Some (Insights.Timestamp (fst row)), snd row))
         (clean_date_column parse df))
  = clean_date_column parse df.
Proof.
  unfold clean_date_column. split; [|split].
  - intros t r. rewrite dropna_In, in_map_iff. split.
    + intros ([c r'] & [= Hc <-] & Hin). eauto.
    + intros (c & Hin & Hc). exists (c, r). split; [|exact Hin].
      cbn [fst snd]. now rewrite Hc.
  - induction df as [|[c r] df IH]; simpl; [lia|].
    destruct (to_datetime_coerce parse c); simpl; lia.
  - rewrite map_map. cbn [fst snd to_datetime_coerce].
    apply dropna_some.
Qed.
End DateFacts.

(** ** Validation *)

Lemma minimum_below (xs : list Q) :
  below_zero (minimum xs) = true <-> exists x, In x xs /\ x < 0.
Proof.
  induction xs as [|x xs IH]; simpl.
  - split; [discriminate | now intros (x & [] & _)].
  - destruct (minimum xs) as [m|]; simpl in *.
    + destruct (Qle_bool x m) eqn:E.
      * rewrite negb_true_iff. split.
        -- intros H. exists x. split; [now left|].
           apply Qnot_le_lt. intros Hle. apply Qle_bool_iff in Hle.
           congruence.
        -- intros (y & [<-|Hy] & Hneg).
           ++ destruct (Qle_bool 0 x) eqn:E0; [|reflexivity].
              apply Qle_bool_iff in E0. now apply Qle_not_lt in E0.
           ++ assert (Hm : negb (Qle_bool 0 m) = true)
                by (apply IH; eauto).
              apply negb_true_iff in Hm.
              destruct (Qle_bool 0 x) eqn:E0; [|reflexivity].
              apply Qle_bool_iff in E0, E.
              assert (H0 : Qle_bool 0 m = true)
                by (apply Qle_bool_iff; now apply Qle_trans with x).
              congruence.
      * rewrite IH. split.
        -- intros (y & Hy & Hneg). eauto.
        -- intros (y & [<-|Hy] & Hneg); [|eauto].
           apply IH. apply negb_true_iff.
           destruct (Qle_bool 0 m) eqn:E0; [|reflexivity].
           apply Qle_bool_iff in E0.
           assert (Hx : Qle_bool x m = true).
           { apply Qle_bool_iff. apply Qle_trans with 0; [|exact E0].
             now apply Qlt_le_weak. }
           congruence.
    + rewrite negb_true_iff. split.
      * intros H. exists x. split; [now left|].
        apply Qnot_le_lt. intros Hle. apply Qle_bool_iff in Hle. congruence.
      * intros (y & [<-|Hy] & Hneg).
        -- destruct (Qle_bool 0 x) eqn:E0; [|reflexivity].
           apply Qle_bool_iff in E0. now apply Qle_not_lt in E0.
        -- assert (Hf : false = true) by (apply IH; eauto). discriminate.
Qed.

(** X21: after [clean_amount_column] the validation never reports
    negative amounts, and it reports that no data rows were found
    exactly when the cleaning kept no row; on a table in general it
    reports negative amounts exactly when some amount is below zero. *)
Theorem validate_after_cleaning {R} (nulls : R -> nat)
    (read_number : string -> option Q) :
  (forall df : list (option Q * R),
      In "Negative amounts found" (validate_data nulls df) <->
      exists a r, In (Some a, r) df /\ a < 0) /\
  (forall df : amounts R,
      ~ In "Negative amounts found"
           (validate_data nulls
              (map (fun row => (Some (fst row), snd row))
                   (clean_amount_column read_number df)))) /\
  (forall df : amounts R,
      In "No data rows found"
         (validate_data nulls
            (map (fun row => (Some (fst row), snd row))
                 (clean_amount_column read_number df)))
      <-> clean_amount_column read_number df = []).
Proof.
  assert (Hneg : forall df : list (option Q * R),
             In "Negative amounts found" (validate_data nulls df) <->
             exists a r, In (Some a, r) df /\ a < 0).
  { intros df. unfold validate_data. rewrite !in_app_iff.
    destruct (below_zero (minimum (map fst (dropna df)))) eqn:E.
    - split; [|intros _; right; left; now left].
      intros _. apply minimum_below in E as (x & Hx & Hneg).
      apply in_map_iff in Hx as ([a r] & <- & Hin).
      apply dropna_In in Hin. eauto.
    - split.
      + intros [H|[H|[H|H]]].
        * destruct (List.length df =? 0)%nat;
            [destruct H as [H|[]]; discriminate | destruct H].
        * destruct H.
        * destruct (above_ten_thousand _);
            [destruct H as [H|[]]; discriminate | destruct H].
        * destruct (0 <? _)%nat;
            [destruct H as [H|[]]; discriminate | destruct H].
      + intros (a & r & Hin & Hlt).
        assert (Ht : below_zero (minimum (map fst (dropna df))) = true).
        { apply minimum_below. exists a. split; [|exact Hlt].
          apply in_map_iff. exists (a, r). split; [reflexivity|].
          now apply dropna_In. }
        congruence. }
  split; [exact Hneg|]. split.
  - intros df H. apply Hneg in H as (a & r & Hin & Hlt).
    apply in_map_iff in Hin as ([b r'] & [= <- <-] & Hin).
    unfold clean_amount_column in Hin.
    apply in_map_iff in Hin as (x & [= <- _] & _).
    now apply Qle_not_lt in Hlt; [|apply Qabs_nonneg].
  - intros df. unfold validate_data. rewrite length_map.
    destruct (clean_amount_column read_number df) as [|row rows].
    + split; [reflexivity|]. intros _. simpl. now left.
    + split; [|discriminate]. rewrite !in_app_iff.
      change (List.length (row :: rows) =? 0)%nat with false.
      intros [H|[H|[H|H]]].
      * destruct H.
      * destruct (below_zero _);
          [destruct H as [H|[]]; discriminate | destruct H].
      * destruct (above_ten_thousand _);
          [destruct H as [H|[]]; discriminate | destruct H].
      * destruct (0 <? _)%nat;
          [destruct H as [H|[]]; discriminate | destruct H].
Qed.

(** ** Standardizing twice *)

Lemma filter_filter_label (k k0 : string) (cols : list string) :
  filter (String.eqb k) (filter (String.eqb k0) cols)
  = if String.eqb k0 k then filter (String.eqb k) cols else [].
Proof.
  induction cols as [|c cols IH]; simpl.
  - now destruct (String.eqb k0 k).
  - destruct (String.eqb_spec k0 c) as [<-|Hne]; simpl.
    + rewrite IH. rewrite (String.eqb_sym k k0).
      now destruct (String.eqb k0 k).
    + rewrite IH. destruct (String.eqb_spec k0 k) as [<-|Hne'];
        [|reflexivity].
      apply String.eqb_neq in Hne. now rewrite Hne.
Qed.

Lemma filter_select_absent (cols keys : list string) (k : string) :
  ~ In k keys -> filter (String.eqb k) (select_labels cols keys) = [].
Proof.
  induction keys as [|k0 keys IH]; simpl; [reflexivity|].
  intros H. rewrite filter_app, filter_filter_label, IH by tauto.
  destruct (String.eqb_spec k0 k) as [->|_]; [elim H; now left|].
  reflexivity.
Qed.

Lemma filter_select_present (cols keys : list string) (k : string) :
  NoDup keys -> In k keys ->
  filter (String.eqb k) (select_labels cols keys)
  = filter (String.eqb k) cols.
Proof.
  induction 1 as [|k0 keys Hnot Hnd IH]; [easy|]. simpl.
  rewrite filter_app, filter_filter_label.
  intros [->|Hin].
  - rewrite String.eqb_refl, filter_select_absent by assumption.
    apply app_nil_r.
  - destruct (String.eqb_spec k0 k) as [->|_]; [now elim Hnot|].
    now apply IH.
Qed.

Lemma select_labels_again (cols keys keys' : list string) :
  NoDup keys -> incl keys' keys ->
  select_labels (select_labels cols keys) keys' = select_labels cols keys'.
Proof.
  intros Hnd. induction keys' as [|k keys' IH]; intros Hincl; simpl;
    [reflexivity|].
  rewrite filter_select_present, IH; auto.
  - intros x Hx. apply Hincl. now right.
  - apply Hincl. now left.
Qed.

Lemma cells_at_app (l1 l2 : list string) (r1 r2 : list cell) (k : string) :
  List.length r1 = List.length l1 ->
  cells_at (l1 ++ l2) (r1 ++ r2) k
  = (cells_at l1 r1 k ++ cells_at l2 r2 k)%list.
Proof.
  revert r1. induction l1 as [|c l1 IH]; intros [|x r1]; simpl; try easy.
  intros [= Hlen]. rewrite (IH r1 Hlen).
  now destruct (String.eqb c k).
Qed.

Lemma length_cells_at (cols : list string) (row : list cell) (k : string) :
  List.length row = List.length cols ->
  List.length (cells_at cols row k)
  = List.length (filter (String.eqb k) cols).
Proof.
  revert row. induction cols as [|c cols IH]; intros [|x row]; simpl;
    try easy.
  intros [= Hlen]. rewrite (String.eqb_sym k c).
  destruct (String.eqb c k); simpl; now rewrite (IH row Hlen).
Qed.

Lemma cells_at_filter (cols : list string) (row : list cell)
                      (k k0 : string) :
  List.length row = List.length cols ->
  cells_at (filter (String.eqb k0) cols) (cells_at cols row k0) k
  = if String.eqb k0 k then cells_at cols row k0 else [].
Proof.
  revert row. induction cols as [|c cols IH]; intros [|x row]; simpl;
    try easy.
  - intros _. now destruct (String.eqb k0 k).
  - intros [= Hlen]. rewrite (String.eqb_sym k0 c).
    destruct (String.eqb_spec c k0) as [->|Hne]; simpl.
    + rewrite (IH row Hlen). now destruct (String.eqb k0 k).
    + now apply IH.
Qed.

Lemma length_select (cols keys : list string) (row : list cell) :
  List.length row = List.length cols ->
  List.length (select_cells cols row keys)
  = List.length (select_labels cols keys).
Proof.
  intros Hlen. induction keys as [|k keys IH]; simpl; [reflexivity|].
  now rewrite !length_app, IH, length_cells_at.
Qed.

Lemma cells_select_absent (cols keys : list string) (row : list cell)
                          (k : string) :
  List.length row = List.length cols -> ~ In k keys ->
  cells_at (select_labels cols keys) (select_cells cols row keys) k = [].
Proof.
  intros Hlen. induction keys as [|k0 keys IH]; simpl; [reflexivity|].
  intros H. rewrite cells_at_app by now apply length_cells_at.
  rewrite cells_at_filter, IH by tauto.
  destruct (String.eqb_spec k0 k) as [->|_]; [elim H; now left|].
  reflexivity.
Qed.

Lemma cells_select_present (cols keys : list string) (row : list cell)
                           (k : string) :
  List.length row = List.length cols -> NoDup keys -> In k keys ->
  cells_at (select_labels cols keys) (select_cells cols row keys) k
  = cells_at cols row k.
Proof.
  intros Hlen. induction 1 as [|k0 keys Hnot Hnd IH]; [easy|]. simpl.
  rewrite cells_at_app by now apply length_cells_at.
  rewrite cells_at_filter by assumption.
  intros [->|Hin].
  - rewrite String.eqb_refl, cells_select_absent by assumption.
    apply app_nil_r.
  - destruct (String.eqb_spec k0 k) as [->|_]; [now elim Hnot|].
    now apply IH.
Qed.

Lemma select_cells_again (cols keys keys' : list string) (row : list cell) :
  List.length row = List.length cols -> NoDup keys -> incl keys' keys ->
  select_cells (select_labels cols keys) (select_cells cols row keys) keys'
  = select_cells cols row keys'.
Proof.
  intros Hlen Hnd. induction keys' as [|k keys' IH]; intros Hincl; simpl;
    [reflexivity|].
  rewrite cells_select_present, IH; auto.
  - intros x Hx. apply Hincl. now right.
  - apply Hincl. now left.
Qed.

Lemma filter_none {A} (p : A -> bool) (l : list A) :
  (forall x, In x l -> p x = false) -> filter p l = [].
Proof.
  induction l as [|x l IH]; intros H; [reflexivity|].
  simpl. rewrite (H x) by now left.
  apply IH. intros; apply H; now right.
Qed.

Lemma canonical_labels (labels : list string) :
  incl labels required_columns ->
  normalize_labels labels = labels
  /\ map (rename_label column_mapping) labels = labels.
Proof.
  intros H.
  assert (Hl : forall l, In l labels ->
                         strip (lower l) = l
                         /\ rename_label column_mapping l = l).
  { intros l Hl. apply H in Hl. unfold required_columns in Hl.
    simpl in Hl. destruct Hl as [<-|[<-|[<-|[<-|[]]]]]; now split. }
  unfold normalize_labels. split.
  - rewrite <- (map_id labels) at 2. apply map_ext_in.
    intros l Hin. now apply Hl.
  - rewrite <- (map_id labels) at 2. apply map_ext_in.
    intros l Hin. now apply Hl.
Qed.

(** X22: standardizing a standardized table changes nothing: when
    [standardize_columns] has returned a table, the same call on that
    table returns it again and leaves it as it is. *)
Theorem standardize_columns_again (df out : DataFrame) :
  well_formed df = true ->
  snd (standardize_columns df) = Ok out ->
  standardize_columns out = (out, Ok out).
Proof.
  intros Hwf. unfold standardize_columns at 1. cbn [columns rows].
  fold (resolved_labels df).
  remember required_columns as required eqn:Hreq.
  destruct (filter (fun col => negb (mem col (resolved_labels df)))
                   required) as [|m ms] eqn:E; [|discriminate].
  unfold getitem_list. cbn [columns rows snd]. rewrite E.
  intros Hout. injection Hout as <-.
  set (cols := resolved_labels df).
  assert (Hnd : NoDup required).
  { subst required. unfold required_columns.
    repeat constructor; simpl; intuition discriminate. }
  assert (Hsub : incl (select_labels cols required) required).
  { intros x Hx. now apply select_labels_In in Hx as [Hx _]. }
  rewrite Hreq in Hsub.
  destruct (canonical_labels _ Hsub) as [Hnorm Hren].
  rewrite <- Hreq in *.
  unfold standardize_columns. cbn [columns rows]. rewrite Hnorm, Hren.
  rewrite <- Hreq.
  assert (Hmiss : filter (fun col => negb (mem col (select_labels cols
                                                      required)))
                         required = []).
  { assert (Hall : forall x, In x required ->
                             negb (mem x (select_labels cols required))
                             = false).
    { intros x Hx. apply negb_false_iff, mem_In, select_labels_In.
      split; [exact Hx|].
      destruct (mem x cols) eqn:Em; [now apply mem_In|].
      assert (Hin : In x (filter (fun col => negb (mem col cols)) required))
        by (apply filter_In; split; [exact Hx | now rewrite Em]).
      unfold cols in Hin. now rewrite E in Hin. }
    now apply filter_none. }
  rewrite Hmiss. unfold getitem_list. cbn [columns rows]. rewrite Hmiss.
  rewrite select_labels_again by (auto using incl_refl).
  rewrite map_map. f_equal. f_equal. f_equal.
  apply map_ext_in. intros row Hrow.
  apply select_cells_again; auto using incl_refl.
  unfold cols, resolved_labels, normalize_labels. rewrite !length_map.
  apply (PandasFacts.well_formed_rows df row Hwf Hrow).
Qed.

Lemma standardize_columns_again_witness :
  standardize_columns
    {| columns := ["date"; "description"; "category"; "amount"];
       rows := [[Str "2024-01-15"; Str "Coffee"; Str "Food"; Num 5]] |}
  = ({| columns := ["date"; "description"; "category"; "amount"];
        rows := [[Str "2024-01-15"; Str "Coffee"; Str "Food"; Num 5]] |},
     Ok {| columns := ["date"; "description"; "category"; "amount"];
           rows := [[Str "2024-01-15"; Str "Coffee"; Str "Food";
                     Num 5]] |}).
Proof.
  apply (standardize_columns_again bank_export); reflexivity.
Defined.

End UtilsFacts.

(* ===================================================================== *)
(** * The training button                                                 *)
(* ===================================================================== *)

Module AppFacts.
Import Py Categorizer App.

Lemma train_never_false {sk : Sklearn} (self : ExpenseCategorizer)
                        (df : list labeled) :
  (20 <= List.length df)%nat -> snd (train_ml_model self df) <> Ok false.
Proof.
  intros Hlen. unfold train_ml_model.
  destruct (List.length df <? 20)%nat eqn:E;
    [apply Nat.ltb_lt in E; lia|].
  destruct (fit_transform _ _) as [v [X|e]]; [|discriminate].
  destruct (train_test_split X _ _ _)
    as [[[[X_train X_test] y_train] y_test]|e]; [|discriminate].
  destruct (fit _ X_train y_train) as [m [u|e]]; [|discriminate].
  destruct (predict m X_test) as [y_pred|e]; [|discriminate].
  destruct (accuracy_score y_test y_pred); discriminate.
Qed.

(** X10: the 'Train ML Model' button trains only with more than 50 rows:
    with 50 rows or fewer it leaves the categorizer as it was and shows
    no message at all, although 20 rows are enough for
    [train_ml_model]; and the message 'Insufficient data for ML
    training' is never shown, because the training cannot return False
    on more than 50 rows. *)
Theorem train_button_messages {sk : Sklearn} (self : ExpenseCategorizer)
                              (df : list labeled) :
  ((List.length df <= 50)%nat -> train_button self df = (self, Ok None)) /\
  (forall self' message,
      train_button self df = (self', Ok (Some message)) ->
      (50 < List.length df)%nat /\
      message = Success "ML model trained successfully!" /\
      train_ml_model self df = (self', Ok true)).
Proof.
  unfold train_button. split.
  - intros Hlen. apply Nat.ltb_ge in Hlen. now rewrite Hlen.
  - intros self' message.
    destruct (50 <? List.length df)%nat eqn:E; [|discriminate].
    apply Nat.ltb_lt in E.
    pose proof (train_never_false self df) as Hnf.
    destruct (train_ml_model self df) as [self1 [[|]|e]]; simpl in *.
    + intros [= <- <-]. auto.
    + elim Hnf; [lia | reflexivity].
    + discriminate.
Qed.

End AppFacts.
